(** * The metric-definitions view of the LookML generator

    A shallow embedding of [generator/views/metric_definitions_view.py]:
    the class [MetricDefinitionsView], which turns the metric-hub metrics of
    one data source into a LookML view backed by a derived table.

    Python values that end up in the generated LookML are modelled by the
    type [Value] (strings, lists and insertion-ordered dictionaries);
    exceptions by the error monad [Result].  The collaborators that live
    outside this file (the metric-hub configuration, the table view, the
    title helper of [lookml_utils], [str.format] and [str]) are the fields of
    an environment record [Env].  The record that the table view returns is
    changed in place by [to_lookml]; [to_lookml_st] returns it next to the
    view. *)

From Stdlib Require Import String Ascii List Bool Arith Lia.
Import ListNotations.
Local Open Scope string_scope.
Local Open Scope list_scope.

Set Implicit Arguments.

(** ** Python values *)

#[warnings="-register-all"] Inductive Value : Type :=
| VStr (s : string)
| VList (l : list Value)
| VDict (d : list (string * Value)).

(** A [dict] with string keys, in insertion order. *)
Definition Dict : Type := list (string * Value).

Inductive exn : Type :=
| AttributeError
| KeyError
| IndexError
| TypeError
| TemplateError
| ExternalError.

Inductive Result (A : Type) : Type :=
| Ok (a : A)
| Raise (e : exn).

Arguments Ok {A} a.
Arguments Raise {A} e.

Definition bind {A B : Type} (c : Result A) (k : A -> Result B) : Result B :=
  match c with
  | Ok a => k a
  | Raise e => Raise e
  end.

Notation "x <- c ;; k" := (bind c (fun x => k))
  (at level 61, c at next level, right associativity).

(** [[f(x) for x in l]] where [f] may raise. *)
Fixpoint mapM {A B : Type} (f : A -> Result B) (l : list A) : Result (list B) :=
  match l with
  | [] => Ok []
  | x :: rest =>
      y <- f x ;;
      ys <- mapM f rest ;;
      Ok (y :: ys)
  end.

(** [[g(x) for x in l if c(x)]] where both the condition and the element may
    raise: [f x] is [Ok None] when the condition fails. *)
Fixpoint filter_mapM {A B : Type} (f : A -> Result (option B)) (l : list A)
  : Result (list B) :=
  match l with
  | [] => Ok []
  | x :: rest =>
      y <- f x ;;
      ys <- filter_mapM f rest ;;
      Ok (match y with Some b => b :: ys | None => ys end)
  end.

(** A loop that appends any number of items per iteration. *)
Fixpoint flat_mapM {A B : Type} (f : A -> Result (list B)) (l : list A)
  : Result (list B) :=
  match l with
  | [] => Ok []
  | x :: rest =>
      ys <- f x ;;
      zs <- flat_mapM f rest ;;
      Ok (ys ++ zs)
  end.

(** *** Dictionaries *)

Fixpoint dict_find {V : Type} (k : string) (d : list (string * V)) : option V :=
  match d with
  | [] => None
  | (k', v) :: rest => if String.eqb k' k then Some v else dict_find k rest
  end.

(** [d[k]] *)
Definition getitem {V : Type} (d : list (string * V)) (k : string) : Result V :=
  match dict_find k d with
  | Some v => Ok v
  | None => Raise KeyError
  end.

(** [d[k] = v]: an existing key keeps its position, a new key goes last. *)
Fixpoint dict_set {V : Type} (k : string) (v : V) (d : list (string * V))
  : list (string * V) :=
  match d with
  | [] => [(k, v)]
  | (k', v') :: rest =>
      if String.eqb k' k then (k, v) :: rest else (k', v') :: dict_set k v rest
  end.

(** [v[k]] on a value that should be a dictionary. *)
Definition subscript (v : Value) (k : string) : Result Value :=
  match v with
  | VDict d => getitem d k
  | _ => Raise TypeError
  end.

(** [v[k] = x] on a value that should be a dictionary. *)
Definition setitem (v : Value) (k : string) (x : Value) : Result Value :=
  match v with
  | VDict d => Ok (VDict (dict_set k x d))
  | _ => Raise TypeError
  end.

(** [v[0]]: the first item of a list, the first character of a string; a
    dictionary with string keys has no key [0]. *)
Definition first_item (v : Value) : Result Value :=
  match v with
  | VList (x :: _) => Ok x
  | VList [] => Raise IndexError
  | VStr (String c _) => Ok (VStr (String c ""))
  | VStr EmptyString => Raise IndexError
  | VDict _ => Raise KeyError
  end.

(** [for x in v]: the items of a list, the characters of a string, the keys
    of a dictionary. *)
Definition items_of (v : Value) : list Value :=
  match v with
  | VList l => l
  | VStr s => map (fun c => VStr (String c "")) (list_ascii_of_string s)
  | VDict d => map (fun kv => VStr (fst kv)) d
  end.

(** A value where only a string will do: the right operand of [str + v],
    and the slug handed to the registry, which looks it up in a dictionary
    (a list or a dictionary is not hashable). *)
Definition as_str (v : Value) : Result string :=
  match v with
  | VStr s => Ok s
  | _ => Raise TypeError
  end.

(** [v in l] and [v == s] for a list of strings [l] and a string [s]. *)
Definition value_eq_str (v : Value) (s : string) : bool :=
  match v with
  | VStr s' => String.eqb s' s
  | _ => false
  end.

Definition value_in (v : Value) (l : list string) : bool :=
  existsb (value_eq_str v) l.

(** Truth value of a Python object. *)
Definition truthy (v : Value) : bool :=
  match v with
  | VStr s => negb (String.eqb s "")
  | VList l => negb (Nat.eqb (List.length l) 0)
  | VDict d => negb (Nat.eqb (List.length d) 0)
  end.

(** Truth value of an [Optional[str]]: [None] and [""] are false. *)
Definition truthy_str (x : option string) : bool :=
  match x with
  | Some s => negb (String.eqb s "")
  | None => false
  end.

(** [x or default] for an [Optional[str]]. *)
Definition or_else (x : option string) (default : string) : string :=
  if truthy_str x then match x with Some s => s | None => default end
  else default.

(** An f-string: the concatenation of its pieces. *)
Definition fstr (pieces : list string) : string := String.concat "" pieces.

(** [re.sub("^" + prefix, "", s)]: the pattern is anchored at the start of
    the string, so at most one occurrence is removed. *)
Definition re_sub_prefix (prefix s : string) : string :=
  if String.prefix prefix s
  then String.substring (String.length prefix)
                        (String.length s - String.length prefix) s
  else s.

(** ** The metric-hub configuration (as this view reads it) *)

Module DataSourceReference.
Record t : Type := { name : string }.
End DataSourceReference.

(** A metric of the registry.  Its data source is optional: a metric that
    names none has [None] there. *)
Module Metric.
Record t : Type := {
  select_expression : option string;
  data_source : option DataSourceReference.t;
  type : string;
  friendly_name : option string;
  description : option string;
  statistics : option Dict
}.
End Metric.

(** [metric.data_source.name]: a metric without data source has [None]
    there, which has no attribute [name]. *)
Definition data_source_name_of (metric : Metric.t) : Result string :=
  match Metric.data_source metric with
  | Some source => Ok (DataSourceReference.name source)
  | None => Raise AttributeError
  end.

Module DataSourceDefinition.
Record t : Type := {
  submission_date_column : option string;
  client_id_column : option string
}.
End DataSourceDefinition.

Module MetricsSpec.
Record t : Type := { definitions : list (string * Metric.t) }.
End MetricsSpec.

Module PlatformDefinitions.
Record t : Type := { metrics : MetricsSpec.t }.
End PlatformDefinitions.

(** [MetricsConfigLoader.configs].  [render] stands for
    [get_env().from_string(e).render()], which raises on a template it cannot
    render. *)
Module ConfigCollection.
Record t : Type := {
  get_platform_definitions : string -> option PlatformDefinitions.t;
  get_data_source_definition : string -> string -> option DataSourceDefinition.t;
  get_data_source_sql : string -> string -> string;
  get_metric_definition : string -> string -> option Metric.t;
  render : string -> Result string
}.
End ConfigCollection.

(** ** Views *)

Module View.
Record t : Type := {
  namespace : string;
  name : string;
  view_type : string;
  tables : list (list (string * string))
}.
End View.

(** [MetricDefinitionsView.__init__] *)
Definition MetricDefinitionsView (namespace name : string)
    (tables : list (list (string * string))) : View.t :=
  {| View.namespace := namespace;
     View.name := name;
     View.view_type := "metric_definitions_view";
     View.tables := tables |}.

(** [TableView.__init__] *)
Definition TableView (namespace name : string)
    (tables : list (list (string * string))) : View.t :=
  {| View.namespace := namespace;
     View.name := name;
     View.view_type := "table_view";
     View.tables := tables |}.

(** [MetricDefinitionsView.from_db_views]: this kind of view is never
    discovered from the database views. *)
Definition from_db_views (namespace : string) (is_glean : bool)
    (channels : list (list (string * string))) (db_views : Dict)
  : list View.t := [].

(** [MetricDefinitionsView.from_dict]: [definition.get("tables", [])]. *)
Definition from_dict (namespace name : string)
    (definition : list (string * list (list (string * string)))) : View.t :=
  MetricDefinitionsView namespace name
    (match dict_find "tables" definition with Some t => t | None => [] end).

(** ** The generator *)

Section Generator.

(** The BigQuery client is only handed on to the table view. *)
Variable BqClient : Type.

(** What the view uses and this file does not define. *)
Record Env : Type := {
  (** [MetricsConfigLoader.configs] *)
  configs : ConfigCollection.t;
  (** [TableView.to_lookml(bq_client, v1_name)] *)
  TableView_to_lookml : View.t -> BqClient -> option string -> Result Value;
  (** [lookml_utils.slug_to_title] *)
  slug_to_title : string -> string;
  (** [template.format(dataset=...)] *)
  format_dataset : string -> string -> Result string;
  (** [str(v)] for a list or a dictionary [v] *)
  py_str : Value -> string
}.

Variable env : Env.

(** [f"{v}"]: a string is taken as it is, anything else through [str]. *)
Definition format_value (v : Value) : string :=
  match v with
  | VStr s => s
  | _ => py_str env v
  end.

(** [get_dimensions]: the [client_id] dimension, then one dimension per
    metric of this view's data source.  The three unused arguments of the
    Python method are left out. *)
Definition get_dimensions (self : View.t) : Result (list Value) :=
  match ConfigCollection.get_platform_definitions (configs env) (View.namespace self) with
  | None => Raise AttributeError
  | Some namespace_definitions =>
      let metric_definitions :=
        MetricsSpec.definitions (PlatformDefinitions.metrics namespace_definitions) in
      let data_source_name := re_sub_prefix "metric_definitions_" (View.name self) in
      metric_dimensions <-
        filter_mapM
          (fun '(metric_slug, metric) =>
             keep <- (if truthy_str (Metric.select_expression metric)
                      then (source <- data_source_name_of metric ;;
                            Ok (String.eqb source data_source_name
                                && negb (String.eqb (Metric.type metric) "histogram")))
                      else Ok false) ;;
             if keep
             then Ok (Some (VDict [ ("name", VStr metric_slug);
                                    ("group_label", VStr "Metrics");
                                    ("label", VStr (or_else (Metric.friendly_name metric)
                                                            (slug_to_title env metric_slug)));
                                    ("description",
                                     VStr (or_else (Metric.description metric) ""));
                                    ("type", VStr "number");
                                    ("sql", VStr ("${TABLE}." ++ metric_slug)%string) ]))
             else Ok None)
          metric_definitions ;;
      Ok ([ VDict [ ("name", VStr "client_id");
                    ("type", VStr "string");
                    ("sql", VStr "SAFE_CAST(${TABLE}.client_id AS STRING)");
                    ("label", VStr "Client ID");
                    ("primary_key", VStr "yes");
                    ("group_label", VStr "Base Fields");
                    ("description", VStr "Unique client identifier") ] ]
          ++ metric_dimensions)
  end.

(** [get_dimension_groups] *)
Definition get_dimension_groups (self : View.t) : list Value :=
  [ VDict [ ("name", VStr "submission");
            ("type", VStr "time");
            ("group_label", VStr "Base Fields");
            ("sql", VStr "CAST(${TABLE}.analysis_basis AS TIMESTAMP)");
            ("label", VStr "Submission");
            ("timeframes", VList [ VStr "raw"; VStr "date"; VStr "week";
                                   VStr "month"; VStr "quarter"; VStr "year" ]) ] ].

(** The body of the loop over [metric.statistics.items()] in
    [get_measures]: the measures one statistic adds for one dimension. *)
Definition measures_of_statistic (dimension : Value) (statistic_slug : string)
  : Result (list Value) :=
  if String.eqb statistic_slug "sum" then
    name_v <- subscript dimension "name" ;;
    name <- as_str name_v ;;
    label_v <- subscript dimension "label" ;;
    Ok [ VDict [ ("name", VStr (fstr [format_value name_v; "_"; statistic_slug]));
                 ("type", VStr "sum");
                 ("sql", VStr ("${TABLE}." ++ name)%string);
                 ("label", VStr (fstr [format_value label_v; " Sum"]));
                 ("group_label", VStr "Statistics");
                 ("description", VStr (fstr ["Sum of "; format_value label_v])) ] ]
  else if String.eqb statistic_slug "client_count" then
    name_v <- subscript dimension "name" ;;
    label_v <- subscript dimension "label" ;;
    Ok [ VDict [ ("name", VStr (fstr [format_value name_v; "_"; statistic_slug]));
                 ("type", VStr "count_distinct");
                 ("label", VStr (fstr [format_value label_v; " Client Count"]));
                 ("group_label", VStr "Statistics");
                 ("sql", VStr ("IF(SAFE_CAST(${TABLE}."
                               ++ fstr [format_value name_v; " AS BOOL), "]
                               ++ "${TABLE}.client_id, SAFE_CAST(NULL AS STRING))")%string);
                 ("description",
                  VStr (fstr ["Number of clients with "; format_value label_v])) ] ]
  else Ok [].

(** The body of the loop over [dimensions] in [get_measures]. *)
Definition measures_of_dimension (self : View.t) (dimension : Value)
  : Result (list Value) :=
  name_v <- subscript dimension "name" ;;
  name <- as_str name_v ;;
  match ConfigCollection.get_metric_definition (configs env) name (View.namespace self) with
  | Some metric =>
      match Metric.statistics metric with
      | Some ((_ :: _) as statistics) =>
          flat_mapM (fun '(statistic_slug, _) =>
                       measures_of_statistic dimension statistic_slug)
                    statistics
      | _ => Ok []
      end
  | None => Ok []
  end.

(** [get_measures] *)
Definition get_measures (self : View.t) (dimensions : list Value)
  : Result (list Value) :=
  flat_mapM (measures_of_dimension self) dimensions.

(** [_get_sets] *)
Definition _get_sets (self : View.t) : Result (list Value) :=
  dimensions <- get_dimensions self ;;
  measures <- get_measures self dimensions ;;
  dimension_names <-
    filter_mapM (fun dimension =>
                   n <- subscript dimension "name" ;;
                   if negb (value_eq_str n "client_id")
                   then (n' <- subscript dimension "name" ;; Ok (Some n'))
                   else Ok None)
                dimensions ;;
  measure_names <- mapM (fun measure => subscript measure "name") measures ;;
  Ok [ VDict [ ("name", VStr "metrics");
               ("fields", VList (dimension_names ++ measure_names)) ] ].

(** [_get_parameters] *)
Definition _get_parameters (self : View.t) : list Value :=
  [ VDict [ ("name", VStr "aggregate_metrics_by");
            ("label", VStr "Aggregate Client Metrics Per");
            ("type", VStr "unquoted");
            ("default_value", VStr "day");
            ("allowed_values",
             VList [ VDict [("label", VStr "Per Day"); ("value", VStr "day")];
                     VDict [("label", VStr "Per Week"); ("value", VStr "week")];
                     VDict [("label", VStr "Per Month"); ("value", VStr "month")];
                     VDict [("label", VStr "Per Quarter"); ("value", VStr "quarter")];
                     VDict [("label", VStr "Per Year"); ("value", VStr "year")];
                     VDict [("label", VStr "Overall"); ("value", VStr "overall")] ]) ] ].

(** The [join_base_view] f-string of [to_lookml], built when the view has a
    base table. *)
Definition join_base_view_sql (base_table : string)
    (data_source_definition : DataSourceDefinition.t) : string :=
  fstr [ "
            INNER JOIN "; base_table; " base
            ON
                base.submission_date = m.";
         or_else (DataSourceDefinition.submission_date_column data_source_definition)
                 "submission_date"; " AND
                base.client_id = m.";
         or_else (DataSourceDefinition.client_id_column data_source_definition)
                 "client_id"; "
            WHERE base.submission_date BETWEEN
                SAFE_CAST(
                    {% date_start ";
         or_else (DataSourceDefinition.submission_date_column data_source_definition)
                 "submission_date"; " %} AS DATE
                ) AND
                SAFE_CAST(
                    {% date_end ";
         or_else (DataSourceDefinition.submission_date_column data_source_definition)
                 "submission_date"; " %} AS DATE
                )
            " ].

(** The part of the [derived_table] f-string that computes [analysis_basis]:
    from [{% if] to [{% endif %}]. *)
Definition analysis_basis_sql (data_source_definition : DataSourceDefinition.t)
  : string :=
  fstr [ "{% if aggregate_metrics_by._parameter_value == 'day' %}
                m.";
         or_else (DataSourceDefinition.submission_date_column data_source_definition)
                 "submission_date"; " AS analysis_basis
                {% elsif aggregate_metrics_by._parameter_value == 'week'  %}
                (FORMAT_DATE(
                    '%F',
                    DATE_TRUNC(m.";
         or_else (DataSourceDefinition.submission_date_column data_source_definition)
                 "submission_date"; ",
                    WEEK(MONDAY)))
                ) AS analysis_basis
                {% elsif aggregate_metrics_by._parameter_value == 'month'  %}
                (FORMAT_DATE(
                    '%Y-%m',
                    m.";
         or_else (DataSourceDefinition.submission_date_column data_source_definition)
                 "submission_date"; ")
                ) AS analysis_basis
                {% elsif aggregate_metrics_by._parameter_value == 'quarter'  %}
                (FORMAT_DATE(
                    '%Y-%m',
                    DATE_TRUNC(m.";
         or_else (DataSourceDefinition.submission_date_column data_source_definition)
                 "submission_date"; ",
                    QUARTER))
                ) AS analysis_basis
                {% elsif aggregate_metrics_by._parameter_value == 'year'  %}
                (EXTRACT(
                    YEAR FROM m.";
         or_else (DataSourceDefinition.submission_date_column data_source_definition)
                 "submission_date"; ")
                ) AS analysis_basis
                {% else %}
                NULL as analysis_basis
                {% endif %}" ].

(** The [derived_table] f-string of [to_lookml]; [from_sql] is the formatted
    SQL of the data source. *)
Definition derived_table_sql (metric_definitions base_view_fields : list string)
    (data_source_definition : DataSourceDefinition.t)
    (from_sql join_base_view : string) : string :=
  fstr [ "
            SELECT
                "; String.concat "" metric_definitions; "
                "; String.concat "base." base_view_fields; "
                m.";
         or_else (DataSourceDefinition.client_id_column data_source_definition)
                 "client_id"; " AS client_id,
                ";
         analysis_basis_sql data_source_definition; "
            FROM
                "; from_sql; "
            AS m
            "; join_base_view; "
            ";
         (if truthy (VStr join_base_view) then "AND" else "WHERE");
         " m.submission_date BETWEEN
                SAFE_CAST(
                    {% date_start ";
         or_else (DataSourceDefinition.submission_date_column data_source_definition)
                 "submission_date"; " %} AS DATE
                ) AND
                SAFE_CAST(
                    {% date_end ";
         or_else (DataSourceDefinition.submission_date_column data_source_definition)
                 "submission_date"; " %} AS DATE
                )
            GROUP BY
                "; String.concat "" base_view_fields; "
                client_id,
                analysis_basis
            " ].

(** [base_view_lkml["views"][0][key]], iterated. *)
Definition base_view_items (base_view_lkml : Value) (key : string)
  : Result (list Value) :=
  views <- subscript base_view_lkml "views" ;;
  view0 <- first_item views ;;
  fields <- subscript view0 key ;;
  Ok (items_of fields).

(** The [if len(self.tables) > 0] block of [to_lookml]: the values of
    [base_view_fields], [base_view_lkml] and [join_base_view] after it. *)
Definition base_view_block (self : View.t) (bq_client : BqClient)
    (data_source_definition : DataSourceDefinition.t)
    (ignore_base_fields : list string)
  : Result (list string * option Value * string) :=
  match View.tables self with
  | [] => Ok ([], None, "")
  | table0 :: _ =>
      base_table <- getitem table0 "table" ;;
      let base_view :=
        TableView (View.namespace self) "base_view"
                  [ [("table", base_table); ("channel", "release")] ] in
      base_view_lkml <- TableView_to_lookml env base_view bq_client None ;;
      dimensions <- base_view_items base_view_lkml "dimensions" ;;
      base_view_fields <-
        filter_mapM (fun d =>
                       n <- subscript d "name" ;;
                       if negb (value_in n ignore_base_fields)
                       then (n' <- subscript d "name" ;;
                             Ok (Some (fstr [format_value n'; ",
"])))
                       else Ok None)
                    dimensions ;;
      Ok (base_view_fields, Some base_view_lkml,
          join_base_view_sql base_table data_source_definition)
  end.

(** One of the two loops under [if base_view_lkml]: the fields of the base
    view that are appended, each with its group label set. *)
Definition base_fields_to_append (base_view_lkml : Value) (key : string)
    (ignore_base_fields : list string) : Result (list Value) :=
  fields <- base_view_items base_view_lkml key ;;
  filter_mapM (fun dimension =>
                 n <- subscript dimension "name" ;;
                 if negb (value_in n ignore_base_fields)
                 then (dimension' <- setitem dimension "group_label" (VStr "Base Fields") ;;
                       Ok (Some dimension'))
                 else Ok None)
              fields.

(** The list [metric_definitions] of [to_lookml]: one SQL column per metric
    of this view's data source. *)
Definition metric_definitions (namespace_definitions : PlatformDefinitions.t)
    (data_source_name : string) : Result (list string) :=
  filter_mapM
    (fun '(metric_slug, metric) =>
       keep <- (if truthy_str (Metric.select_expression metric)
                then (source <- data_source_name_of metric ;;
                      Ok (String.eqb source data_source_name
                          && negb (String.eqb (Metric.type metric) "histogram")))
                else Ok false) ;;
       if keep
       then (rendered <- match Metric.select_expression metric with
                         | Some e => ConfigCollection.render (configs env) e
                         | None => Raise TypeError
                         end ;;
             Ok (Some (fstr [rendered; " AS "; metric_slug; ",
"])))
       else Ok None)
    (MetricsSpec.definitions (PlatformDefinitions.metrics namespace_definitions)).

(** The list [ignore_base_fields] of [to_lookml]. *)
Definition ignore_base_fields (namespace_definitions : PlatformDefinitions.t)
    (data_source_name : string) : Result (list string) :=
  metric_slugs <-
    filter_mapM
      (fun '(metric_slug, metric) =>
         keep <- (if truthy_str (Metric.select_expression metric)
                  then (source <- data_source_name_of metric ;;
                        Ok (String.eqb source data_source_name
                            && negb (String.eqb (Metric.type metric) "histogram")))
                  else Ok false) ;;
         if keep then Ok (Some metric_slug) else Ok None)
      (MetricsSpec.definitions (PlatformDefinitions.metrics namespace_definitions)) ;;
  Ok ([ "client_id"; "submission_date"; "submission"; "first_run" ] ++ metric_slugs).

(** The two loops under [if base_view_lkml]: the lists [dimensions] and
    [dimension_groups] of the view after them. *)
Definition merge_base_fields (base_view_lkml : option Value)
    (ignore : list string) (dimensions dimension_groups : list Value)
  : Result (list Value * list Value) :=
  match base_view_lkml with
  | Some lkml =>
      if truthy lkml then
        ds <- base_fields_to_append lkml "dimensions" ignore ;;
        gs <- base_fields_to_append lkml "dimension_groups" ignore ;;
        Ok (dimensions ++ ds, dimension_groups ++ gs)
      else Ok (dimensions, dimension_groups)
  | None => Ok (dimensions, dimension_groups)
  end.

(** The record [to_lookml] returns for a view. *)
Definition view_record (name sql : string)
    (dimensions dimension_groups measures sets parameters : list Value) : Value :=
  VDict [ ("views",
           VList [ VDict [ ("name", VStr name);
                           ("derived_table", VDict [ ("sql", VStr sql) ]);
                           ("dimensions", VList dimensions);
                           ("dimension_groups", VList dimension_groups);
                           ("measures", VList measures);
                           ("sets", VList sets);
                           ("parameters", VList parameters) ] ]) ].

(** [to_lookml] *)
Definition to_lookml (self : View.t) (bq_client : BqClient)
    (v1_name : option string) : Result Value :=
  match ConfigCollection.get_platform_definitions (configs env) (View.namespace self) with
  | None => Ok (VDict [])
  | Some namespace_definitions =>
  let data_source_name := re_sub_prefix "metric_definitions_" (View.name self) in
  match ConfigCollection.get_data_source_definition (configs env) data_source_name
                                                    (View.namespace self) with
  | None => Ok (VDict [])
  | Some data_source_definition =>
  columns <- metric_definitions namespace_definitions data_source_name ;;
  match columns with
  | [] => Ok (VDict [])
  | _ :: _ =>
  ignore <- ignore_base_fields namespace_definitions data_source_name ;;
  base <- base_view_block self bq_client data_source_definition ignore ;;
  let '(base_view_fields, base_view_lkml, join_base_view) := base in
  from_sql <- format_dataset env
                (ConfigCollection.get_data_source_sql (configs env) data_source_name
                                                      (View.namespace self))
                (View.namespace self) ;;
  let sql := derived_table_sql columns base_view_fields
                               data_source_definition from_sql join_base_view in
  dimensions <- get_dimensions self ;;
  merged <- merge_base_fields base_view_lkml ignore dimensions
                              (get_dimension_groups self) ;;
  let '(dimensions, dimension_groups) := merged in
  measures <- get_measures self dimensions ;;
  sets <- _get_sets self ;;
  Ok (view_record (View.name self) sql dimensions dimension_groups measures sets
                  (_get_parameters self))
  end
  end
  end.

(** ** The record of the table view as a shared object

    The two loops under [if base_view_lkml] assign
    [dimension["group_label"]] on the dictionaries of the record that the
    table view returned: the record is changed in place, and the view that
    [to_lookml] returns holds those very dictionaries.  [to_lookml_st] is
    [to_lookml] with that effect made explicit: it returns the view together
    with the record of the table view as the run leaves it ([None] when the
    table view was not consulted).  The record is taken to be a tree: no
    dictionary occurs in it twice. *)

(** One of the two loops, with the list it iterates: the fields as the loop
    leaves them, and the fields it appends. *)
Fixpoint label_base_fields (ignore_base_fields : list string) (fields : list Value)
  : Result (list Value * list Value) :=
  match fields with
  | [] => Ok ([], [])
  | dimension :: rest =>
      n <- subscript dimension "name" ;;
      step <- (if negb (value_in n ignore_base_fields)
               then (dimension' <- setitem dimension "group_label" (VStr "Base Fields") ;;
                     Ok (dimension', [dimension']))
               else Ok (dimension, [])) ;;
      others <- label_base_fields ignore_base_fields rest ;;
      Ok (fst step :: fst others, snd step ++ snd others)
  end.

(** The record with the list [views[0][key]] as a loop has left it.  What
    is iterated without being a list has no dictionary in it and stays. *)
Definition store_view_field (base_view_lkml : Value) (key : string)
    (fields : list Value) : Value :=
  match base_view_lkml with
  | VDict record =>
      match dict_find "views" record with
      | Some (VList (VDict view0 :: views)) =>
          match dict_find key view0 with
          | Some (VList _) =>
              VDict (dict_set "views"
                              (VList (VDict (dict_set key (VList fields) view0) :: views))
                              record)
          | _ => base_view_lkml
          end
      | _ => base_view_lkml
      end
  | _ => base_view_lkml
  end.

(** The two loops under [if base_view_lkml], and the record after them. *)
Definition merge_base_fields_st (base_view_lkml : option Value)
    (ignore : list string) (dimensions dimension_groups : list Value)
  : Result (list Value * list Value * option Value) :=
  match base_view_lkml with
  | Some lkml =>
      if truthy lkml then
        fields <- base_view_items lkml "dimensions" ;;
        labelled <- label_base_fields ignore fields ;;
        let lkml := store_view_field lkml "dimensions" (fst labelled) in
        groups <- base_view_items lkml "dimension_groups" ;;
        labelled_groups <- label_base_fields ignore groups ;;
        let lkml := store_view_field lkml "dimension_groups" (fst labelled_groups) in
        Ok (dimensions ++ snd labelled, dimension_groups ++ snd labelled_groups,
            Some lkml)
      else Ok (dimensions, dimension_groups, Some lkml)
  | None => Ok (dimensions, dimension_groups, None)
  end.

(** [to_lookml], and the record of the table view when it returns. *)
Definition to_lookml_st (self : View.t) (bq_client : BqClient)
    (v1_name : option string) : Result (Value * option Value) :=
  match ConfigCollection.get_platform_definitions (configs env) (View.namespace self) with
  | None => Ok (VDict [], None)
  | Some namespace_definitions =>
  let data_source_name := re_sub_prefix "metric_definitions_" (View.name self) in
  match ConfigCollection.get_data_source_definition (configs env) data_source_name
                                                    (View.namespace self) with
  | None => Ok (VDict [], None)
  | Some data_source_definition =>
  columns <- metric_definitions namespace_definitions data_source_name ;;
  match columns with
  | [] => Ok (VDict [], None)
  | _ :: _ =>
  ignore <- ignore_base_fields namespace_definitions data_source_name ;;
  base <- base_view_block self bq_client data_source_definition ignore ;;
  let '(base_view_fields, base_view_lkml, join_base_view) := base in
  from_sql <- format_dataset env
                (ConfigCollection.get_data_source_sql (configs env) data_source_name
                                                      (View.namespace self))
                (View.namespace self) ;;
  let sql := derived_table_sql columns base_view_fields
                               data_source_definition from_sql join_base_view in
  dimensions <- get_dimensions self ;;
  merged <- merge_base_fields_st base_view_lkml ignore dimensions
                                 (get_dimension_groups self) ;;
  let '(dimensions, dimension_groups, base_view_lkml) := merged in
  measures <- get_measures self dimensions ;;
  sets <- _get_sets self ;;
  Ok (view_record (View.name self) sql dimensions dimension_groups measures sets
                  (_get_parameters self),
      base_view_lkml)
  end
  end
  end.

(** ** Reading the generated record *)

(** [out["views"][0][key]] *)
Definition view_field (out : Value) (key : string) : Result Value :=
  views <- subscript out "views" ;;
  view0 <- first_item views ;;
  subscript view0 key.

(** The filter of the specification: a metric contributes to the view of
    [data_source_name] when it has a non-empty select expression, belongs to
    that data source and is not a histogram. *)
Definition contributes (data_source_name : string) (metric : Metric.t) : Prop :=
  (exists e, Metric.select_expression metric = Some e /\ e <> "")
  /\ (exists source, Metric.data_source metric = Some source
                     /\ DataSourceReference.name source = data_source_name)
  /\ Metric.type metric <> "histogram".

(** How [to_lookml] arrives at a view record: every intermediate value of a
    run that returns one. *)
Inductive generated_view (self : View.t) (bq_client : BqClient) : Value -> Prop :=
| Generated :
    forall namespace_definitions data_source_definition columns ignore
           base_view_fields base_view_lkml join_base_view from_sql
           metric_dimensions dimensions dimension_groups measures sets,
    let data_source_name := re_sub_prefix "metric_definitions_" (View.name self) in
    ConfigCollection.get_platform_definitions (configs env) (View.namespace self)
      = Some namespace_definitions ->
    ConfigCollection.get_data_source_definition (configs env) data_source_name
                                                (View.namespace self)
      = Some data_source_definition ->
    metric_definitions namespace_definitions data_source_name = Ok columns ->
    columns <> [] ->
    ignore_base_fields namespace_definitions data_source_name = Ok ignore ->
    base_view_block self bq_client data_source_definition ignore
      = Ok (base_view_fields, base_view_lkml, join_base_view) ->
    format_dataset env
      (ConfigCollection.get_data_source_sql (configs env) data_source_name
                                            (View.namespace self))
      (View.namespace self) = Ok from_sql ->
    get_dimensions self = Ok metric_dimensions ->
    merge_base_fields base_view_lkml ignore metric_dimensions
                      (get_dimension_groups self)
      = Ok (dimensions, dimension_groups) ->
    get_measures self dimensions = Ok measures ->
    _get_sets self = Ok sets ->
    generated_view self bq_client
      (view_record (View.name self)
                   (derived_table_sql columns base_view_fields data_source_definition
                                      from_sql join_base_view)
                   dimensions dimension_groups measures sets (_get_parameters self)).

End Generator.

Arguments Env : clear implicits.

(** ** A small configuration to run the generator on

    Namespace [ns] with the data sources [ds1] and [ds0], whose date column
    is named [activity_date], and five metrics: two belong to the view of
    [ds1], one is a histogram, one belongs to a data source [ds2] and one has
    no select expression.  No metric belongs to [ds0]. *)

Definition ex_metric (select : option string) (source type : string)
    (friendly : option string) (statistics : option Dict) : Metric.t :=
  {| Metric.select_expression := select;
     Metric.data_source := Some {| DataSourceReference.name := source |};
     Metric.type := type;
     Metric.friendly_name := friendly;
     Metric.description := None;
     Metric.statistics := statistics |}.

Definition ex_metrics : list (string * Metric.t) :=
  [ ("active_hours",
     ex_metric (Some "SUM(active_hours_sum)") "ds1" "scalar" (Some "Active Hours")
               (Some [ ("sum", VDict []); ("client_count", VDict []);
                       ("mean", VDict []) ]));
    ("uri_count",
     ex_metric (Some "SUM(uri_count)") "ds2" "scalar" None
               (Some [ ("sum", VDict []) ]));
    ("latency",
     ex_metric (Some "HISTOGRAM(latency)") "ds1" "histogram" None None);
    ("draft",
     ex_metric None "ds1" "scalar" None None);
    ("days_of_use",
     ex_metric (Some "COUNT(submission_date)") "ds1" "scalar" None
               (Some [ ("percentile", VDict []) ])) ].

Definition ex_configs : ConfigCollection.t :=
  {| ConfigCollection.get_platform_definitions := fun namespace =>
       if String.eqb namespace "ns"
       then Some {| PlatformDefinitions.metrics :=
                      {| MetricsSpec.definitions := ex_metrics |} |}
       else None;
     ConfigCollection.get_data_source_definition := fun slug namespace =>
       if String.eqb namespace "ns" && (String.eqb slug "ds1" || String.eqb slug "ds0")
       then Some {| DataSourceDefinition.submission_date_column := Some "activity_date";
                    DataSourceDefinition.client_id_column := None |}
       else None;
     ConfigCollection.get_data_source_sql := fun slug namespace =>
       "mozdata.{dataset}.clients_daily";
     ConfigCollection.get_metric_definition := fun slug namespace =>
       if String.eqb namespace "ns" then dict_find slug ex_metrics else None;
     ConfigCollection.render := fun e => Ok e |}.


(** The table view of the example: every table has the same four columns and
    one time dimension group. *)
Definition ex_table_view (view : View.t) (bq_client : unit)
    (v1_name : option string) : Result Value :=
  Ok (VDict [ ("views",
               VList [ VDict [ ("name", VStr (View.name view));
                               ("dimensions",
                                VList [ VDict [ ("name", VStr "client_id");
                                                ("sql", VStr "${TABLE}.client_id");
                                                ("type", VStr "string") ];
                                        VDict [ ("name", VStr "country");
                                                ("sql", VStr "${TABLE}.country");
                                                ("type", VStr "string") ];
                                        VDict [ ("name", VStr "active_hours");
                                                ("sql", VStr "${TABLE}.active_hours");
                                                ("type", VStr "number") ];
                                        VDict [ ("name", VStr "os");
                                                ("group_label", VStr "Platform");
                                                ("sql", VStr "${TABLE}.os");
                                                ("type", VStr "string") ] ]);
                               ("dimension_groups",
                                VList [ VDict [ ("name", VStr "submission");
                                                ("sql", VStr "${TABLE}.submission_date");
                                                ("type", VStr "time") ] ]) ] ]) ]).

(** [dataset] is substituted in the one template of the example. *)
Definition ex_format_dataset (template dataset : string) : Result string :=
  if String.eqb template "mozdata.{dataset}.clients_daily"
  then Ok (fstr ["mozdata."; dataset; ".clients_daily"])
  else Ok template.

(** Underscores become spaces; the example does not capitalise. *)
Definition ex_slug_to_title (slug : string) : string :=
  string_of_list_ascii
    (map (fun c => if Ascii.eqb c "_"%char then " "%char else c)
         (list_ascii_of_string slug)).

(** [str] of a list or a dictionary shows its items as [repr] does; no
    string of the example holds a quote or a backslash. *)
Fixpoint ex_py_str (v : Value) : string :=
  match v with
  | VStr s => fstr ["'"; s; "'"]
  | VList items => fstr ["["; String.concat ", " (map ex_py_str items); "]"]
  | VDict d =>
      fstr ["{";
            String.concat ", "
              (map (fun '(key, item) => fstr ["'"; key; "': "; ex_py_str item]) d);
            "}"]
  end.

Definition ex_env : Env unit :=
  {| configs := ex_configs;
     TableView_to_lookml := ex_table_view;
     slug_to_title := ex_slug_to_title;
     format_dataset := ex_format_dataset;
     py_str := ex_py_str |}.


(** The view of data source [ds1] without and with a base table. *)
Definition ex_view : View.t :=
  MetricDefinitionsView "ns" "metric_definitions_ds1" [].

Definition ex_view_base : View.t :=
  MetricDefinitionsView "ns" "metric_definitions_ds1"
    [ [ ("table", "mozdata.ns.baseline"); ("channel", "beta") ];
      [ ("table", "mozdata.ns.metrics"); ("channel", "release") ] ].

(** What [to_lookml] returns for them. *)
Definition ex_out : Value :=
  match to_lookml ex_env ex_view tt None with
  | Ok out => out
  | Raise _ => VDict []
  end.

Definition ex_out_base : Value :=
  match to_lookml ex_env ex_view_base tt None with
  | Ok out => out
  | Raise _ => VDict []
  end.

(** The example of the specification: one metric [active_hours] of data
    source [ds1] without statistics. *)
Definition ex_single_env : Env unit :=
  let metrics :=
    [ ("active_hours", ex_metric (Some "SUM(active_hours_sum)") "ds1" "scalar" None None) ] in
  {| configs :=
       {| ConfigCollection.get_platform_definitions := fun namespace =>
            Some {| PlatformDefinitions.metrics :=
                      {| MetricsSpec.definitions := metrics |} |};
          ConfigCollection.get_data_source_definition := fun slug namespace =>
            Some {| DataSourceDefinition.submission_date_column := None;
                    DataSourceDefinition.client_id_column := None |};
          ConfigCollection.get_data_source_sql := fun slug namespace =>
            "mozdata.{dataset}.clients_daily";
          ConfigCollection.get_metric_definition := fun slug namespace =>
            dict_find slug metrics;
          ConfigCollection.render := fun e => Ok e |};
     TableView_to_lookml := ex_table_view;
     slug_to_title := ex_slug_to_title;
     format_dataset := ex_format_dataset;
     py_str := ex_py_str |}.

(** ** Vocabulary of the statements *)

(** The condition of the three comprehensions over the metrics (lines 65
    to 67, 87 to 89 and 231 to 233): [and] goes on to the data source only
    for a metric with a select expression. *)
Definition metric_filter (data_source_name : string) (metric : Metric.t)
  : Result bool :=
  if truthy_str (Metric.select_expression metric)
  then (source <- data_source_name_of metric ;;
        Ok (String.eqb source data_source_name
            && negb (String.eqb (Metric.type metric) "histogram")))
  else Ok false.

(** The filter of the specification as a test. *)
Definition contributesb (data_source_name : string) (metric : Metric.t) : bool :=
  truthy_str (Metric.select_expression metric)
  && match Metric.data_source metric with
     | Some source => String.eqb (DataSourceReference.name source) data_source_name
     | None => false
     end
  && negb (String.eqb (Metric.type metric) "histogram").

(** The metrics of a namespace that contribute to the view of
    [data_source_name], in the order of the registry. *)
Definition selected_metrics (data_source_name : string)
    (definitions : list (string * Metric.t)) : list (string * Metric.t) :=
  filter (fun entry => contributesb data_source_name (snd entry)) definitions.

(** Every metric that has a select expression names its data source. *)
Definition sources_declared (definitions : list (string * Metric.t)) : Prop :=
  forall slug metric,
    In (slug, metric) definitions ->
    truthy_str (Metric.select_expression metric) = true ->
    Metric.data_source metric <> None.

(** The SQL column of a selected metric: the element of the comprehension
    at lines 61 to 63. *)
Definition column_of_metric (BqClient : Type) (env : Env BqClient)
    (entry : string * Metric.t) : Result string :=
  rendered <- match Metric.select_expression (snd entry) with
              | Some e => ConfigCollection.render (configs env) e
              | None => Raise TypeError
              end ;;
  Ok (fstr [rendered; " AS "; fst entry; ",
"]).

(** The dimension of a selected metric: the element of the comprehension
    at lines 221 to 229. *)
Definition dimension_of_metric (BqClient : Type) (env : Env BqClient)
    (entry : string * Metric.t) : Value :=
  VDict [ ("name", VStr (fst entry));
          ("group_label", VStr "Metrics");
          ("label", VStr (or_else (Metric.friendly_name (snd entry))
                                  (slug_to_title env (fst entry))));
          ("description", VStr (or_else (Metric.description (snd entry)) ""));
          ("type", VStr "number");
          ("sql", VStr ("${TABLE}." ++ fst entry)%string) ].

(** The names a base-table field must not have to be merged into the view
    of [data_source_name]: the four fixed names and the slugs of the metrics
    that contribute to the view. *)
Definition excluded_base_field (namespace_definitions : PlatformDefinitions.t)
    (data_source_name name : string) : Prop :=
  In name [ "client_id"; "submission_date"; "submission"; "first_run" ]
  \/ exists metric,
       In (name, metric)
          (MetricsSpec.definitions (PlatformDefinitions.metrics namespace_definitions))
       /\ contributes data_source_name metric.

(** The statistics [get_measures] has a measure for, in the order in which
    the metric declares them. *)
Definition recognised_statistics (statistics : Dict) : list string :=
  filter (fun slug => String.eqb slug "sum" || String.eqb slug "client_count")
         (map fst statistics).

(** The LookML type of the measure of a recognised statistic. *)
Definition measure_type (statistic_slug : string) : string :=
  if String.eqb statistic_slug "sum" then "sum" else "count_distinct".

(** The names of a list of field descriptors. *)
Definition names_of (fields : list Value) : list Value :=
  flat_map (fun field => match subscript field "name" with
                         | Ok n => [n]
                         | Raise _ => []
                         end)
           fields.

Definition names_except_client_id (dimensions : list Value) : list Value :=
  filter (fun n => negb (value_eq_str n "client_id")) (names_of dimensions).

(** [needle in hay] for strings. *)
Fixpoint contains (needle hay : string) : bool :=
  String.prefix needle hay
  || match hay with
     | String _ rest => contains needle rest
     | EmptyString => false
     end.

(** *** The Liquid conditional on [aggregate_metrics_by]

    Looker evaluates the conditional of [analysis_basis_sql] when it runs a
    query: the first branch whose value equals the parameter is kept, the
    [else] branch when there is none. *)

Definition liquid_if (value body : string) : string :=
  fstr ["{% if aggregate_metrics_by._parameter_value == '"; value; "' %}"; body].

Definition liquid_elsif (value body : string) : string :=
  fstr ["{% elsif aggregate_metrics_by._parameter_value == '"; value; "'  %}"; body].

Definition liquid_conditional (branches : list (string * string))
    (otherwise : string) : string :=
  match branches with
  | [] => otherwise
  | (value, body) :: rest =>
      fstr [ liquid_if value body;
             fstr (map (fun '(value, body) => liquid_elsif value body) rest);
             "{% else %}"; otherwise; "{% endif %}" ]
  end.

Definition liquid_select (parameter_value : string)
    (branches : list (string * string)) (otherwise : string) : string :=
  match find (fun '(value, _) => String.eqb value parameter_value) branches with
  | Some (_, body) => body
  | None => otherwise
  end.

(** The branches of [analysis_basis_sql], as (value, body) pairs, and the
    body of its [else] branch. *)
Definition analysis_basis_branches (data_source_definition : DataSourceDefinition.t)
  : list (string * string) :=
  let column :=
    or_else (DataSourceDefinition.submission_date_column data_source_definition)
            "submission_date" in
  [ ("day", fstr ["
                m."; column; " AS analysis_basis
                "]);
    ("week", fstr ["
                (FORMAT_DATE(
                    '%F',
                    DATE_TRUNC(m."; column; ",
                    WEEK(MONDAY)))
                ) AS analysis_basis
                "]);
    ("month", fstr ["
                (FORMAT_DATE(
                    '%Y-%m',
                    m."; column; ")
                ) AS analysis_basis
                "]);
    ("quarter", fstr ["
                (FORMAT_DATE(
                    '%Y-%m',
                    DATE_TRUNC(m."; column; ",
                    QUARTER))
                ) AS analysis_basis
                "]);
    ("year", fstr ["
                (EXTRACT(
                    YEAR FROM m."; column; ")
                ) AS analysis_basis
                "]) ].

Definition analysis_basis_otherwise : string := "
                NULL as analysis_basis
                ".

(** The recognised statistics the registry declares for the metric called
    [name], none when there is no such metric. *)
Definition recognised_statistics_of (configs : ConfigCollection.t)
    (namespace name : string) : list string :=
  match ConfigCollection.get_metric_definition configs name namespace with
  | Some metric =>
      match Metric.statistics metric with
      | Some statistics => recognised_statistics statistics
      | None => []
      end
  | None => []
  end.

(** The names of the measures of the dimension called [name]. *)
Definition measure_names (configs : ConfigCollection.t)
    (namespace name : string) : list Value :=
  map (fun slug => VStr (name ++ "_" ++ slug)%string)
      (recognised_statistics_of configs namespace name).

(** Slugs and statistics are the keys of dictionaries: each occurs once. *)
Definition dictionary_keys (configs : ConfigCollection.t) (namespace : string)
    (namespace_definitions : PlatformDefinitions.t) : Prop :=
  NoDup (map fst (MetricsSpec.definitions
                    (PlatformDefinitions.metrics namespace_definitions)))
  /\ (forall name metric statistics,
         ConfigCollection.get_metric_definition configs name namespace = Some metric ->
         Metric.statistics metric = Some statistics ->
         NoDup (map fst statistics)).

(** Two fields of the set [metrics] of the contributing metrics [slugs] have
    one name: a contributing metric called [client_id] has a measure, which
    the [client_id] dimension has too, or a contributing metric is called
    like a measure of [client_id] or of a contributing metric. *)
Definition field_name_clash (configs : ConfigCollection.t) (namespace : string)
    (slugs : list string) : Prop :=
  (In "client_id" slugs
   /\ recognised_statistics_of configs namespace "client_id" <> [])
  \/ exists name statistic,
       In name ("client_id" :: slugs)
       /\ In statistic (recognised_statistics_of configs namespace name)
       /\ In (name ++ "_" ++ statistic)%string slugs.

(** What a loop under [if base_view_lkml] does to a field of the record of
    the table view: a field whose name is not excluded gets the group label,
    any other stays as it is. *)
Definition relabelled (ignore : list string) (field field' : Value) : Prop :=
  exists fields n,
    field = VDict fields
    /\ dict_find "name" fields = Some n
    /\ field' = if value_in n ignore
                then field
                else VDict (dict_set "group_label" (VStr "Base Fields") fields).

(** *** Collaborators that agree *)

(** Two registries that answer every question of the view alike. *)
Definition same_registry (c1 c2 : ConfigCollection.t) : Prop :=
  (forall namespace,
      ConfigCollection.get_platform_definitions c1 namespace
      = ConfigCollection.get_platform_definitions c2 namespace)
  /\ (forall slug namespace,
         ConfigCollection.get_data_source_definition c1 slug namespace
         = ConfigCollection.get_data_source_definition c2 slug namespace)
  /\ (forall slug namespace,
         ConfigCollection.get_data_source_sql c1 slug namespace
         = ConfigCollection.get_data_source_sql c2 slug namespace)
  /\ (forall slug namespace,
         ConfigCollection.get_metric_definition c1 slug namespace
         = ConfigCollection.get_metric_definition c2 slug namespace)
  /\ (forall e, ConfigCollection.render c1 e = ConfigCollection.render c2 e).

(** An environment with another table view. *)
Definition with_table_view (BqClient : Type) (env : Env BqClient)
    (table_view : View.t -> BqClient -> option string -> Result Value)
  : Env BqClient :=
  {| configs := configs env;
     TableView_to_lookml := table_view;
     slug_to_title := slug_to_title env;
     format_dataset := format_dataset env;
     py_str := py_str env |}.


(** *** Further collaborators of the example *)

(** A registry with another template renderer. *)
Definition with_render (registry : ConfigCollection.t)
    (render : string -> Result string) : ConfigCollection.t :=
  {| ConfigCollection.get_platform_definitions :=
       ConfigCollection.get_platform_definitions registry;
     ConfigCollection.get_data_source_definition :=
       ConfigCollection.get_data_source_definition registry;
     ConfigCollection.get_data_source_sql :=
       ConfigCollection.get_data_source_sql registry;
     ConfigCollection.get_metric_definition :=
       ConfigCollection.get_metric_definition registry;
     ConfigCollection.render := render |}.

(** An environment with another registry. *)
Definition with_configs (BqClient : Type) (env : Env BqClient)
    (registry : ConfigCollection.t) : Env BqClient :=
  {| configs := registry;
     TableView_to_lookml := TableView_to_lookml env;
     slug_to_title := slug_to_title env;
     format_dataset := format_dataset env;
     py_str := py_str env |}.

(** The registry of the example with other metrics. *)
Definition ex_configs_of (metrics : list (string * Metric.t)) : ConfigCollection.t :=
  {| ConfigCollection.get_platform_definitions := fun namespace =>
       if String.eqb namespace "ns"
       then Some {| PlatformDefinitions.metrics :=
                      {| MetricsSpec.definitions := metrics |} |}
       else None;
     ConfigCollection.get_data_source_definition :=
       ConfigCollection.get_data_source_definition ex_configs;
     ConfigCollection.get_data_source_sql :=
       ConfigCollection.get_data_source_sql ex_configs;
     ConfigCollection.get_metric_definition := fun slug namespace =>
       if String.eqb namespace "ns" then dict_find slug metrics else None;
     ConfigCollection.render := ConfigCollection.render ex_configs |}.

(** A metric with a select expression and no data source, after a metric of
    another data source. *)
Definition ex_undeclared_metrics : list (string * Metric.t) :=
  [ ("uri_count",
     ex_metric (Some "SUM(uri_count)") "ds2" "scalar" None None);
    ("orphan",
     {| Metric.select_expression := Some "COUNT(*)";
        Metric.data_source := None;
        Metric.type := "scalar";
        Metric.friendly_name := None;
        Metric.description := None;
        Metric.statistics := None |}) ].

Definition ex_undeclared_env : Env unit :=
  with_configs ex_env (ex_configs_of ex_undeclared_metrics).

(** A metric that is called like the measure of another. *)
Definition ex_clash_metrics : list (string * Metric.t) :=
  [ ("uri_count",
     ex_metric (Some "SUM(uri_count)") "ds1" "scalar" None
               (Some [ ("sum", VDict []) ]));
    ("uri_count_sum",
     ex_metric (Some "SUM(uri_count_sum)") "ds1" "scalar" None None) ].

Definition ex_clash_env : Env unit :=
  with_configs ex_env (ex_configs_of ex_clash_metrics).

(** The view of [ds1] with a base table and the record of its table view
    after a run of [to_lookml], and a table view that keeps that record and
    hands it out again. *)
Definition ex_run_base : Value * option Value :=
  match to_lookml_st ex_env ex_view_base tt None with
  | Ok result => result
  | Raise _ => (VDict [], None)
  end.


(** A renderer that cannot render the expression of the histogram, and one
    that cannot render the expression of [days_of_use]. *)
Definition ex_render_no_histogram (e : string) : Result string :=
  if String.eqb e "HISTOGRAM(latency)" then Raise TemplateError else Ok e.

Definition ex_render_no_count (e : string) : Result string :=
  if String.eqb e "COUNT(submission_date)" then Raise TemplateError else Ok e.

(** A table view that is out of reach. *)
Definition ex_unreachable_table_view (view : View.t) (bq_client : unit)
    (v1_name : option string) : Result Value :=
  Raise ExternalError.

(** A view whose table reference has no table. *)
Definition ex_view_no_table_key : View.t :=
  MetricDefinitionsView "ns" "metric_definitions_ds1" [ [ ("channel", "release") ] ].

(** * Properties *)

(** ** The error monad *)

Lemma bind_Ok_inv (A B : Type) (c : Result A) (k : A -> Result B) (b : B) :
  bind c k = Ok b -> exists a, c = Ok a /\ k a = Ok b.
Proof.
  destruct c as [a | e]; simpl; intros H.
  - exists a. split; [reflexivity | exact H].
  - discriminate H.
Qed.

Ltac inv_bind H :=
  let a := fresh "a" in
  let Ha := fresh "E" in
  apply bind_Ok_inv in H; destruct H as [a [Ha H]].

Tactic Notation "bind_inv" hyp(H) "as" ident(a) ident(Ha) :=
  apply bind_Ok_inv in H; destruct H as [a [Ha H]].

Lemma mapM_ext (A B : Type) (f g : A -> Result B) (l : list A) :
  (forall x, In x l -> f x = g x) -> mapM f l = mapM g l.
Proof.
  induction l as [| x rest IH]; simpl; intros H; [reflexivity |].
  rewrite (H x) by (left; reflexivity).
  rewrite IH by (intros y Hy; apply H; right; exact Hy).
  reflexivity.
Qed.

Lemma filter_mapM_ext (A B : Type) (f g : A -> Result (option B)) (l : list A) :
  (forall x, In x l -> f x = g x) -> filter_mapM f l = filter_mapM g l.
Proof.
  induction l as [| x rest IH]; simpl; intros H; [reflexivity |].
  rewrite (H x) by (left; reflexivity).
  rewrite IH by (intros y Hy; apply H; right; exact Hy).
  reflexivity.
Qed.

Lemma flat_mapM_ext (A B : Type) (f g : A -> Result (list B)) (l : list A) :
  (forall x, In x l -> f x = g x) -> flat_mapM f l = flat_mapM g l.
Proof.
  induction l as [| x rest IH]; simpl; intros H; [reflexivity |].
  rewrite (H x) by (left; reflexivity).
  rewrite IH by (intros y Hy; apply H; right; exact Hy).
  reflexivity.
Qed.

Lemma flat_mapM_app (A B : Type) (f : A -> Result (list B)) (l1 l2 : list A)
      (r1 r2 : list B) :
  flat_mapM f l1 = Ok r1 -> flat_mapM f l2 = Ok r2 ->
  flat_mapM f (l1 ++ l2) = Ok (r1 ++ r2).
Proof.
  revert r1. induction l1 as [| x rest IH]; simpl; intros r1 H1 H2.
  - inversion H1; subst. exact H2.
  - inv_bind H1. inv_bind H1. inversion H1; subst.
    rewrite E. simpl. rewrite (IH a0 E0 H2). simpl.
    rewrite app_assoc. reflexivity.
Qed.

(** ** Dictionaries *)

Lemma dict_find_set_same (V : Type) (k : string) (v : V) (d : list (string * V)) :
  dict_find k (dict_set k v d) = Some v.
Proof.
  induction d as [| [k' v'] rest IH]; simpl.
  - rewrite String.eqb_refl. reflexivity.
  - destruct (String.eqb k' k) eqn:E; simpl.
    + rewrite String.eqb_refl. reflexivity.
    + rewrite E. exact IH.
Qed.

Lemma dict_find_set_other (V : Type) (k k0 : string) (v : V) (d : list (string * V)) :
  k <> k0 -> dict_find k0 (dict_set k v d) = dict_find k0 d.
Proof.
  intros Hk. induction d as [| [k' v'] rest IH]; simpl.
  - destruct (String.eqb k k0) eqn:E; [| reflexivity].
    apply String.eqb_eq in E. contradiction.
  - destruct (String.eqb k' k) eqn:E; simpl.
    + apply String.eqb_eq in E. subst k'.
      destruct (String.eqb k k0) eqn:E0; [| reflexivity].
      apply String.eqb_eq in E0. contradiction.
    + rewrite IH. reflexivity.
Qed.

Lemma setitem_group_label (d d' : Value) (x : Value) :
  setitem d "group_label" x = Ok d' ->
  subscript d' "group_label" = Ok x
  /\ subscript d' "name" = subscript d "name".
Proof.
  destruct d as [s | l | d]; simpl; intros H; try discriminate H.
  inversion H; subst. simpl. unfold getitem.
  rewrite dict_find_set_same.
  rewrite dict_find_set_other by discriminate.
  split; reflexivity.
Qed.

(** ** The fields of a view record *)

Lemma view_field_derived_table (name sql : string)
      (dimensions dimension_groups measures sets parameters : list Value) :
  view_field (view_record name sql dimensions dimension_groups measures sets parameters)
             "derived_table"
  = Ok (VDict [ ("sql", VStr sql) ]).
Proof. reflexivity. Qed.

Lemma view_field_dimensions (name sql : string)
      (dimensions dimension_groups measures sets parameters : list Value) :
  view_field (view_record name sql dimensions dimension_groups measures sets parameters)
             "dimensions"
  = Ok (VList dimensions).
Proof. reflexivity. Qed.

Lemma view_field_measures (name sql : string)
      (dimensions dimension_groups measures sets parameters : list Value) :
  view_field (view_record name sql dimensions dimension_groups measures sets parameters)
             "measures"
  = Ok (VList measures).
Proof. reflexivity. Qed.

Lemma view_field_sets (name sql : string)
      (dimensions dimension_groups measures sets parameters : list Value) :
  view_field (view_record name sql dimensions dimension_groups measures sets parameters)
             "sets"
  = Ok (VList sets).
Proof. reflexivity. Qed.

(** ** The shape of a run of [to_lookml] *)

Section Run.

Variable BqClient : Type.
Variable env : Env BqClient.

Lemma to_lookml_generated (self : View.t) (bq_client : BqClient)
      (v1_name : option string) (out : Value) :
  to_lookml env self bq_client v1_name = Ok out ->
  out <> VDict [] ->
  generated_view env self bq_client out.
Proof.
  unfold to_lookml. intros H Hne.
  destruct (ConfigCollection.get_platform_definitions _ _) as [nd |] eqn:End;
    [| inversion H; subst; contradiction].
  destruct (ConfigCollection.get_data_source_definition _ _ _) as [dsd |] eqn:Edsd;
    [| inversion H; subst; contradiction].
  bind_inv H as columns Hcols.
  destruct columns as [| c cs]; [inversion H; subst; contradiction |].
  bind_inv H as ignore Hignore.
  bind_inv H as base Hbase. destruct base as [[bvf lk] jbv].
  bind_inv H as from_sql Hfmt. bind_inv H as mdims Hdims.
  bind_inv H as merged Hmerge. destruct merged as [ds gs].
  bind_inv H as measures Hmeas. bind_inv H as sets Hsets.
  inversion H; subst out.
  eapply Generated; eauto. discriminate.
Qed.

(** ** The metric filter *)

Lemma contributesb_iff (data_source_name : string) (metric : Metric.t) :
  contributesb data_source_name metric = true
  <-> contributes data_source_name metric.
Proof.
  unfold contributes, contributesb, truthy_str.
  rewrite !andb_true_iff, negb_true_iff, String.eqb_neq.
  split.
  - intros [[Hs Hd] Ht]. split; [| split; [| exact Ht]].
    + destruct (Metric.select_expression metric) as [e |]; [| discriminate Hs].
      exists e. split; [reflexivity |].
      apply negb_true_iff, String.eqb_neq in Hs. exact Hs.
    + destruct (Metric.data_source metric) as [source |]; [| discriminate Hd].
      exists source. split; [reflexivity | apply String.eqb_eq; exact Hd].
  - intros [[e [He Hne]] [[source [Hsrc Hname]] Ht]]. split; [split | exact Ht].
    + rewrite He. apply negb_true_iff, String.eqb_neq. exact Hne.
    + rewrite Hsrc. apply String.eqb_eq. exact Hname.
Qed.

(** When the condition has a value, it is the test of the specification. *)
Lemma metric_filter_Ok (data_source_name : string) (metric : Metric.t) (b : bool) :
  metric_filter data_source_name metric = Ok b ->
  b = contributesb data_source_name metric
  /\ (truthy_str (Metric.select_expression metric) = true ->
      Metric.data_source metric <> None).
Proof.
  unfold metric_filter, contributesb, data_source_name_of.
  destruct (truthy_str _); simpl.
  - destruct (Metric.data_source metric); simpl; intros H;
      [inversion H; split; [reflexivity | discriminate] | discriminate H].
  - intros H; inversion H. split; [reflexivity | discriminate].
Qed.

Lemma metric_filter_declared (data_source_name : string) (metric : Metric.t) :
  (truthy_str (Metric.select_expression metric) = true ->
   Metric.data_source metric <> None) ->
  metric_filter data_source_name metric
  = Ok (contributesb data_source_name metric).
Proof.
  unfold metric_filter, contributesb, data_source_name_of. intros H.
  destruct (truthy_str _); simpl; [| reflexivity].
  destruct (Metric.data_source metric); simpl; [reflexivity |].
  exfalso. apply H; reflexivity.
Qed.

Lemma metric_filter_undeclared (data_source_name : string) (metric : Metric.t) :
  truthy_str (Metric.select_expression metric) = true ->
  Metric.data_source metric = None ->
  metric_filter data_source_name metric = Raise AttributeError.
Proof.
  unfold metric_filter, data_source_name_of. intros Hs Hd. rewrite Hs, Hd.
  reflexivity.
Qed.

Lemma mapM_pure (A B : Type) (g : A -> B) (l : list A) :
  mapM (fun x => Ok (g x)) l = Ok (map g l).
Proof.
  induction l as [| x rest IH]; simpl; [reflexivity |].
  rewrite IH. reflexivity.
Qed.

(** A comprehension over the metrics that returns: the condition had a
    value at every metric, and the elements are those of the selected
    metrics. *)
Lemma metrics_comprehension_Ok (B : Type) (h : string * Metric.t -> Result B)
      (data_source_name : string) (definitions : list (string * Metric.t))
      (r : list B) :
  filter_mapM (fun entry =>
                 keep <- metric_filter data_source_name (snd entry) ;;
                 if keep then (y <- h entry ;; Ok (Some y)) else Ok None)
              definitions = Ok r ->
  sources_declared definitions
  /\ mapM h (selected_metrics data_source_name definitions) = Ok r.
Proof.
  unfold sources_declared, selected_metrics. revert r.
  induction definitions as [| x rest IH]; simpl; intros r H.
  - inversion H. split; [intros slug metric [] | reflexivity].
  - bind_inv H as y Hy. bind_inv H as ys Hys. inversion H; subst r. clear H.
    destruct (IH ys Hys) as [Hall Hmap]. clear IH.
    bind_inv Hy as keep Hkeep.
    destruct (metric_filter_Ok _ _ Hkeep) as [Hk Hsrc]. subst keep.
    split.
    + intros slug metric [Hx | Hin]; [subst x; exact Hsrc | exact (Hall slug metric Hin)].
    + destruct (contributesb data_source_name (snd x)); simpl.
      * bind_inv Hy as z Hz. inversion Hy; subst y. rewrite Hz, Hmap. reflexivity.
      * inversion Hy; subst y. exact Hmap.
Qed.

Lemma metrics_comprehension_declared (B : Type) (h : string * Metric.t -> Result B)
      (data_source_name : string) (definitions : list (string * Metric.t)) :
  sources_declared definitions ->
  filter_mapM (fun entry =>
                 keep <- metric_filter data_source_name (snd entry) ;;
                 if keep then (y <- h entry ;; Ok (Some y)) else Ok None)
              definitions
  = mapM h (selected_metrics data_source_name definitions).
Proof.
  unfold sources_declared, selected_metrics.
  induction definitions as [| [slug metric] rest IH]; simpl; intros H; [reflexivity |].
  rewrite (metric_filter_declared data_source_name metric)
    by (apply (H slug metric); left; reflexivity).
  rewrite IH by (intros s m Hin; apply (H s m); right; exact Hin).
  simpl. destruct (contributesb data_source_name metric); simpl.
  - destruct (h (slug, metric)); simpl; [| reflexivity].
    destruct (mapM h _); reflexivity.
  - destruct (mapM h _); reflexivity.
Qed.

(** A metric with a select expression and no data source stops a
    comprehension whose elements cannot raise. *)
Lemma metrics_comprehension_undeclared (B : Type) (g : string * Metric.t -> B)
      (data_source_name : string) (definitions : list (string * Metric.t))
      (slug : string) (metric : Metric.t) :
  In (slug, metric) definitions ->
  truthy_str (Metric.select_expression metric) = true ->
  Metric.data_source metric = None ->
  filter_mapM (fun entry =>
                 keep <- metric_filter data_source_name (snd entry) ;;
                 if keep then (y <- Ok (g entry) ;; Ok (Some y)) else Ok None)
              definitions
  = Raise AttributeError.
Proof.
  intros Hin Hs Hd.
  induction definitions as [| x rest IH]; [contradiction |].
  destruct Hin as [Hin | Hin].
  - subst x. cbn [filter_mapM snd].
    rewrite (metric_filter_undeclared data_source_name metric Hs Hd). reflexivity.
  - cbn [filter_mapM]. rewrite (IH Hin).
    destruct (metric_filter data_source_name (snd x)) as [keep | e] eqn:Hx.
    + destruct keep; reflexivity.
    + revert Hx. unfold metric_filter, data_source_name_of.
      destruct (truthy_str (Metric.select_expression (snd x))); simpl;
        [| intros Hx; discriminate Hx].
      destruct (Metric.data_source (snd x)); simpl; intros Hx;
        [discriminate Hx | inversion Hx; reflexivity].
Qed.

Lemma selected_metrics_spec (data_source_name : string)
      (definitions : list (string * Metric.t)) (slug : string) (metric : Metric.t) :
  In (slug, metric) (selected_metrics data_source_name definitions)
  <-> In (slug, metric) definitions /\ contributes data_source_name metric.
Proof.
  unfold selected_metrics. rewrite filter_In, contributesb_iff. reflexivity.
Qed.

Lemma selected_metrics_nil (data_source_name : string)
      (definitions : list (string * Metric.t)) :
  (forall slug metric, In (slug, metric) definitions ->
                       ~ contributes data_source_name metric) ->
  selected_metrics data_source_name definitions = [].
Proof.
  intros Hnone.
  destruct (selected_metrics data_source_name definitions) as [| [slug metric] rest] eqn:E;
    [reflexivity |].
  assert (Hin : In (slug, metric) ((slug, metric) :: rest)) by (left; reflexivity).
  rewrite <- E in Hin. apply selected_metrics_spec in Hin.
  destruct Hin as [Hin Hc]. exfalso. exact (Hnone slug metric Hin Hc).
Qed.

(** *** The three comprehensions *)

Lemma metric_definitions_site (namespace_definitions : PlatformDefinitions.t)
      (data_source_name : string) :
  metric_definitions env namespace_definitions data_source_name
  = filter_mapM (fun entry =>
                   keep <- metric_filter data_source_name (snd entry) ;;
                   if keep then (y <- column_of_metric env entry ;; Ok (Some y)) else Ok None)
                (MetricsSpec.definitions
                   (PlatformDefinitions.metrics namespace_definitions)).
Proof.
  unfold metric_definitions. apply filter_mapM_ext.
  intros [slug metric] _. unfold metric_filter, column_of_metric. simpl.
  destruct (truthy_str (Metric.select_expression metric)); simpl; [| reflexivity].
  destruct (data_source_name_of metric); simpl; [| reflexivity].
  destruct (_ && _); [| reflexivity].
  destruct (Metric.select_expression metric) as [e |]; simpl; [| reflexivity].
  destruct (ConfigCollection.render (configs env) e); reflexivity.
Qed.

Lemma ignore_base_fields_site (namespace_definitions : PlatformDefinitions.t)
      (data_source_name : string) :
  ignore_base_fields namespace_definitions data_source_name
  = (metric_slugs <-
       filter_mapM (fun entry =>
                      keep <- metric_filter data_source_name (snd entry) ;;
                      if keep then (y <- Ok (fst entry) ;; Ok (Some y)) else Ok None)
                   (MetricsSpec.definitions
                      (PlatformDefinitions.metrics namespace_definitions)) ;;
     Ok ([ "client_id"; "submission_date"; "submission"; "first_run" ] ++ metric_slugs)).
Proof.
  unfold ignore_base_fields. f_equal. apply filter_mapM_ext.
  intros [slug metric] _. reflexivity.
Qed.

Lemma get_dimensions_site (self : View.t)
      (namespace_definitions : PlatformDefinitions.t) :
  ConfigCollection.get_platform_definitions (configs env) (View.namespace self)
    = Some namespace_definitions ->
  get_dimensions env self
  = (metric_dimensions <-
       filter_mapM (fun entry =>
                      keep <- metric_filter
                                (re_sub_prefix "metric_definitions_" (View.name self))
                                (snd entry) ;;
                      if keep then (y <- Ok (dimension_of_metric env entry) ;; Ok (Some y))
                      else Ok None)
                   (MetricsSpec.definitions
                      (PlatformDefinitions.metrics namespace_definitions)) ;;
     Ok (VDict [ ("name", VStr "client_id");
                 ("type", VStr "string");
                 ("sql", VStr "SAFE_CAST(${TABLE}.client_id AS STRING)");
                 ("label", VStr "Client ID");
                 ("primary_key", VStr "yes");
                 ("group_label", VStr "Base Fields");
                 ("description", VStr "Unique client identifier") ]
         :: metric_dimensions)).
Proof.
  intros Hnd. unfold get_dimensions. rewrite Hnd. f_equal.
  apply filter_mapM_ext. intros [slug metric] _. reflexivity.
Qed.

(** What the three comprehensions return, and that each returns only when
    every metric with a select expression has a data source. *)
Lemma metric_definitions_Ok (namespace_definitions : PlatformDefinitions.t)
      (data_source_name : string) (columns : list string) :
  metric_definitions env namespace_definitions data_source_name = Ok columns ->
  sources_declared (MetricsSpec.definitions
                      (PlatformDefinitions.metrics namespace_definitions))
  /\ mapM (column_of_metric env)
          (selected_metrics data_source_name
             (MetricsSpec.definitions
                (PlatformDefinitions.metrics namespace_definitions)))
     = Ok columns.
Proof.
  rewrite metric_definitions_site. apply metrics_comprehension_Ok.
Qed.

Lemma metric_definitions_declared (namespace_definitions : PlatformDefinitions.t)
      (data_source_name : string) :
  sources_declared (MetricsSpec.definitions
                      (PlatformDefinitions.metrics namespace_definitions)) ->
  metric_definitions env namespace_definitions data_source_name
  = mapM (column_of_metric env)
         (selected_metrics data_source_name
            (MetricsSpec.definitions
               (PlatformDefinitions.metrics namespace_definitions))).
Proof.
  rewrite metric_definitions_site. apply metrics_comprehension_declared.
Qed.

Lemma ignore_base_fields_declared (namespace_definitions : PlatformDefinitions.t)
      (data_source_name : string) :
  sources_declared (MetricsSpec.definitions
                      (PlatformDefinitions.metrics namespace_definitions)) ->
  ignore_base_fields namespace_definitions data_source_name
  = Ok ([ "client_id"; "submission_date"; "submission"; "first_run" ]
        ++ map fst (selected_metrics data_source_name
                      (MetricsSpec.definitions
                         (PlatformDefinitions.metrics namespace_definitions)))).
Proof.
  intros H. rewrite ignore_base_fields_site.
  rewrite (metrics_comprehension_declared (fun entry => Ok (fst entry)) _ H).
  rewrite mapM_pure. reflexivity.
Qed.

Lemma ignore_base_fields_Ok (namespace_definitions : PlatformDefinitions.t)
      (data_source_name : string) (ignore : list string) :
  ignore_base_fields namespace_definitions data_source_name = Ok ignore ->
  ignore = [ "client_id"; "submission_date"; "submission"; "first_run" ]
           ++ map fst (selected_metrics data_source_name
                         (MetricsSpec.definitions
                            (PlatformDefinitions.metrics namespace_definitions))).
Proof.
  rewrite ignore_base_fields_site. intros H. bind_inv H as slugs Hslugs.
  apply metrics_comprehension_Ok in Hslugs. destruct Hslugs as [_ Hslugs].
  rewrite mapM_pure in Hslugs. inversion Hslugs; subst slugs.
  inversion H. reflexivity.
Qed.

Lemma get_dimensions_declared (self : View.t)
      (namespace_definitions : PlatformDefinitions.t) :
  ConfigCollection.get_platform_definitions (configs env) (View.namespace self)
    = Some namespace_definitions ->
  sources_declared (MetricsSpec.definitions
                      (PlatformDefinitions.metrics namespace_definitions)) ->
  get_dimensions env self
  = Ok (VDict [ ("name", VStr "client_id");
                ("type", VStr "string");
                ("sql", VStr "SAFE_CAST(${TABLE}.client_id AS STRING)");
                ("label", VStr "Client ID");
                ("primary_key", VStr "yes");
                ("group_label", VStr "Base Fields");
                ("description", VStr "Unique client identifier") ]
        :: map (dimension_of_metric env)
               (selected_metrics (re_sub_prefix "metric_definitions_" (View.name self))
                  (MetricsSpec.definitions
                     (PlatformDefinitions.metrics namespace_definitions)))).
Proof.
  intros Hnd H. rewrite (get_dimensions_site self Hnd).
  rewrite (metrics_comprehension_declared (fun entry => Ok (dimension_of_metric env entry)) _ H).
  rewrite mapM_pure. reflexivity.
Qed.

Lemma get_dimensions_Ok (self : View.t)
      (namespace_definitions : PlatformDefinitions.t) (dimensions : list Value) :
  ConfigCollection.get_platform_definitions (configs env) (View.namespace self)
    = Some namespace_definitions ->
  get_dimensions env self = Ok dimensions ->
  sources_declared (MetricsSpec.definitions
                      (PlatformDefinitions.metrics namespace_definitions)).
Proof.
  intros Hnd H. rewrite (get_dimensions_site self Hnd) in H.
  bind_inv H as mdims Hmdims.
  apply metrics_comprehension_Ok in Hmdims. exact (proj1 Hmdims).
Qed.

Lemma mapM_Forall2 (A B : Type) (f : A -> Result B) (l : list A) (r : list B) :
  mapM f l = Ok r -> Forall2 (fun y x => f x = Ok y) r l.
Proof.
  revert r. induction l as [| x rest IH]; simpl; intros r H.
  - inversion H. constructor.
  - inv_bind H. inv_bind H. inversion H; subst.
    constructor; [exact E | apply IH; exact E0].
Qed.

Lemma Forall2_map_r (A B C : Type) (R : A -> C -> Prop) (g : B -> C)
      (l1 : list A) (l2 : list B) :
  Forall2 (fun a b => R a (g b)) l1 l2 -> Forall2 R l1 (map g l2).
Proof.
  induction 1; simpl; constructor; assumption.
Qed.

Lemma get_dimensions_names (self : View.t)
      (namespace_definitions : PlatformDefinitions.t) :
  ConfigCollection.get_platform_definitions (configs env) (View.namespace self)
    = Some namespace_definitions ->
  sources_declared (MetricsSpec.definitions
                      (PlatformDefinitions.metrics namespace_definitions)) ->
  exists client_id metric_dimensions,
    get_dimensions env self = Ok (client_id :: metric_dimensions)
    /\ subscript client_id "name" = Ok (VStr "client_id")
    /\ Forall2 (fun dimension slug => subscript dimension "name" = Ok (VStr slug))
               metric_dimensions
               (map fst
                    (selected_metrics
                       (re_sub_prefix "metric_definitions_" (View.name self))
                       (MetricsSpec.definitions
                          (PlatformDefinitions.metrics namespace_definitions)))).
Proof.
  intros Hnd Hsrc. rewrite (get_dimensions_declared self Hnd Hsrc).
  eexists. eexists. split; [reflexivity | split; [reflexivity |]].
  induction (selected_metrics _ _) as [| [slug metric] rest IH]; simpl; constructor.
  - reflexivity.
  - exact IH.
Qed.

Lemma merge_base_fields_app (base_view_lkml : option Value) (ignore : list string)
      (dimensions dimension_groups merged merged_groups : list Value) :
  merge_base_fields base_view_lkml ignore dimensions dimension_groups
    = Ok (merged, merged_groups) ->
  exists ds gs, merged = dimensions ++ ds /\ merged_groups = dimension_groups ++ gs.
Proof.
  unfold merge_base_fields. intros H.
  destruct base_view_lkml as [lkml |]; [destruct (truthy lkml) |].
  - inv_bind H. inv_bind H. inversion H. exists a, a0. split; reflexivity.
  - inversion H. exists [], []. rewrite !app_nil_r. split; reflexivity.
  - inversion H. exists [], []. rewrite !app_nil_r. split; reflexivity.
Qed.

(** ** Strings and f-strings *)

Lemma string_app_assoc (a b c : string) :
  ((a ++ b) ++ c = a ++ (b ++ c))%string.
Proof.
  induction a as [| ch a IH]; simpl; [reflexivity | rewrite IH; reflexivity].
Qed.

Lemma string_app_nil_r (a : string) : (a ++ "")%string = a.
Proof.
  induction a as [| ch a IH]; simpl; [reflexivity | rewrite IH; reflexivity].
Qed.

Lemma fstr_cons (x : string) (l : list string) :
  fstr (x :: l) = (x ++ fstr l)%string.
Proof.
  unfold fstr. destruct l as [| y l]; simpl.
  - rewrite string_app_nil_r. reflexivity.
  - reflexivity.
Qed.

Lemma fstr_split (l1 : list string) (x : string) (l2 : list string) :
  fstr (l1 ++ x :: l2) = (fstr l1 ++ x ++ fstr l2)%string.
Proof.
  induction l1 as [| y l1 IH].
  - simpl app. rewrite fstr_cons. reflexivity.
  - change ((y :: l1) ++ x :: l2) with (y :: (l1 ++ x :: l2)).
    rewrite !fstr_cons, IH, string_app_assoc. reflexivity.
Qed.

(** The base fields of the SQL: one line per dimension of the base table
    whose name is not excluded. *)
Lemma base_view_fields_spec (self : View.t) (bq_client : BqClient)
      (data_source_definition : DataSourceDefinition.t) (ignore : list string)
      (base_view_fields : list string) (base_view_lkml : option Value)
      (join_base_view : string) :
  base_view_block env self bq_client data_source_definition ignore
    = Ok (base_view_fields, base_view_lkml, join_base_view) ->
  Forall (fun field =>
            exists name, field = (format_value env name ++ ",
")%string
                         /\ value_in name ignore = false)
         base_view_fields.
Proof.
  unfold base_view_block. intros H.
  destruct (View.tables self) as [| table0 rest];
    [inversion H; constructor |].
  bind_inv H as base_table Htable. bind_inv H as lkml Hlkml.
  bind_inv H as dims Hdims. bind_inv H as bvf Hbvf. inversion H; subst. clear H Hdims.
  revert base_view_fields Hbvf.
  induction dims as [| x xs IH]; simpl; intros bvf H.
  - inversion H. constructor.
  - bind_inv H as y Hy. bind_inv H as ys Hys. inversion H; subst bvf. clear H.
    bind_inv Hy as n Hn.
    destruct (value_in n ignore) eqn:Hv; simpl in Hy.
    + inversion Hy; subst y. exact (IH ys Hys).
    + rewrite Hn in Hy. simpl in Hy. inversion Hy; subst y.
      constructor; [| exact (IH ys Hys)].
      exists n. split; [| exact Hv].
      unfold fstr. simpl. reflexivity.
Qed.

(** ** The three sites of the filter *)

(** C1. For every view that [to_lookml] generates there is one list of
    selected metrics, exactly the metrics of the namespace that have a
    non-empty select expression, belong to the data source named by the view
    and are not histograms, such that: the text of [derived_table.sql] is
    [SELECT], then one column [<rendered select expression> AS <slug>] per
    selected metric, then the columns [base.<name>] of base fields, none of
    which has the name of a selected metric, then the [m.] columns; the
    dimensions after [client_id] and before the base fields are named by the
    slugs of the selected metrics; and the base-field exclusion list is its
    four fixed names followed by those slugs; all in the same order. *)
Theorem C1_filter_sites_agree (self : View.t) (bq_client : BqClient)
        (v1_name : option string) (out : Value) :
  to_lookml env self bq_client v1_name = Ok out ->
  out <> VDict [] ->
  let data_source_name := re_sub_prefix "metric_definitions_" (View.name self) in
  exists namespace_definitions selected,
    ConfigCollection.get_platform_definitions (configs env) (View.namespace self)
      = Some namespace_definitions
    /\ (forall slug metric,
          In (slug, metric) selected
          <-> In (slug, metric)
                 (MetricsSpec.definitions (PlatformDefinitions.metrics namespace_definitions))
              /\ contributes data_source_name metric)
    /\ (exists columns base_view_fields rest,
          view_field out "derived_table"
            = Ok (VDict [ ("sql", VStr ("
            SELECT
                " ++ String.concat "" columns ++ "
                " ++ String.concat "base." base_view_fields ++ "
                m." ++ rest)%string) ])
          /\ Forall2 (fun column '(slug, metric) =>
                        exists e rendered,
                          Metric.select_expression metric = Some e
                          /\ ConfigCollection.render (configs env) e = Ok rendered
                          /\ column = (rendered ++ " AS " ++ slug ++ ",
")%string)
                     columns selected
          /\ Forall (fun field =>
                       exists name,
                         field = (format_value env name ++ ",
")%string
                         /\ value_in name
                                     ([ "client_id"; "submission_date"; "submission";
                                        "first_run" ] ++ map fst selected) = false)
                    base_view_fields)
    /\ (exists client_id metric_dimensions base_fields,
          view_field out "dimensions"
            = Ok (VList (client_id :: metric_dimensions ++ base_fields))
          /\ get_dimensions env self = Ok (client_id :: metric_dimensions)
          /\ subscript client_id "name" = Ok (VStr "client_id")
          /\ Forall2 (fun dimension slug => subscript dimension "name" = Ok (VStr slug))
                     metric_dimensions (map fst selected))
    /\ ignore_base_fields namespace_definitions data_source_name
       = Ok ([ "client_id"; "submission_date"; "submission"; "first_run" ]
             ++ map fst selected).
Proof.
  intros H Hne dsn.
  destruct (to_lookml_generated _ _ _ H Hne)
    as [nd dsd columns ignore bvf lk jbv from_sql mdims dims groups measures sets
        dsn' Hnd Hdsd Hcols Hcne Hignore Hbase Hfmt Hdims Hmerge Hmeas Hsets].
  subst dsn'.
  destruct (metric_definitions_Ok _ _ Hcols) as [Hsrc Hmap].
  exists nd.
  exists (selected_metrics dsn (MetricsSpec.definitions (PlatformDefinitions.metrics nd))).
  split; [exact Hnd |].
  split; [intros slug metric; apply selected_metrics_spec |].
  split; [| split].
  - exists columns, bvf. eexists. split; [| split].
    + rewrite view_field_derived_table. unfold derived_table_sql.
      rewrite !fstr_cons. reflexivity.
    + apply mapM_Forall2 in Hmap.
      eapply Forall2_impl; [| exact Hmap].
      intros column [slug metric] Hc. unfold column_of_metric in Hc. simpl in Hc.
      destruct (Metric.select_expression metric) as [e |]; [| discriminate Hc].
      bind_inv Hc as rendered Hr. inversion Hc.
      exists e, rendered. split; [reflexivity | split; [exact Hr | reflexivity]].
    + pose proof (ignore_base_fields_Ok _ _ Hignore) as Hi. subst ignore.
      exact (base_view_fields_spec _ _ _ _ Hbase).
  - destruct (merge_base_fields_app _ _ _ _ Hmerge) as [base_fields [gs [Hm _]]].
    destruct (get_dimensions_names self Hnd Hsrc) as [cid [md [Hgd [Hcid Hnames]]]].
    rewrite Hgd in Hdims. inversion Hdims; subst mdims.
    exists cid, md, base_fields.
    split; [| split; [exact Hgd | split; [exact Hcid | exact Hnames]]].
    rewrite Hm. reflexivity.
  - exact (ignore_base_fields_declared nd dsn Hsrc).
Qed.

(** ** Missing configuration *)

(** C2. When the registry has no platform definitions for the namespace, or
    no definition of the data source the view name stands for, or every
    metric of the namespace with a select expression has a data source and
    none passes the filter, [to_lookml] returns the empty record and raises
    nothing. *)
Theorem C2_missing_configuration_is_empty (self : View.t) (bq_client : BqClient)
        (v1_name : option string) :
  let data_source_name := re_sub_prefix "metric_definitions_" (View.name self) in
  ConfigCollection.get_platform_definitions (configs env) (View.namespace self) = None
  \/ ConfigCollection.get_data_source_definition (configs env) data_source_name
                                                 (View.namespace self) = None
  \/ (exists namespace_definitions,
        ConfigCollection.get_platform_definitions (configs env) (View.namespace self)
          = Some namespace_definitions
        /\ sources_declared
             (MetricsSpec.definitions (PlatformDefinitions.metrics namespace_definitions))
        /\ forall slug metric,
             In (slug, metric)
                (MetricsSpec.definitions (PlatformDefinitions.metrics namespace_definitions)) ->
             ~ contributes data_source_name metric) ->
  to_lookml env self bq_client v1_name = Ok (VDict []).
Proof.
  intros dsn H. unfold to_lookml. fold dsn.
  destruct H as [H | [H | [nd [Hnd [Hsrc Hnone]]]]].
  - rewrite H. reflexivity.
  - destruct (ConfigCollection.get_platform_definitions _ _); [| reflexivity].
    rewrite H. reflexivity.
  - rewrite Hnd.
    destruct (ConfigCollection.get_data_source_definition _ _ _); [| reflexivity].
    rewrite (metric_definitions_declared nd dsn Hsrc).
    rewrite (@selected_metrics_nil dsn _ Hnone). reflexivity.
Qed.

(** C10. When the registry has no platform definitions for the namespace,
    [get_dimensions] and [_get_sets] fail on the attribute access, while
    [to_lookml] returns the empty record. *)
Theorem C10_only_to_lookml_guards_missing_definitions (self : View.t)
        (bq_client : BqClient) (v1_name : option string) :
  ConfigCollection.get_platform_definitions (configs env) (View.namespace self) = None ->
  get_dimensions env self = Raise AttributeError
  /\ _get_sets env self = Raise AttributeError
  /\ to_lookml env self bq_client v1_name = Ok (VDict []).
Proof.
  intros H. unfold _get_sets, get_dimensions, to_lookml. rewrite H.
  repeat split; reflexivity.
Qed.

(** ** Base-table fields *)

Lemma value_in_VStr (n : string) (l : list string) :
  value_in (VStr n) l = true <-> In n l.
Proof.
  unfold value_in. rewrite existsb_exists. simpl. split.
  - intros [x [Hin Heq]]. apply String.eqb_eq in Heq. subst x. exact Hin.
  - intros Hin. exists n. split; [exact Hin | apply String.eqb_refl].
Qed.

Lemma ignore_base_fields_spec (namespace_definitions : PlatformDefinitions.t)
      (data_source_name n : string) (ignore : list string) :
  ignore_base_fields namespace_definitions data_source_name = Ok ignore ->
  In n ignore <-> excluded_base_field namespace_definitions data_source_name n.
Proof.
  intros Hignore. rewrite (ignore_base_fields_Ok _ _ Hignore).
  unfold excluded_base_field.
  rewrite in_app_iff, in_map_iff. split.
  - intros [Hfix | [[slug metric] [Heq Hin]]]; [left; exact Hfix | right].
    simpl in Heq. subst n. apply selected_metrics_spec in Hin. exists metric. exact Hin.
  - intros [Hfix | [metric Hin]]; [left; exact Hfix | right].
    exists (n, metric). split; [reflexivity |].
    apply selected_metrics_spec. exact Hin.
Qed.

(** [base_view_lkml["views"][0][key]] of a record that is given item by
    item. *)
Lemma base_view_items_of_record (record view0 : Dict) (views fields : list Value)
      (key : string) :
  dict_find "views" record = Some (VList (VDict view0 :: views)) ->
  dict_find key view0 = Some (VList fields) ->
  base_view_items (VDict record) key = Ok fields.
Proof.
  intros Hviews Hkey. unfold base_view_items. simpl. unfold getitem.
  rewrite Hviews. simpl. unfold getitem. rewrite Hkey. reflexivity.
Qed.

(** [get_measures] looks every dimension up by its name, a string. *)
Lemma get_measures_names_str (self : View.t) (dimensions measures : list Value) :
  get_measures env self dimensions = Ok measures ->
  forall dimension, In dimension dimensions ->
                    exists name, subscript dimension "name" = Ok (VStr name).
Proof.
  unfold get_measures. revert measures.
  induction dimensions as [| x rest IH]; simpl; intros measures H d Hin;
    [contradiction |].
  bind_inv H as ms Hms. bind_inv H as others Hothers.
  destruct Hin as [Hin | Hin]; [| exact (IH others Hothers d Hin)].
  subst x. unfold measures_of_dimension in Hms.
  bind_inv Hms as n Hn. bind_inv Hms as name Hname.
  destruct n as [s | l | dd]; simpl in Hname; try discriminate Hname.
  exists s. exact Hn.
Qed.

Lemma base_view_items_truthy (lkml : Value) (key : string) (fields : list Value) :
  base_view_items lkml key = Ok fields -> truthy lkml = true.
Proof.
  unfold base_view_items. intros H. inv_bind H.
  destruct lkml as [s | l | d]; simpl in E; try discriminate E.
  destruct d; [discriminate E | reflexivity].
Qed.

Lemma base_fields_to_append_spec (lkml : Value) (key : string)
      (ignore : list string) (fields appended : list Value) :
  base_view_items lkml key = Ok fields ->
  base_fields_to_append lkml key ignore = Ok appended ->
  (forall d n, In d fields -> subscript d "name" = Ok n -> value_in n ignore = false ->
               exists d', In d' appended
                          /\ setitem d "group_label" (VStr "Base Fields") = Ok d')
  /\ (forall d', In d' appended ->
                 exists d n, In d fields /\ subscript d "name" = Ok n
                             /\ value_in n ignore = false
                             /\ setitem d "group_label" (VStr "Base Fields") = Ok d').
Proof.
  unfold base_fields_to_append. intros Hitems H. rewrite Hitems in H. simpl in H.
  clear Hitems. revert appended H.
  induction fields as [| x rest IH]; simpl; intros appended H.
  - inversion H; subst. split; [intros d n [] | intros d' []].
  - bind_inv H as y Hy. bind_inv H as ys Hys. inversion H; subst appended. clear H.
    destruct (IH ys Hys) as [IH1 IH2]. clear IH.
    bind_inv Hy as xn Hxn.
    destruct (value_in xn ignore) eqn:Hx; simpl in Hy.
    + inversion Hy; subst y. split.
      * intros d n [Hd | Hd] Hn Hv.
        -- subst d. rewrite Hxn in Hn. inversion Hn; subst n. congruence.
        -- exact (IH1 d n Hd Hn Hv).
      * intros d' Hd'. destruct (IH2 d' Hd') as [d [n [Hd Hrest]]].
        exists d, n. split; [right; exact Hd | exact Hrest].
    + bind_inv Hy as x' Hx'. inversion Hy; subst y. split.
      * intros d n [Hd | Hd] Hn Hv.
        -- subst d. exists x'. split; [left; reflexivity | exact Hx'].
        -- destruct (IH1 d n Hd Hn Hv) as [d' [Hin Hset]].
           exists d'. split; [right; exact Hin | exact Hset].
      * intros d' [Hd' | Hd'].
        -- subst d'. exists x, xn. repeat split; try assumption. left; reflexivity.
        -- destruct (IH2 d' Hd') as [d [n [Hd Hrest]]].
           exists d, n. split; [right; exact Hd | exact Hrest].
Qed.

(** The block that resolves the base table, for a view with tables. *)
Lemma base_view_block_with_table (self : View.t) (bq_client : BqClient)
      (data_source_definition : DataSourceDefinition.t) (ignore : list string)
      (table0 : list (string * string)) (rest : list (list (string * string)))
      (base_view_fields : list string) (base_view_lkml : option Value)
      (join_base_view : string) :
  View.tables self = table0 :: rest ->
  base_view_block env self bq_client data_source_definition ignore
    = Ok (base_view_fields, base_view_lkml, join_base_view) ->
  exists base_table lkml base_dimensions,
    getitem table0 "table" = Ok base_table
    /\ TableView_to_lookml env
         (TableView (View.namespace self) "base_view"
                    [ [("table", base_table); ("channel", "release")] ])
         bq_client None = Ok lkml
    /\ base_view_items lkml "dimensions" = Ok base_dimensions
    /\ base_view_lkml = Some lkml
    /\ join_base_view = join_base_view_sql base_table data_source_definition.
Proof.
  unfold base_view_block. intros Ht H. rewrite Ht in H.
  bind_inv H as base_table Htable. bind_inv H as lkml Hlkml.
  bind_inv H as dims Hdims. bind_inv H as bvf Hbvf. inversion H; subst. clear H.
  exists base_table, lkml, dims. repeat split; assumption.
Qed.

(** The fields one of the two loops appends, for a record of the table view
    that is given item by item. *)
Lemma appended_base_fields (self : View.t) (bq_client : BqClient) (out : Value)
      (table0 : list (string * string)) (rest : list (list (string * string)))
      (base_table : string) (record view0 : Dict) (views : list Value) :
  generated_view env self bq_client out ->
  View.tables self = table0 :: rest ->
  dict_find "table" table0 = Some base_table ->
  TableView_to_lookml env
    (TableView (View.namespace self) "base_view"
               [ [("table", base_table); ("channel", "release")] ])
    bq_client None = Ok (VDict record) ->
  dict_find "views" record = Some (VList (VDict view0 :: views)) ->
  exists namespace_definitions ignore metric_dimensions appended appended_groups measures,
    ConfigCollection.get_platform_definitions (configs env) (View.namespace self)
      = Some namespace_definitions
    /\ ignore_base_fields namespace_definitions
                          (re_sub_prefix "metric_definitions_" (View.name self))
       = Ok ignore
    /\ get_dimensions env self = Ok metric_dimensions
    /\ base_fields_to_append (VDict record) "dimensions" ignore = Ok appended
    /\ base_fields_to_append (VDict record) "dimension_groups" ignore
       = Ok appended_groups
    /\ get_measures env self (metric_dimensions ++ appended) = Ok measures
    /\ view_field out "dimensions" = Ok (VList (metric_dimensions ++ appended))
    /\ view_field out "dimension_groups"
       = Ok (VList (get_dimension_groups self ++ appended_groups)).
Proof.
  intros Hgen Ht Htable Hlkml Hviews.
  destruct Hgen
    as [nd dsd columns ignore bvf lk jbv from_sql mdims dims groups measures sets
        dsn Hnd Hdsd Hcols Hcne Hignore Hbase Hfmt Hdims Hmerge Hmeas Hsets].
  destruct (base_view_block_with_table _ _ _ _ Ht Hbase)
    as [base_table' [lkml [bdims [Htable' [Hlk [Hitems [Hsome _]]]]]]].
  unfold getitem in Htable'. rewrite Htable in Htable'.
  inversion Htable'; subst base_table'. clear Htable'.
  rewrite Hlkml in Hlk. inversion Hlk; subst lkml. clear Hlk.
  subst lk. unfold merge_base_fields in Hmerge.
  rewrite (base_view_items_truthy _ _ Hitems) in Hmerge.
  bind_inv Hmerge as appended Happ. bind_inv Hmerge as gs Hgs.
  inversion Hmerge; subst dims groups. clear Hmerge.
  exists nd, ignore, mdims, appended, gs, measures.
  repeat split; assumption.
Qed.


(** ** Measures *)

Lemma get_measures_single (self : View.t) (dimension : Value) :
  get_measures env self [dimension]
  = (measures <- measures_of_dimension env self dimension ;; Ok (measures ++ [])).
Proof. reflexivity. Qed.

(** The loop over the statistics of one metric. *)
Lemma measures_of_statistics_recognised (dimension : Value) (name : string)
      (label : Value) (statistics : Dict) :
  subscript dimension "name" = Ok (VStr name) ->
  subscript dimension "label" = Ok label ->
  exists measures,
    flat_mapM (fun '(statistic_slug, _) => measures_of_statistic env dimension statistic_slug)
              statistics = Ok measures
    /\ Forall2 (fun measure slug =>
                  subscript measure "name" = Ok (VStr (name ++ "_" ++ slug)%string)
                  /\ subscript measure "type" = Ok (VStr (measure_type slug)))
               measures (recognised_statistics statistics).
Proof.
  intros Hname Hlabel.
  induction statistics as [| [slug v] rest IH].
  - exists []. split; [reflexivity | constructor].
  - destruct IH as [ms [Hms Hall]].
    unfold recognised_statistics in *. simpl. rewrite Hms.
    unfold measures_of_statistic, measure_type. rewrite Hname, Hlabel.
    destruct (String.eqb slug "sum") eqn:Hsum; simpl.
    + eexists. split; [reflexivity |].
      constructor; [| exact Hall].
      rewrite Hsum. split; reflexivity.
    + destruct (String.eqb slug "client_count") eqn:Hcc; simpl.
      * eexists. split; [reflexivity |].
        constructor; [| exact Hall].
        rewrite Hsum. split; reflexivity.
      * exists ms. split; [reflexivity | exact Hall].
Qed.

Lemma measures_of_statistics_unrecognised (dimension : Value) (statistics : Dict) :
  recognised_statistics statistics = [] ->
  flat_mapM (fun '(statistic_slug, _) => measures_of_statistic env dimension statistic_slug)
            statistics = Ok [].
Proof.
  unfold recognised_statistics.
  induction statistics as [| [slug v] rest IH]; simpl; intros H; [reflexivity |].
  destruct (String.eqb slug "sum") eqn:Hsum; simpl in H; [discriminate H |].
  destruct (String.eqb slug "client_count") eqn:Hcc; simpl in H; [discriminate H |].
  rewrite (IH H). unfold measures_of_statistic. rewrite Hsum, Hcc. reflexivity.
Qed.

(** C5. For a dimension whose name is that of a metric with declared
    statistics, and which has a label as soon as one of these statistics is
    [sum] or [client_count], [get_measures] emits one measure per declared
    statistic that is [sum] or [client_count], in the declared order: named
    [<name>_sum] with type [sum], or [<name>_client_count] with type
    [count_distinct]; these are exactly the measures the dimension adds to
    those of the dimensions before and after it.  With statistics [sum] and
    [client_count] these are two measures; when no declared statistic is
    recognised the dimension adds none, and nothing is raised. *)
Theorem C5_measures_per_statistic (self : View.t) (dimension : Value)
        (name : string) (metric : Metric.t) (statistics : Dict) :
  subscript dimension "name" = Ok (VStr name) ->
  ConfigCollection.get_metric_definition (configs env) name (View.namespace self)
    = Some metric ->
  Metric.statistics metric = Some statistics ->
  (recognised_statistics statistics = []
   \/ exists label, subscript dimension "label" = Ok label) ->
  exists measures,
    get_measures env self [dimension] = Ok measures
    /\ Forall2 (fun measure slug =>
                  subscript measure "name" = Ok (VStr (name ++ "_" ++ slug)%string)
                  /\ subscript measure "type" = Ok (VStr (measure_type slug)))
               measures (recognised_statistics statistics)
    /\ (forall before after measures_before measures_after,
           get_measures env self before = Ok measures_before ->
           get_measures env self after = Ok measures_after ->
           get_measures env self (before ++ dimension :: after)
           = Ok (measures_before ++ measures ++ measures_after))
    /\ (map fst statistics = ["sum"; "client_count"] ->
        exists by_sum by_client_count,
          measures = [by_sum; by_client_count]
          /\ subscript by_sum "name" = Ok (VStr (name ++ "_sum")%string)
          /\ subscript by_client_count "name"
             = Ok (VStr (name ++ "_client_count")%string))
    /\ (recognised_statistics statistics = [] -> measures = []).
Proof.
  intros Hname Hmetric Hstats Hlabel.
  assert (Hdim : measures_of_dimension env self dimension
                 = flat_mapM (fun '(statistic_slug, _) =>
                                measures_of_statistic env dimension statistic_slug)
                             statistics).
  { unfold measures_of_dimension. rewrite Hname. simpl.
    rewrite Hmetric, Hstats. destruct statistics; reflexivity. }
  assert (Hmeasures :
            exists measures,
              flat_mapM (fun '(statistic_slug, _) =>
                           measures_of_statistic env dimension statistic_slug)
                        statistics = Ok measures
              /\ Forall2 (fun measure slug =>
                            subscript measure "name"
                            = Ok (VStr (name ++ "_" ++ slug)%string)
                            /\ subscript measure "type" = Ok (VStr (measure_type slug)))
                         measures (recognised_statistics statistics)).
  { destruct Hlabel as [Hnone | [label Hlabel]].
    - exists []. split;
        [exact (measures_of_statistics_unrecognised dimension statistics Hnone) |].
      rewrite Hnone. constructor.
    - exact (@measures_of_statistics_recognised dimension name label statistics
                                                 Hname Hlabel). }
  destruct Hmeasures as [measures [Hms Hall]].
  exists measures.
  assert (Hone : get_measures env self [dimension] = Ok measures).
  { rewrite get_measures_single, Hdim, Hms. simpl.
    rewrite app_nil_r. reflexivity. }
  split; [exact Hone |]. split; [exact Hall |]. split; [| split].
  - intros before after mb ma Hb Ha. unfold get_measures in *.
    apply flat_mapM_app; [exact Hb |].
    change (dimension :: after) with ([dimension] ++ after).
    apply flat_mapM_app; [exact Hone | exact Ha].
  - intros Hkeys. unfold recognised_statistics in Hall.
    rewrite Hkeys in Hall. simpl in Hall.
    inversion Hall as [| m1 s1 l1 l1' [Hn1 _] Hrest]; subst.
    inversion Hrest as [| m2 s2 l2 l2' [Hn2 _] Hnil]; subst.
    inversion Hnil; subst.
    exists m1, m2. repeat split; assumption.
  - intros Hnone. rewrite Hnone in Hall. inversion Hall. reflexivity.
Qed.

(** ** The aggregation parameter and the conditional of the SQL *)

Lemma analysis_basis_sql_conditional (data_source_definition : DataSourceDefinition.t) :
  analysis_basis_sql data_source_definition
  = liquid_conditional (analysis_basis_branches data_source_definition)
                       analysis_basis_otherwise.
Proof.
  unfold analysis_basis_sql, liquid_conditional, analysis_basis_branches,
    analysis_basis_otherwise, liquid_if, liquid_elsif.
  generalize (or_else (DataSourceDefinition.submission_date_column data_source_definition)
                      "submission_date").
  intros column. cbn [map].
  rewrite !fstr_cons. unfold fstr. cbn [String.concat].
  rewrite !string_app_assoc. reflexivity.
Qed.

(** C7. Every generated view has exactly one parameter,
    [aggregate_metrics_by], of type [unquoted], with default value [day] and
    the six allowed values [day], [week], [month], [quarter], [year] and
    [overall].  The SQL of its derived table contains the conditional on
    that parameter, which has the five branches [day], [week], [month],
    [quarter] and [year] and an [else] branch; for [overall] the [else]
    branch is selected, which makes [analysis_basis] NULL. *)
Theorem C7_parameter_and_conditional (self : View.t) (bq_client : BqClient)
        (v1_name : option string) (out : Value) :
  to_lookml env self bq_client v1_name = Ok out ->
  out <> VDict [] ->
  view_field out "parameters"
  = Ok (VList
          [ VDict
              [ ("name", VStr "aggregate_metrics_by");
                ("label", VStr "Aggregate Client Metrics Per");
                ("type", VStr "unquoted");
                ("default_value", VStr "day");
                ("allowed_values",
                 VList [ VDict [("label", VStr "Per Day"); ("value", VStr "day")];
                         VDict [("label", VStr "Per Week"); ("value", VStr "week")];
                         VDict [("label", VStr "Per Month"); ("value", VStr "month")];
                         VDict [("label", VStr "Per Quarter"); ("value", VStr "quarter")];
                         VDict [("label", VStr "Per Year"); ("value", VStr "year")];
                         VDict [("label", VStr "Overall"); ("value", VStr "overall")] ]) ] ])
  /\ exists data_source_definition before after,
       view_field out "derived_table"
       = Ok (VDict [ ("sql",
                      VStr (before
                            ++ liquid_conditional
                                 (analysis_basis_branches data_source_definition)
                                 analysis_basis_otherwise
                            ++ after)%string) ])
       /\ map fst (analysis_basis_branches data_source_definition)
          = [ "day"; "week"; "month"; "quarter"; "year" ]
       /\ liquid_select "overall" (analysis_basis_branches data_source_definition)
                        analysis_basis_otherwise
          = "
                NULL as analysis_basis
                ".
Proof.
  intros H Hne.
  destruct (to_lookml_generated _ _ _ H Hne)
    as [nd dsd columns ignore bvf lk jbv from_sql mdims dims groups measures sets
        dsn' Hnd Hdsd Hcols Hcne Hignore Hbase Hfmt Hdims Hmerge Hmeas Hsets].
  split; [reflexivity |].
  exists dsd. eexists. eexists.
  split; [| split; reflexivity].
  rewrite <- analysis_basis_sql_conditional.
  rewrite view_field_derived_table. unfold derived_table_sql.
  do 5 f_equal.
  apply (fstr_split [_; _; _; _; _; _; _]).
Qed.

(** ** The set of metrics *)

Lemma names_of_cons (field : Value) (fields : list Value) :
  names_of (field :: fields)
  = match subscript field "name" with Ok n => [n] | Raise _ => [] end
    ++ names_of fields.
Proof. reflexivity. Qed.

Lemma dimension_names_of_sets (dimensions names : list Value) :
  filter_mapM (fun dimension =>
                 n <- subscript dimension "name" ;;
                 if negb (value_eq_str n "client_id")
                 then (n' <- subscript dimension "name" ;; Ok (Some n'))
                 else Ok None)
              dimensions = Ok names ->
  names = names_except_client_id dimensions.
Proof.
  unfold names_except_client_id. revert names.
  induction dimensions as [| d rest IH]; intros names H; simpl in H.
  - inversion H. reflexivity.
  - bind_inv H as y Hy. bind_inv H as ys Hys. inversion H; subst names. clear H.
    rewrite names_of_cons, filter_app, <- (IH ys Hys).
    bind_inv Hy as n Hn. rewrite Hn in *. simpl.
    destruct (value_eq_str n "client_id"); simpl in Hy |- *.
    + inversion Hy. reflexivity.
    + inversion Hy. reflexivity.
Qed.

Lemma measure_names_of_sets (measures names : list Value) :
  mapM (fun measure => subscript measure "name") measures = Ok names ->
  names = names_of measures.
Proof.
  revert names.
  induction measures as [| m rest IH]; intros names H; simpl in H.
  - inversion H. reflexivity.
  - bind_inv H as y Hy. bind_inv H as ys Hys. inversion H; subst names.
    rewrite names_of_cons, Hy, <- (IH ys Hys). reflexivity.
Qed.

Lemma _get_sets_fields (self : View.t) (sets : list Value) :
  _get_sets env self = Ok sets ->
  exists metric_dimensions metric_measures,
    get_dimensions env self = Ok metric_dimensions
    /\ get_measures env self metric_dimensions = Ok metric_measures
    /\ sets = [ VDict [ ("name", VStr "metrics");
                        ("fields",
                         VList (names_except_client_id metric_dimensions
                                ++ names_of metric_measures)) ] ].
Proof.
  unfold _get_sets. intros H.
  bind_inv H as md Hmd. bind_inv H as mm Hmm.
  bind_inv H as dn Hdn. bind_inv H as mn Hmn. inversion H; subst sets.
  exists md, mm. split; [exact Hmd |]. split; [exact Hmm |].
  rewrite (dimension_names_of_sets _ Hdn), (measure_names_of_sets _ Hmn).
  reflexivity.
Qed.

(** *** Names of measures *)

Lemma names_of_app (l1 l2 : list Value) :
  names_of (l1 ++ l2) = names_of l1 ++ names_of l2.
Proof. unfold names_of. apply flat_map_app. Qed.

Lemma names_of_Forall2 (fields : list Value) (names : list string) :
  Forall2 (fun field n => subscript field "name" = Ok (VStr n)) fields names ->
  names_of fields = map VStr names.
Proof.
  induction 1 as [| f n fs ns Hf Hfs IH]; [reflexivity |].
  rewrite names_of_cons, Hf, IH. reflexivity.
Qed.

Lemma measures_of_statistic_names (dimension : Value) (name slug : string)
      (measures : list Value) :
  subscript dimension "name" = Ok (VStr name) ->
  measures_of_statistic env dimension slug = Ok measures ->
  names_of measures
  = map (fun slug => VStr (name ++ "_" ++ slug)%string)
        (filter (fun slug => String.eqb slug "sum" || String.eqb slug "client_count")
                [slug]).
Proof.
  intros Hname H. unfold measures_of_statistic in H. rewrite Hname in H.
  simpl filter.
  destruct (String.eqb slug "sum"); simpl in H |- *.
  - bind_inv H as lv Hlv. inversion H. reflexivity.
  - destruct (String.eqb slug "client_count"); simpl in H |- *.
    + bind_inv H as lv Hlv. inversion H. reflexivity.
    + inversion H. reflexivity.
Qed.

Lemma measures_of_statistics_names (dimension : Value) (name : string)
      (statistics : Dict) (measures : list Value) :
  subscript dimension "name" = Ok (VStr name) ->
  flat_mapM (fun '(statistic_slug, _) => measures_of_statistic env dimension statistic_slug)
            statistics = Ok measures ->
  names_of measures
  = map (fun slug => VStr (name ++ "_" ++ slug)%string)
        (recognised_statistics statistics).
Proof.
  intros Hname. unfold recognised_statistics. revert measures.
  induction statistics as [| [slug v] rest IH]; intros measures H; simpl in H.
  - inversion H. reflexivity.
  - bind_inv H as ms Hms. bind_inv H as rs Hrs. inversion H; subst measures.
    rewrite names_of_app, (IH rs Hrs).
    rewrite (measures_of_statistic_names dimension slug Hname Hms).
    change (map fst ((slug, v) :: rest)) with ([slug] ++ map fst rest).
    rewrite filter_app, map_app. reflexivity.
Qed.

Lemma measures_of_dimension_names (self : View.t) (dimension : Value)
      (name : string) (measures : list Value) :
  subscript dimension "name" = Ok (VStr name) ->
  measures_of_dimension env self dimension = Ok measures ->
  names_of measures = measure_names (configs env) (View.namespace self) name.
Proof.
  intros Hname H. unfold measures_of_dimension in H. rewrite Hname in H.
  simpl in H. unfold measure_names, recognised_statistics_of.
  destruct (ConfigCollection.get_metric_definition _ _ _) as [metric |];
    [| inversion H; reflexivity].
  destruct (Metric.statistics metric) as [[| entry rest] |];
    try (inversion H; reflexivity).
  exact (measures_of_statistics_names dimension (entry :: rest) Hname H).
Qed.

Lemma get_measures_names (self : View.t) (dimensions : list Value)
      (names : list string) (measures : list Value) :
  Forall2 (fun dimension n => subscript dimension "name" = Ok (VStr n))
          dimensions names ->
  get_measures env self dimensions = Ok measures ->
  names_of measures
  = flat_map (measure_names (configs env) (View.namespace self)) names.
Proof.
  intros Hnames. revert measures. unfold get_measures.
  induction Hnames as [| d n ds ns Hd Hds IH]; intros measures H; simpl in H.
  - inversion H. reflexivity.
  - bind_inv H as ms Hms. bind_inv H as rs Hrs. inversion H; subst measures.
    rewrite names_of_app, (IH rs Hrs).
    rewrite (measures_of_dimension_names self d Hd Hms). reflexivity.
Qed.

(** *** Names that cannot coincide *)

Lemma list_ascii_of_string_app (a b : string) :
  list_ascii_of_string (a ++ b)
  = list_ascii_of_string a ++ list_ascii_of_string b.
Proof.
  induction a as [| ch a IH]; simpl; [reflexivity | rewrite IH; reflexivity].
Qed.

Lemma list_ascii_of_string_inj (a b : string) :
  list_ascii_of_string a = list_ascii_of_string b -> a = b.
Proof.
  intros H. rewrite <- (string_of_list_ascii_of_string a),
              <- (string_of_list_ascii_of_string b), H.
  reflexivity.
Qed.

Lemma string_app_inv_tail (a b c : string) :
  (a ++ c)%string = (b ++ c)%string -> a = b.
Proof.
  intros H. apply list_ascii_of_string_inj.
  apply (f_equal list_ascii_of_string) in H.
  rewrite !list_ascii_of_string_app in H.
  exact (app_inv_tail _ _ _ H).
Qed.

Lemma sum_is_not_client_count (a b : string) :
  (a ++ "_sum")%string <> (b ++ "_client_count")%string.
Proof.
  intros H. apply (f_equal list_ascii_of_string) in H.
  rewrite !list_ascii_of_string_app in H.
  change (list_ascii_of_string "_sum")
    with (list_ascii_of_string "_su" ++ ["m"%char]) in H.
  change (list_ascii_of_string "_client_count")
    with (list_ascii_of_string "_client_coun" ++ ["t"%char]) in H.
  rewrite !app_assoc in H.
  apply app_inj_tail in H. destruct H as [_ H]. discriminate H.
Qed.

Lemma client_id_is_no_measure_name (name : string) :
  "client_id" <> (name ++ "_sum")%string
  /\ "client_id" <> (name ++ "_client_count")%string.
Proof.
  split; intros H; apply (f_equal list_ascii_of_string) in H;
    rewrite list_ascii_of_string_app in H.
  - change (list_ascii_of_string "client_id")
      with (list_ascii_of_string "client_i" ++ ["d"%char]) in H.
    change (list_ascii_of_string "_sum")
      with (list_ascii_of_string "_su" ++ ["m"%char]) in H.
    rewrite app_assoc in H. apply app_inj_tail in H.
    destruct H as [_ H]. discriminate H.
  - change (list_ascii_of_string "client_id")
      with (list_ascii_of_string "client_i" ++ ["d"%char]) in H.
    change (list_ascii_of_string "_client_count")
      with (list_ascii_of_string "_client_coun" ++ ["t"%char]) in H.
    rewrite app_assoc in H. apply app_inj_tail in H.
    destruct H as [_ H]. discriminate H.
Qed.

Lemma recognised_statistics_cases (statistics : Dict) (slug : string) :
  In slug (recognised_statistics statistics) ->
  slug = "sum" \/ slug = "client_count".
Proof.
  unfold recognised_statistics. rewrite filter_In. intros [_ H].
  apply orb_true_iff in H. destruct H as [H | H]; apply String.eqb_eq in H; auto.
Qed.

Lemma recognised_statistics_of_cases (registry : ConfigCollection.t)
      (namespace name slug : string) :
  In slug (recognised_statistics_of registry namespace name) ->
  slug = "sum" \/ slug = "client_count".
Proof.
  unfold recognised_statistics_of.
  destruct (ConfigCollection.get_metric_definition _ _ _) as [metric |]; [| intros []].
  destruct (Metric.statistics metric) as [statistics |]; [| intros []].
  apply recognised_statistics_cases.
Qed.

Lemma measure_names_In (registry : ConfigCollection.t) (namespace name : string)
      (x : Value) :
  In x (measure_names registry namespace name) ->
  x = VStr (name ++ "_sum")%string \/ x = VStr (name ++ "_client_count")%string.
Proof.
  unfold measure_names. rewrite in_map_iff. intros [slug [Hx Hin]].
  destruct (recognised_statistics_of_cases _ _ _ _ Hin); subst; auto.
Qed.

Lemma measure_names_same_dimension (registry : ConfigCollection.t)
      (namespace n1 n2 : string) (x : Value) :
  In x (measure_names registry namespace n1) ->
  In x (measure_names registry namespace n2) ->
  n1 = n2.
Proof.
  intros H1 H2.
  apply measure_names_In in H1. apply measure_names_In in H2.
  destruct H1 as [H1 | H1], H2 as [H2 | H2]; subst x; inversion H2 as [H].
  - exact (string_app_inv_tail _ _ _ H).
  - exfalso. exact (sum_is_not_client_count _ _ H).
  - exfalso. exact (sum_is_not_client_count _ _ (eq_sym H)).
  - exact (string_app_inv_tail _ _ _ H).
Qed.

Lemma NoDup_map_injective (A B : Type) (f : A -> B) (l : list A) :
  (forall x y, f x = f y -> x = y) -> NoDup l -> NoDup (map f l).
Proof.
  intros Hinj. induction 1 as [| x l Hx Hl IH]; simpl; constructor.
  - rewrite in_map_iff. intros [y [Hy Hin]].
    apply Hinj in Hy. subst y. exact (Hx Hin).
  - exact IH.
Qed.

Lemma NoDup_flat_map (A B : Type) (g : A -> list B) (l : list A) :
  NoDup l ->
  (forall a, In a l -> NoDup (g a)) ->
  (forall a a' x, In a l -> In a' l -> In x (g a) -> In x (g a') -> a = a') ->
  NoDup (flat_map g l).
Proof.
  induction 1 as [| a l Ha Hl IH]; intros Hg Hsep; simpl; [constructor |].
  apply NoDup_app.
  - apply Hg. left; reflexivity.
  - apply IH.
    + intros b Hb. apply Hg. right; exact Hb.
    + intros b b' x Hb Hb'. apply Hsep; right; assumption.
  - intros x Hx Hin. apply in_flat_map in Hin. destruct Hin as [b [Hb Hxb]].
    assert (a = b) by (apply (Hsep a b x); [left; reflexivity | right; exact Hb | | ];
                       assumption).
    subst b. exact (Ha Hb).
Qed.

Lemma NoDup_map_fst_filter (A B : Type) (f : A * B -> bool) (l : list (A * B)) :
  NoDup (map fst l) -> NoDup (map fst (filter f l)).
Proof.
  induction l as [| [a b] l IH]; simpl; intros H; [constructor |].
  inversion H as [| x xs Hx Hxs]; subst.
  destruct (f (a, b)); simpl; [constructor |]; try (apply IH; exact Hxs).
  intros Hin. apply Hx. apply in_map_iff in Hin. destruct Hin as [[a' b'] [Ha Hin]].
  simpl in Ha. subst a'. apply filter_In in Hin. destruct Hin as [Hin _].
  apply in_map_iff. exists (a, b'). split; [reflexivity | exact Hin].
Qed.

Lemma measure_names_NoDup (registry : ConfigCollection.t) (namespace name : string) :
  (forall metric statistics,
      ConfigCollection.get_metric_definition registry name namespace = Some metric ->
      Metric.statistics metric = Some statistics ->
      NoDup (map fst statistics)) ->
  NoDup (measure_names registry namespace name).
Proof.
  intros Hkeys. unfold measure_names. apply NoDup_map_injective.
  - intros x y H. inversion H as [Hxy].
    apply (f_equal list_ascii_of_string) in Hxy.
    rewrite !list_ascii_of_string_app in Hxy.
    apply app_inv_head in Hxy.
    apply list_ascii_of_string_inj in Hxy. inversion Hxy. reflexivity.
  - unfold recognised_statistics_of.
    destruct (ConfigCollection.get_metric_definition _ _ _) as [metric |] eqn:Hm;
      [| constructor].
    destruct (Metric.statistics metric) as [statistics |] eqn:Hs; [| constructor].
    apply NoDup_filter. exact (Hkeys metric statistics eq_refl Hs).
Qed.

Lemma NoDup_app_disjoint (A : Type) (l1 l2 : list A) (x : A) :
  NoDup (l1 ++ l2) -> In x l1 -> In x l2 -> False.
Proof.
  induction l1 as [| y l1 IH]; simpl; intros H H1 H2; [contradiction |].
  inversion H as [| z zs Hz Hzs]; subst.
  destruct H1 as [H1 | H1].
  - subst y. apply Hz. apply in_or_app. right. exact H2.
  - exact (IH Hzs H1 H2).
Qed.

Lemma In_filter_not_client_id (slugs : list string) (x : Value) :
  In x (filter (fun n => negb (value_eq_str n "client_id")) (map VStr slugs))
  <-> exists slug, x = VStr slug /\ In slug slugs /\ slug <> "client_id".
Proof.
  rewrite filter_In, in_map_iff. split.
  - intros [[slug [Hx Hin]] Hne]. subst x. simpl in Hne.
    apply negb_true_iff, String.eqb_neq in Hne.
    exists slug. repeat split; assumption.
  - intros [slug [Hx [Hin Hne]]]. subst x. split.
    + exists slug. split; [reflexivity | exact Hin].
    + simpl. apply negb_true_iff, String.eqb_neq. exact Hne.
Qed.

(** The fields of the set [metrics], from the slugs of the contributing
    metrics and the statistics of the registry. *)
Lemma metrics_set_fields (self : View.t) (namespace_definitions : PlatformDefinitions.t)
      (metric_dimensions metric_measures : list Value) :
  ConfigCollection.get_platform_definitions (configs env) (View.namespace self)
    = Some namespace_definitions ->
  get_dimensions env self = Ok metric_dimensions ->
  get_measures env self metric_dimensions = Ok metric_measures ->
  let slugs :=
    map fst (selected_metrics (re_sub_prefix "metric_definitions_" (View.name self))
               (MetricsSpec.definitions
                  (PlatformDefinitions.metrics namespace_definitions))) in
  names_except_client_id metric_dimensions ++ names_of metric_measures
  = filter (fun n => negb (value_eq_str n "client_id")) (map VStr slugs)
    ++ flat_map (measure_names (configs env) (View.namespace self))
                ("client_id" :: slugs).
Proof.
  intros Hnd Hmd Hmm slugs.
  pose proof (@get_dimensions_Ok self namespace_definitions _ Hnd Hmd) as Hsrc.
  destruct (get_dimensions_names self Hnd Hsrc) as [cid [mds [Hgd [Hcid Hnames]]]].
  rewrite Hgd in Hmd. inversion Hmd; subst metric_dimensions. clear Hmd.
  fold slugs in Hnames.
  assert (Hall : Forall2 (fun d n => subscript d "name" = Ok (VStr n))
                         (cid :: mds) ("client_id" :: slugs))
    by (constructor; assumption).
  rewrite (get_measures_names self Hall Hmm).
  unfold names_except_client_id. rewrite (names_of_Forall2 Hall).
  reflexivity.
Qed.

(** When two fields of the set have one name. *)
Lemma metrics_set_NoDup_iff (registry : ConfigCollection.t) (namespace : string)
      (slugs : list string) :
  NoDup slugs ->
  (forall name metric statistics,
      ConfigCollection.get_metric_definition registry name namespace = Some metric ->
      Metric.statistics metric = Some statistics ->
      NoDup (map fst statistics)) ->
  NoDup (filter (fun n => negb (value_eq_str n "client_id")) (map VStr slugs)
         ++ flat_map (measure_names registry namespace) ("client_id" :: slugs))
  <-> ~ field_name_clash registry namespace slugs.
Proof.
  intros Hslugs Hstats. split.
  - intros Hnodup [[Hcid Hrec] | [name [statistic [Hname [Hstat Hslug]]]]].
    + apply NoDup_app_remove_l in Hnodup. simpl in Hnodup.
      destruct (recognised_statistics_of registry namespace "client_id")
        as [| statistic rest] eqn:E; [contradiction |].
      apply (@NoDup_app_disjoint _ _ _
               (VStr ("client_id" ++ "_" ++ statistic)%string) Hnodup).
      * unfold measure_names. rewrite E. left. reflexivity.
      * apply in_flat_map. exists "client_id". split; [exact Hcid |].
        unfold measure_names. rewrite E. left. reflexivity.
    + apply (@NoDup_app_disjoint _ _ _
               (VStr (name ++ "_" ++ statistic)%string) Hnodup).
      * apply In_filter_not_client_id. exists (name ++ "_" ++ statistic)%string.
        split; [reflexivity | split; [exact Hslug |]].
        destruct (recognised_statistics_of_cases _ _ _ _ Hstat) as [Hs | Hs];
          subst statistic; intros Heq; symmetry in Heq.
        -- exact (proj1 (client_id_is_no_measure_name name) Heq).
        -- exact (proj2 (client_id_is_no_measure_name name) Heq).
      * apply in_flat_map. exists name. split; [exact Hname |].
        unfold measure_names. apply in_map_iff. exists statistic.
        split; [reflexivity | exact Hstat].
  - intros Hclash. apply NoDup_app.
    + apply NoDup_filter. apply NoDup_map_injective; [| exact Hslugs].
      intros x y H. inversion H. reflexivity.
    + destruct (in_dec string_dec "client_id" slugs) as [Hcid | Hcid].
      * assert (Hrec : recognised_statistics_of registry namespace "client_id" = []).
        { destruct (recognised_statistics_of registry namespace "client_id") eqn:E;
            [reflexivity |].
          exfalso. apply Hclash. left. split; [exact Hcid |]. rewrite E. discriminate. }
        simpl. unfold measure_names at 1. rewrite Hrec. simpl.
        apply NoDup_flat_map.
        -- exact Hslugs.
        -- intros n _. apply measure_names_NoDup. intros metric statistics.
           apply Hstats.
        -- intros n n' x _ _. apply measure_names_same_dimension.
      * apply NoDup_flat_map.
        -- constructor; [exact Hcid | exact Hslugs].
        -- intros n _. apply measure_names_NoDup. intros metric statistics.
           apply Hstats.
        -- intros n n' x _ _. apply measure_names_same_dimension.
    + intros x Hx Hin. apply In_filter_not_client_id in Hx.
      destruct Hx as [slug [Hx [Hslug _]]]. subst x.
      apply in_flat_map in Hin. destruct Hin as [name [Hname Hin]].
      unfold measure_names in Hin. apply in_map_iff in Hin.
      destruct Hin as [statistic [Heq Hstat]]. injection Heq as Hs. subst slug.
      apply Hclash. right. exists name, statistic.
      split; [exact Hname | split; [exact Hstat | exact Hslug]].
Qed.

(** C6. Every generated view has exactly one set, named
    [metrics].  Its fields are the names of the dimensions of
    [get_dimensions] (the metric-derived dimensions, not the base fields
    appended to the view) except [client_id], followed by the names of the
    measures of those dimensions.  For a view without tables these are all
    dimensions and all measures of the view.  With slugs and statistics the
    keys of dictionaries, the fields are free of duplicates exactly when no
    contributing metric is called like a measure of [client_id] or of a
    contributing metric, and no contributing metric called [client_id] has a
    measure. *)
Theorem C6_metrics_set_of_metric_dimensions (self : View.t) (bq_client : BqClient)
        (v1_name : option string) (out : Value) :
  to_lookml env self bq_client v1_name = Ok out ->
  out <> VDict [] ->
  exists namespace_definitions metric_dimensions metric_measures,
    ConfigCollection.get_platform_definitions (configs env) (View.namespace self)
      = Some namespace_definitions
    /\ get_dimensions env self = Ok metric_dimensions
    /\ get_measures env self metric_dimensions = Ok metric_measures
    /\ view_field out "sets"
       = Ok (VList [ VDict [ ("name", VStr "metrics");
                             ("fields",
                              VList (names_except_client_id metric_dimensions
                                     ++ names_of metric_measures)) ] ])
    /\ (View.tables self = [] ->
        view_field out "dimensions" = Ok (VList metric_dimensions)
        /\ view_field out "measures" = Ok (VList metric_measures))
    /\ (dictionary_keys (configs env) (View.namespace self) namespace_definitions ->
        (NoDup (names_except_client_id metric_dimensions ++ names_of metric_measures)
         <-> ~ field_name_clash
                 (configs env) (View.namespace self)
                 (map fst
                      (selected_metrics
                         (re_sub_prefix "metric_definitions_" (View.name self))
                         (MetricsSpec.definitions
                            (PlatformDefinitions.metrics namespace_definitions)))))).
Proof.
  intros H Hne.
  destruct (to_lookml_generated _ _ _ H Hne)
    as [nd dsd columns ignore bvf lk jbv from_sql mdims dims groups measures sets
        dsn' Hnd Hdsd Hcols Hcne Hignore Hbase Hfmt Hdims Hmerge Hmeas Hsets].
  destruct (_get_sets_fields self Hsets) as [md [mm [Hmd [Hmm Hfields]]]].
  rewrite Hdims in Hmd. inversion Hmd; subst md. clear Hmd.
  exists nd, mdims, mm.
  split; [exact Hnd |]. split; [exact Hdims |]. split; [exact Hmm |].
  split; [rewrite view_field_sets, Hfields; reflexivity |].
  split.
  - intros Ht. unfold base_view_block in Hbase. rewrite Ht in Hbase.
    inversion Hbase; subst bvf lk jbv. simpl in Hmerge.
    inversion Hmerge; subst dims groups.
    rewrite view_field_dimensions, view_field_measures.
    rewrite Hmm in Hmeas. inversion Hmeas. split; reflexivity.
  - intros [Hslugs Hstats].
    rewrite (metrics_set_fields self Hnd Hdims Hmm).
    apply metrics_set_NoDup_iff; [| exact Hstats].
    unfold selected_metrics. apply NoDup_map_fst_filter. exact Hslugs.
Qed.

End Run.

(** ** Runs that agree *)

Section Agreement.

Variable BqClient : Type.
Variables env1 env2 : Env BqClient.
Variables self1 self2 : View.t.

Hypothesis registries_agree : same_registry (configs env1) (configs env2).
Hypothesis titles_agree : forall slug, slug_to_title env1 slug = slug_to_title env2 slug.
Hypothesis formats_agree :
  forall template dataset,
    format_dataset env1 template dataset = format_dataset env2 template dataset.
Hypothesis strs_agree : forall v, py_str env1 v = py_str env2 v.
Hypothesis same_namespace : View.namespace self1 = View.namespace self2.
Hypothesis same_name : View.name self1 = View.name self2.

Lemma format_value_agree (v : Value) : format_value env1 v = format_value env2 v.
Proof. destruct v; simpl; [reflexivity | apply strs_agree | apply strs_agree]. Qed.

Lemma get_dimensions_agree : get_dimensions env1 self1 = get_dimensions env2 self2.
Proof.
  destruct registries_agree as [Hp _].
  unfold get_dimensions. rewrite same_namespace, same_name, Hp.
  destruct (ConfigCollection.get_platform_definitions _ _) as [nd |]; [| reflexivity].
  f_equal. apply filter_mapM_ext. intros [slug metric] _.
  rewrite titles_agree. reflexivity.
Qed.

Lemma measures_of_statistic_agree (dimension : Value) (statistic_slug : string) :
  measures_of_statistic env1 dimension statistic_slug
  = measures_of_statistic env2 dimension statistic_slug.
Proof.
  unfold measures_of_statistic.
  destruct (subscript dimension "name") as [name_v |]; simpl;
    [| reflexivity].
  destruct (subscript dimension "label") as [label_v |]; simpl;
    rewrite ?(format_value_agree name_v), ?(format_value_agree label_v);
    reflexivity.
Qed.

Lemma get_measures_agree (dimensions : list Value) :
  get_measures env1 self1 dimensions = get_measures env2 self2 dimensions.
Proof.
  destruct registries_agree as [_ [_ [_ [Hm _]]]].
  unfold get_measures. apply flat_mapM_ext. intros d _.
  unfold measures_of_dimension.
  destruct (subscript d "name") as [n |]; [| reflexivity]. simpl.
  destruct (as_str n) as [name |]; [| reflexivity]. simpl.
  rewrite same_namespace, Hm.
  destruct (ConfigCollection.get_metric_definition _ _ _) as [metric |];
    [| reflexivity].
  destruct (Metric.statistics metric) as [[| entry rest] |]; try reflexivity.
  apply flat_mapM_ext. intros [statistic_slug v] _.
  apply measures_of_statistic_agree.
Qed.

Lemma _get_sets_agree : _get_sets env1 self1 = _get_sets env2 self2.
Proof.
  unfold _get_sets. rewrite get_dimensions_agree.
  destruct (get_dimensions env2 self2) as [dimensions |]; [| reflexivity]. simpl.
  rewrite get_measures_agree. reflexivity.
Qed.

Lemma metric_definitions_agree (namespace_definitions : PlatformDefinitions.t)
      (data_source_name : string) :
  metric_definitions env1 namespace_definitions data_source_name
  = metric_definitions env2 namespace_definitions data_source_name.
Proof.
  destruct registries_agree as [_ [_ [_ [_ Hr]]]].
  unfold metric_definitions. apply filter_mapM_ext. intros [slug metric] _.
  destruct (Metric.select_expression metric) as [e |]; [| reflexivity].
  rewrite Hr. reflexivity.
Qed.

(** Two runs agree when they also agree on the base view. *)
Lemma to_lookml_agree (bq_client : BqClient) (v1_name v1_name' : option string) :
  (forall data_source_definition ignore,
      base_view_block env1 self1 bq_client data_source_definition ignore
      = base_view_block env2 self2 bq_client data_source_definition ignore) ->
  to_lookml env1 self1 bq_client v1_name = to_lookml env2 self2 bq_client v1_name'.
Proof.
  intros Hbase.
  destruct registries_agree as [Hp [Hd [Hs _]]].
  unfold to_lookml. rewrite same_namespace, same_name, Hp.
  destruct (ConfigCollection.get_platform_definitions _ _) as [nd |]; [| reflexivity].
  rewrite Hd.
  destruct (ConfigCollection.get_data_source_definition _ _ _) as [dsd |];
    [| reflexivity].
  rewrite metric_definitions_agree.
  destruct (metric_definitions env2 nd _) as [[| column columns] |];
    try reflexivity.
  simpl.
  destruct (ignore_base_fields nd _) as [ignore |]; [| reflexivity].
  simpl. rewrite Hbase.
  destruct (base_view_block env2 self2 bq_client dsd _) as [[[bvf lk] jbv] |];
    [| reflexivity].
  simpl. rewrite Hs, formats_agree.
  destruct (format_dataset env2 _ _) as [from_sql |]; [| reflexivity].
  simpl. rewrite get_dimensions_agree.
  destruct (get_dimensions env2 self2) as [dimensions |]; [| reflexivity].
  simpl. change (get_dimension_groups self1) with (get_dimension_groups self2).
  destruct (merge_base_fields lk _ dimensions _) as [[ds gs] |]; [| reflexivity].
  simpl. rewrite get_measures_agree.
  destruct (get_measures env2 self2 ds) as [measures |]; [| reflexivity].
  simpl. rewrite _get_sets_agree.
  destruct (_get_sets env2 self2) as [sets |]; [| reflexivity].
  reflexivity.
Qed.


End Agreement.

Lemma same_registry_refl (registry : ConfigCollection.t) :
  same_registry registry registry.
Proof. repeat split. Qed.

(** ** The record of the table view *)







Lemma store_view_field_other (lkml : Value) (key key' : string)
      (fields : list Value) :
  key <> key' ->
  base_view_items (store_view_field lkml key fields) key'
  = base_view_items lkml key'.
Proof.
  intros Hne. unfold store_view_field.
  destruct lkml as [s | l | record]; try reflexivity.
  destruct (dict_find "views" record) as [[s | [| [s | l | view0] views] | d] |] eqn:Hviews;
    try reflexivity.
  destruct (dict_find key view0) as [[s | l | d] |] eqn:Hkey; try reflexivity.
  unfold base_view_items. simpl. unfold getitem.
  rewrite dict_find_set_same, Hviews. simpl. unfold getitem.
  rewrite (dict_find_set_other _ _ Hne). reflexivity.
Qed.








(** ** The date bound of a view without tables *)

(** C3. Without a base table the date bound is introduced with [WHERE], but
    it is put on the column [m.submission_date] whatever the date column of
    the data source is called; only the [date_start] and [date_end]
    placeholders name that column.  On the example, whose data source calls
    its date column [activity_date], the SQL reads
    [WHERE m.submission_date BETWEEN] and not
    [WHERE m.activity_date BETWEEN], while [analysis_basis] and the join of a
    view with tables do use [m.activity_date]. *)
Theorem C3_date_bound_on_submission_date_literal :
  (forall columns data_source_definition from_sql,
      exists before after,
        derived_table_sql columns [] data_source_definition from_sql ""
        = (before
           ++ "WHERE m.submission_date BETWEEN
                SAFE_CAST(
                    {% date_start "
           ++ or_else (DataSourceDefinition.submission_date_column data_source_definition)
                      "submission_date"
           ++ after)%string)
  /\ View.tables ex_view = []
  /\ ConfigCollection.get_data_source_definition ex_configs "ds1" "ns"
     = Some {| DataSourceDefinition.submission_date_column := Some "activity_date";
               DataSourceDefinition.client_id_column := None |}
  /\ exists sql sql_base,
       to_lookml ex_env ex_view tt None = Ok ex_out
       /\ view_field ex_out "derived_table" = Ok (VDict [ ("sql", VStr sql) ])
       /\ contains "WHERE m.submission_date BETWEEN" sql = true
       /\ contains "m.activity_date BETWEEN" sql = false
       /\ contains "m.activity_date AS analysis_basis" sql = true
       /\ view_field ex_out_base "derived_table" = Ok (VDict [ ("sql", VStr sql_base) ])
       /\ contains "base.submission_date = m.activity_date" sql_base = true
       /\ contains "AND m.submission_date BETWEEN" sql_base = true.
Proof.
  split; [| split; [reflexivity | split; [reflexivity |]]].
  - intros columns dsd from_sql. unfold derived_table_sql.
    change (truthy (VStr "")) with false.
    eexists. eexists.
    match goal with
    | |- fstr ?l = _ =>
        change (fstr l) with (fstr (firstn 13 l ++ nth 13 l "" :: skipn 14 l))
    end.
    rewrite fstr_split. cbn [firstn skipn nth].
    rewrite (fstr_cons " m.submission_date BETWEEN
                SAFE_CAST(
                    {% date_start ").
    rewrite (fstr_cons (or_else _ _)).
    reflexivity.
  - eexists. eexists.
    split; [vm_compute; reflexivity |].
    split; [vm_compute; reflexivity |].
    split; [vm_compute; reflexivity |].
    split; [vm_compute; reflexivity |].
    split; [vm_compute; reflexivity |].
    split; [vm_compute; reflexivity |].
    split; vm_compute; reflexivity.
Qed.

(** ** The statements on the example *)

Lemma ex_out_generated :
  to_lookml ex_env ex_view tt None = Ok ex_out /\ ex_out <> VDict [].
Proof.
  split; [vm_compute; reflexivity |].
  intros H. vm_compute in H. discriminate H.
Defined.

Lemma ex_out_base_generated :
  to_lookml ex_env ex_view_base tt None = Ok ex_out_base /\ ex_out_base <> VDict [].
Proof.
  split; [vm_compute; reflexivity |].
  intros H. vm_compute in H. discriminate H.
Defined.

(** The example of the specification. *)
Example spec_example_active_hours :
  exists sql dimension_group,
    to_lookml ex_single_env (MetricDefinitionsView "ns" "metric_definitions_ds1" [])
              tt None
    = Ok (view_record
            "metric_definitions_ds1" sql
            [ VDict [ ("name", VStr "client_id");
                      ("type", VStr "string");
                      ("sql", VStr "SAFE_CAST(${TABLE}.client_id AS STRING)");
                      ("label", VStr "Client ID");
                      ("primary_key", VStr "yes");
                      ("group_label", VStr "Base Fields");
                      ("description", VStr "Unique client identifier") ];
              VDict [ ("name", VStr "active_hours");
                      ("group_label", VStr "Metrics");
                      ("label", VStr "active hours");
                      ("description", VStr "");
                      ("type", VStr "number");
                      ("sql", VStr "${TABLE}.active_hours") ] ]
            [ dimension_group ]
            []
            [ VDict [ ("name", VStr "metrics");
                      ("fields", VList [ VStr "active_hours" ]) ] ]
            (_get_parameters (MetricDefinitionsView "ns" "metric_definitions_ds1" [])))
    /\ subscript dimension_group "name" = Ok (VStr "submission").
Proof.
  eexists. eexists. split; vm_compute; reflexivity.
Qed.

Lemma C1_filter_sites_agree_witness :
  to_lookml ex_env ex_view_base tt None = Ok ex_out_base
  /\ ex_out_base <> VDict []
  /\ exists namespace_definitions (selected : list (string * Metric.t))
            columns base_view_fields rest,
       ConfigCollection.get_platform_definitions ex_configs "ns"
         = Some namespace_definitions
       /\ view_field ex_out_base "derived_table"
          = Ok (VDict [ ("sql", VStr ("
            SELECT
                " ++ String.concat "" columns ++ "
                " ++ String.concat "base." base_view_fields ++ "
                m." ++ rest)%string) ])
       /\ List.length columns = List.length selected
       /\ ignore_base_fields namespace_definitions "ds1"
          = Ok ([ "client_id"; "submission_date"; "submission"; "first_run" ]
                ++ map fst selected).
Proof.
  destruct ex_out_base_generated as [Hout Hne].
  split; [exact Hout |]. split; [exact Hne |].
  destruct (@C1_filter_sites_agree unit ex_env ex_view_base tt None ex_out_base
                                   Hout Hne)
    as [nd [selected [Hnd [_ [[columns [bvf [rest [Hsql [Hcols _]]]]] [_ Hignore]]]]]].
  exists nd, selected, columns, bvf, rest.
  split; [exact Hnd |]. split; [exact Hsql |].
  split; [exact (Forall2_length Hcols) | exact Hignore].
Defined.

(** A metric with a select expression and no data source: no metric of the
    namespace passes the filter, and [to_lookml] raises at the attribute
    [name] of the missing data source. *)
Lemma C2_counterexample_metric_without_data_source :
  ConfigCollection.get_platform_definitions
    (configs ex_undeclared_env) (View.namespace ex_view)
  = Some {| PlatformDefinitions.metrics :=
              {| MetricsSpec.definitions := ex_undeclared_metrics |} |}
  /\ (forall slug metric,
         In (slug, metric) ex_undeclared_metrics ->
         ~ contributes (re_sub_prefix "metric_definitions_" (View.name ex_view)) metric)
  /\ to_lookml ex_undeclared_env ex_view tt None = Raise AttributeError.
Proof.
  split; [reflexivity |]. split; [| vm_compute; reflexivity].
  intros slug metric Hin [_ [[source [Hsource Hname]] _]]. simpl in Hin.
  destruct Hin as [Hin | [Hin | []]]; inversion Hin; subst metric;
    simpl in Hsource; inversion Hsource; subst source;
    vm_compute in Hname; discriminate Hname.
Qed.

Lemma C2_missing_configuration_is_empty_witness :
  (ConfigCollection.get_platform_definitions
     ex_configs (View.namespace (MetricDefinitionsView "other" "metric_definitions_ds1" []))
   = None
   /\ to_lookml ex_env (MetricDefinitionsView "other" "metric_definitions_ds1" []) tt None
      = Ok (VDict []))
  /\ (ConfigCollection.get_data_source_definition ex_configs "ds9" "ns" = None
      /\ to_lookml ex_env (MetricDefinitionsView "ns" "metric_definitions_ds9" []) tt None
         = Ok (VDict []))
  /\ (sources_declared ex_metrics
      /\ (forall slug metric, In (slug, metric) ex_metrics -> ~ contributes "ds0" metric)
      /\ to_lookml ex_env (MetricDefinitionsView "ns" "metric_definitions_ds0" []) tt None
         = Ok (VDict [])).
Proof.
  assert (Hsrc : sources_declared ex_metrics).
  { intros slug metric Hin _. simpl in Hin.
    repeat (destruct Hin as [Hin | Hin];
            [inversion Hin; subst metric; discriminate |]).
    contradiction. }
  assert (Hnone : forall slug metric,
             In (slug, metric) ex_metrics -> ~ contributes "ds0" metric).
  { intros slug metric Hin [_ [[source [Hsource Hname]] _]]. simpl in Hin.
    repeat (destruct Hin as [Hin | Hin];
            [inversion Hin; subst metric; simpl in Hsource; inversion Hsource;
             subst source; discriminate Hname |]).
    exact Hin. }
  split; [| split].
  - split; [reflexivity |].
    apply (@C2_missing_configuration_is_empty unit ex_env
             (MetricDefinitionsView "other" "metric_definitions_ds1" []) tt None).
    left. reflexivity.
  - split; [reflexivity |].
    apply (@C2_missing_configuration_is_empty unit ex_env
             (MetricDefinitionsView "ns" "metric_definitions_ds9" []) tt None).
    right. left. reflexivity.
  - split; [exact Hsrc |]. split; [exact Hnone |].
    apply (@C2_missing_configuration_is_empty unit ex_env
             (MetricDefinitionsView "ns" "metric_definitions_ds0" []) tt None).
    right. right. eexists. split; [reflexivity | split; [exact Hsrc | exact Hnone]].
Defined.


(** A dimension without label, named like a metric with the statistic
    [sum]: [get_measures] raises. *)
Lemma C5_counterexample_dimension_without_label :
  let dimension := VDict [ ("name", VStr "active_hours") ] in
  exists metric statistics,
    subscript dimension "name" = Ok (VStr "active_hours")
    /\ ConfigCollection.get_metric_definition ex_configs "active_hours" "ns"
       = Some metric
    /\ Metric.statistics metric = Some statistics
    /\ map fst statistics = [ "sum"; "client_count"; "mean" ]
    /\ get_measures ex_env ex_view [dimension] = Raise KeyError.
Proof.
  intros dimension. eexists. eexists.
  split; [reflexivity |]. split; [reflexivity |]. split; [reflexivity |].
  split; reflexivity.
Qed.

Lemma C5_measures_per_statistic_witness :
  let dimension := VDict [ ("name", VStr "active_hours");
                           ("label", VStr "Active Hours") ] in
  let statistics := [ ("sum", VDict []); ("client_count", VDict []);
                      ("mean", VDict []) ] in
  let metric := ex_metric (Some "SUM(active_hours_sum)") "ds1" "scalar"
                          (Some "Active Hours") (Some statistics) in
  subscript dimension "name" = Ok (VStr "active_hours")
  /\ ConfigCollection.get_metric_definition ex_configs "active_hours" "ns" = Some metric
  /\ Metric.statistics metric = Some statistics
  /\ subscript dimension "label" = Ok (VStr "Active Hours")
  /\ exists measures,
       get_measures ex_env ex_view [dimension] = Ok measures
       /\ Forall2 (fun measure slug =>
                     subscript measure "name"
                     = Ok (VStr ("active_hours" ++ "_" ++ slug)%string)
                     /\ subscript measure "type" = Ok (VStr (measure_type slug)))
                  measures ["sum"; "client_count"].
Proof.
  intros dimension statistics metric.
  split; [reflexivity |]. split; [reflexivity |]. split; [reflexivity |].
  split; [reflexivity |].
  destruct (@C5_measures_per_statistic unit ex_env ex_view dimension
              "active_hours" metric statistics eq_refl eq_refl eq_refl
              (or_intror (ex_intro _ (VStr "Active Hours") eq_refl)))
    as [measures [Hm [Hall _]]].
  exists measures. split; [exact Hm | exact Hall].
Defined.

Lemma C6_metrics_set_of_metric_dimensions_witness :
  to_lookml ex_env ex_view tt None = Ok ex_out
  /\ ex_out <> VDict []
  /\ exists metric_dimensions metric_measures,
       view_field ex_out "sets"
       = Ok (VList [ VDict [ ("name", VStr "metrics");
                             ("fields",
                              VList (names_except_client_id metric_dimensions
                                     ++ names_of metric_measures)) ] ])
       /\ view_field ex_out "dimensions" = Ok (VList metric_dimensions)
       /\ view_field ex_out "measures" = Ok (VList metric_measures).
Proof.
  destruct ex_out_generated as [Hout Hne].
  split; [exact Hout |]. split; [exact Hne |].
  destruct (@C6_metrics_set_of_metric_dimensions unit ex_env ex_view tt None ex_out
                                                 Hout Hne)
    as [nd [mdims [mm [_ [_ [_ [Hsets [Hall _]]]]]]]].
  destruct (Hall eq_refl) as [Hd Hm].
  exists mdims, mm. split; [exact Hsets |]. split; [exact Hd | exact Hm].
Defined.

(** With a base table the set leaves out fields of the view: the view has
    the dimension [country] of the base table, the set [metrics] has not.
    And with a metric [uri_count_sum] next to a metric [uri_count] that has
    the statistic [sum], the set lists [uri_count_sum] twice. *)
Lemma C6_counterexample_fields_of_the_set :
  (exists dimensions measures fields,
      to_lookml ex_env ex_view_base tt None = Ok ex_out_base
      /\ view_field ex_out_base "dimensions" = Ok (VList dimensions)
      /\ view_field ex_out_base "measures" = Ok (VList measures)
      /\ view_field ex_out_base "sets"
         = Ok (VList [ VDict [ ("name", VStr "metrics"); ("fields", VList fields) ] ])
      /\ In (VStr "country") (names_except_client_id dimensions)
      /\ ~ In (VStr "country") fields
      /\ fields <> names_except_client_id dimensions ++ names_of measures)
  /\ (exists out,
         to_lookml ex_clash_env ex_view tt None = Ok out
         /\ view_field out "sets"
            = Ok (VList [ VDict [ ("name", VStr "metrics");
                                  ("fields", VList [ VStr "uri_count";
                                                     VStr "uri_count_sum";
                                                     VStr "uri_count_sum" ]) ] ])
         /\ ~ NoDup [ VStr "uri_count"; VStr "uri_count_sum"; VStr "uri_count_sum" ]).
Proof.
  split.
  - eexists. eexists. eexists.
    split; [vm_compute; reflexivity |].
    split; [vm_compute; reflexivity |].
    split; [vm_compute; reflexivity |].
    split; [vm_compute; reflexivity |].
    split; [vm_compute; tauto |].
    split.
    + intros H. vm_compute in H.
      repeat (destruct H as [H | H]; [discriminate H |]). exact H.
    + intros H. apply (f_equal (@List.length Value)) in H.
      vm_compute in H. discriminate H.
  - eexists.
    split; [vm_compute; reflexivity |].
    split; [vm_compute; reflexivity |].
    intros H. inversion H as [| x l Hx Hl]; subst.
    inversion Hl as [| y l' Hy Hl']; subst.
    apply Hy. left. reflexivity.
Qed.

Lemma C7_parameter_and_conditional_witness :
  to_lookml ex_env ex_view tt None = Ok ex_out
  /\ ex_out <> VDict []
  /\ exists parameter, view_field ex_out "parameters" = Ok (VList [parameter])
                       /\ subscript parameter "default_value" = Ok (VStr "day").
Proof.
  destruct ex_out_generated as [Hout Hne].
  split; [exact Hout |]. split; [exact Hne |].
  destruct (C7_parameter_and_conditional ex_env ex_view tt None Hout Hne)
    as [Hparameters _].
  eexists. split; [exact Hparameters | reflexivity].
Defined.




Lemma C10_only_to_lookml_guards_missing_definitions_witness :
  let view := MetricDefinitionsView "other" "metric_definitions_ds1" [] in
  ConfigCollection.get_platform_definitions ex_configs (View.namespace view) = None
  /\ get_dimensions ex_env view = Raise AttributeError
  /\ _get_sets ex_env view = Raise AttributeError
  /\ to_lookml ex_env view tt None = Ok (VDict []).
Proof.
  intros view. split; [reflexivity |].
  exact (C10_only_to_lookml_guards_missing_definitions ex_env view tt None eq_refl).
Defined.

(** * Further properties of the generator *)

Lemma mapM_length (A B : Type) (f : A -> Result B) (l : list A) (r : list B) :
  mapM f l = Ok r -> List.length r = List.length l.
Proof.
  intros H. apply mapM_Forall2 in H.
  induction H; simpl; [reflexivity | rewrite IHForall2; reflexivity].
Qed.

Lemma mapM_Raise (A B : Type) (f : A -> Result B) (l : list A) (x : A) (e : exn) :
  In x l -> f x = Raise e -> exists e', mapM f l = Raise e'.
Proof.
  induction l as [| y rest IH]; intros Hin Hx; [contradiction |].
  simpl. destruct Hin as [Hin | Hin].
  - subst y. rewrite Hx. exists e. reflexivity.
  - destruct (f y) as [b | e0]; [| exists e0; reflexivity].
    destruct (IH Hin Hx) as [e' He']. rewrite He'. exists e'. reflexivity.
Qed.

Lemma filter_mapM_Raise (A B : Type) (f : A -> Result (option B)) (l : list A)
      (x : A) (e : exn) :
  In x l -> f x = Raise e -> exists e', filter_mapM f l = Raise e'.
Proof.
  induction l as [| y rest IH]; intros Hin Hx; [contradiction |].
  simpl. destruct Hin as [Hin | Hin].
  - subst y. rewrite Hx. exists e. reflexivity.
  - destruct (f y) as [b | e0]; [| exists e0; reflexivity].
    destruct (IH Hin Hx) as [e' He']. rewrite He'. exists e'. reflexivity.
Qed.

Lemma flat_mapM_app_bind (A B : Type) (f : A -> Result (list B)) (l1 l2 : list A) :
  flat_mapM f (l1 ++ l2)
  = (r1 <- flat_mapM f l1 ;; r2 <- flat_mapM f l2 ;; Ok (r1 ++ r2)).
Proof.
  induction l1 as [| x rest IH]; simpl.
  - destruct (flat_mapM f l2); reflexivity.
  - destruct (f x) as [ys |]; [| reflexivity]. simpl. rewrite IH.
    destruct (flat_mapM f rest) as [r1 |]; [| reflexivity]. simpl.
    destruct (flat_mapM f l2) as [r2 |]; [| reflexivity]. simpl.
    rewrite app_assoc. reflexivity.
Qed.

Lemma view_field_dimension_groups (name sql : string)
      (dimensions dimension_groups measures sets parameters : list Value) :
  view_field (view_record name sql dimensions dimension_groups measures sets parameters)
             "dimension_groups"
  = Ok (VList dimension_groups).
Proof. reflexivity. Qed.

Section Further.

Variable BqClient : Type.
Variable env : Env BqClient.

(** ** When the empty record is returned, and what a view record holds *)

(** X1. [to_lookml] returns the empty record only for missing
    configuration: no platform definitions, no definition of the data
    source, or no contributing metric. *)
Theorem to_lookml_empty_only_when_unconfigured (self : View.t)
        (bq_client : BqClient) (v1_name : option string) :
  to_lookml env self bq_client v1_name = Ok (VDict []) ->
  let data_source_name := re_sub_prefix "metric_definitions_" (View.name self) in
  ConfigCollection.get_platform_definitions (configs env) (View.namespace self) = None
  \/ ConfigCollection.get_data_source_definition (configs env) data_source_name
                                                 (View.namespace self) = None
  \/ (exists namespace_definitions,
        ConfigCollection.get_platform_definitions (configs env) (View.namespace self)
          = Some namespace_definitions
        /\ forall slug metric,
             In (slug, metric)
                (MetricsSpec.definitions (PlatformDefinitions.metrics namespace_definitions)) ->
             ~ contributes data_source_name metric).
Proof.
  intros H dsn. unfold to_lookml in H. fold dsn in H.
  destruct (ConfigCollection.get_platform_definitions _ _) as [nd |] eqn:Hnd;
    [| left; reflexivity].
  destruct (ConfigCollection.get_data_source_definition _ _ _) as [dsd |] eqn:Hdsd;
    [| right; left; reflexivity].
  right. right. exists nd. split; [reflexivity |].
  bind_inv H as columns Hcols.
  destruct columns as [| column columns].
  - intros slug metric Hin Hc.
    destruct (metric_definitions_Ok _ _ _ Hcols) as [_ Hmap].
    apply mapM_length in Hmap. simpl in Hmap.
    assert (Hsel : In (slug, metric)
                      (selected_metrics
                         dsn (MetricsSpec.definitions (PlatformDefinitions.metrics nd))))
      by (apply selected_metrics_spec; split; assumption).
    destruct (selected_metrics _ _); [exact Hsel | discriminate Hmap].
  - bind_inv H as ignore Hignore.
    bind_inv H as base Hbase. destruct base as [[bvf lk] jbv].
    bind_inv H as from_sql Hfmt. bind_inv H as dims Hdims.
    bind_inv H as merged Hmerge. destruct merged as [ds gs].
    bind_inv H as measures Hmeas. bind_inv H as sets Hsets.
    discriminate H.
Qed.

(** X2. A record other than the empty one holds exactly one view, called
    like the view object; its dimensions start with [client_id] followed by
    at least one metric dimension, its dimension groups start with
    [submission], and it has the one set [metrics]. *)
Theorem to_lookml_view_record_shape (self : View.t) (bq_client : BqClient)
        (v1_name : option string) (out : Value) :
  to_lookml env self bq_client v1_name = Ok out ->
  out <> VDict [] ->
  exists sql client_id metric_dimension dimensions submission dimension_groups
         measures fields,
    out = view_record (View.name self) sql
                      (client_id :: metric_dimension :: dimensions)
                      (submission :: dimension_groups)
                      measures
                      [ VDict [ ("name", VStr "metrics"); ("fields", VList fields) ] ]
                      (_get_parameters self)
    /\ subscript client_id "name" = Ok (VStr "client_id")
    /\ subscript metric_dimension "group_label" = Ok (VStr "Metrics")
    /\ subscript submission "name" = Ok (VStr "submission").
Proof.
  intros H Hne.
  destruct (to_lookml_generated _ _ _ _ H Hne)
    as [nd dsd columns ignore bvf lk jbv from_sql mdims dims groups measures sets
        dsn Hnd Hdsd Hcols Hcne Hignore Hbase Hfmt Hdims Hmerge Hmeas Hsets].
  destruct (_get_sets_fields _ self Hsets) as [md [mm [_ [_ Hfields]]]].
  destruct (merge_base_fields_app _ _ _ _ Hmerge) as [ds [gs [Hds Hgs]]].
  destruct (metric_definitions_Ok _ _ _ Hcols) as [Hsrc Hmap].
  rewrite (get_dimensions_declared _ self Hnd Hsrc) in Hdims. fold dsn in Hdims.
  apply mapM_length in Hmap. fold dsn in Hmap.
  destruct (selected_metrics dsn _) as [| [slug metric] selected];
    [destruct columns; [contradiction | discriminate Hmap] |].
  inversion Hdims as [Hmd]. clear Hdims. simpl in Hds. rewrite <- Hmd in Hds.
  simpl in Hds. subst dims groups sets.
  do 8 eexists. split; [reflexivity |]. repeat split; reflexivity.
Qed.

(** ** Rendering the select expressions *)

(** X3. With the namespace and the data source defined, [to_lookml] raises
    when the select expression of a contributing metric cannot be rendered:
    no view is generated without it. *)
Theorem to_lookml_raises_on_render_failure (self : View.t) (bq_client : BqClient)
        (v1_name : option string)
        (namespace_definitions : PlatformDefinitions.t)
        (data_source_definition : DataSourceDefinition.t)
        (slug : string) (metric : Metric.t) (e : string) (error : exn) :
  let data_source_name := re_sub_prefix "metric_definitions_" (View.name self) in
  ConfigCollection.get_platform_definitions (configs env) (View.namespace self)
    = Some namespace_definitions ->
  ConfigCollection.get_data_source_definition (configs env) data_source_name
                                              (View.namespace self)
    = Some data_source_definition ->
  In (slug, metric)
     (MetricsSpec.definitions (PlatformDefinitions.metrics namespace_definitions)) ->
  contributes data_source_name metric ->
  Metric.select_expression metric = Some e ->
  ConfigCollection.render (configs env) e = Raise error ->
  exists error', to_lookml env self bq_client v1_name = Raise error'.
Proof.
  intros dsn Hnd Hdsd Hin Hc He Hr.
  unfold to_lookml. fold dsn. rewrite Hnd, Hdsd.
  destruct (@filter_mapM_Raise
              _ _
              (fun '(metric_slug, metric) =>
                 keep <- (if truthy_str (Metric.select_expression metric)
                          then (source <- data_source_name_of metric ;;
                                Ok (String.eqb source dsn
                                    && negb (String.eqb (Metric.type metric)
                                                        "histogram")))
                          else Ok false) ;;
                 if keep
                 then (rendered <- match Metric.select_expression metric with
                                   | Some e => ConfigCollection.render (configs env) e
                                   | None => Raise TypeError
                                   end ;;
                       Ok (Some (fstr [rendered; " AS "; metric_slug; ",
"])))
                 else Ok None)
              (MetricsSpec.definitions
                 (PlatformDefinitions.metrics namespace_definitions))
              (slug, metric) error Hin) as [error' Herr].
  - change (if truthy_str (Metric.select_expression metric)
            then (source <- data_source_name_of metric ;;
                  Ok (String.eqb source dsn
                      && negb (String.eqb (Metric.type metric) "histogram")))
            else Ok false)
      with (metric_filter dsn metric).
    pose proof Hc as [_ [[source [Hsource _]] _]].
    apply contributesb_iff in Hc.
    rewrite metric_filter_declared, Hc
      by (intros _; rewrite Hsource; discriminate).
    cbn [bind]. rewrite He, Hr. reflexivity.
  - unfold metric_definitions. fold dsn. rewrite Herr.
    exists error'. reflexivity.
Qed.

(** X4. Only the select expressions of contributing metrics are rendered:
    the result is the same with any renderer that agrees on them. *)
Theorem to_lookml_renders_contributing_only (self : View.t) (bq_client : BqClient)
        (v1_name : option string) (render : string -> Result string) :
  (forall namespace_definitions slug metric e,
      ConfigCollection.get_platform_definitions (configs env) (View.namespace self)
        = Some namespace_definitions ->
      In (slug, metric)
         (MetricsSpec.definitions (PlatformDefinitions.metrics namespace_definitions)) ->
      contributes (re_sub_prefix "metric_definitions_" (View.name self)) metric ->
      Metric.select_expression metric = Some e ->
      render e = ConfigCollection.render (configs env) e) ->
  to_lookml (with_configs env (with_render (configs env) render)) self bq_client v1_name
  = to_lookml env self bq_client v1_name.
Proof.
  intros Hr. unfold to_lookml.
  change (ConfigCollection.get_platform_definitions
            (configs (with_configs env (with_render (configs env) render))))
    with (ConfigCollection.get_platform_definitions (configs env)).
  destruct (ConfigCollection.get_platform_definitions _ _) as [nd |] eqn:Hnd;
    [| reflexivity].
  change (ConfigCollection.get_data_source_definition
            (configs (with_configs env (with_render (configs env) render))))
    with (ConfigCollection.get_data_source_definition (configs env)).
  destruct (ConfigCollection.get_data_source_definition _ _ _) as [dsd |];
    [| reflexivity].
  assert (Hcols : metric_definitions
                    (with_configs env (with_render (configs env) render)) nd
                    (re_sub_prefix "metric_definitions_" (View.name self))
                  = metric_definitions env nd
                      (re_sub_prefix "metric_definitions_" (View.name self))).
  { rewrite !metric_definitions_site. apply filter_mapM_ext.
    intros [slug metric] Hin. cbn [snd].
    destruct (metric_filter _ metric) as [[|] |] eqn:Hkeep; try reflexivity.
    cbn [bind]. unfold column_of_metric. cbn [snd fst].
    destruct (metric_filter_Ok _ _ Hkeep) as [Hc _]. symmetry in Hc.
    apply contributesb_iff in Hc.
    destruct (Metric.select_expression metric) as [e |] eqn:He; [| reflexivity].
    change (ConfigCollection.render
              (configs (with_configs env (with_render (configs env) render))) e)
      with (render e).
    rewrite (Hr nd slug metric e eq_refl Hin Hc He). reflexivity. }
  rewrite Hcols. reflexivity.
Qed.

(** ** The base table *)

(** The run of [to_lookml] once the columns are there. *)
Lemma to_lookml_with_columns (self : View.t) (bq_client : BqClient)
      (v1_name : option string)
      (namespace_definitions : PlatformDefinitions.t)
      (data_source_definition : DataSourceDefinition.t)
      (column : string) (columns : list string) :
  let data_source_name := re_sub_prefix "metric_definitions_" (View.name self) in
  ConfigCollection.get_platform_definitions (configs env) (View.namespace self)
    = Some namespace_definitions ->
  ConfigCollection.get_data_source_definition (configs env) data_source_name
                                              (View.namespace self)
    = Some data_source_definition ->
  metric_definitions env namespace_definitions data_source_name
    = Ok (column :: columns) ->
  forall error,
    (forall ignore,
        base_view_block env self bq_client data_source_definition ignore
        = Raise error) ->
    to_lookml env self bq_client v1_name = Raise error.
Proof.
  intros dsn Hnd Hdsd Hcols error Hbase.
  unfold to_lookml. fold dsn. rewrite Hnd, Hdsd, Hcols. cbn [bind].
  destruct (metric_definitions_Ok _ _ _ Hcols) as [Hsrc _].
  rewrite (ignore_base_fields_declared _ dsn Hsrc). cbn [bind].
  rewrite Hbase. reflexivity.
Qed.

(** X5. A view without tables never consults the table view: any two table
    views give the same result. *)
Theorem to_lookml_without_tables_ignores_table_view
        (table_view1 table_view2 : View.t -> BqClient -> option string -> Result Value)
        (namespace name : string) (bq_client : BqClient)
        (v1_name v1_name' : option string) :
  to_lookml (with_table_view env table_view1)
            (MetricDefinitionsView namespace name []) bq_client v1_name
  = to_lookml (with_table_view env table_view2)
              (MetricDefinitionsView namespace name []) bq_client v1_name'.
Proof.
  apply to_lookml_agree; try reflexivity. apply same_registry_refl.
Qed.

(** X6. When a view is to be generated (the configuration is there and the
    columns are rendered) and the first table reference has no key [table],
    [to_lookml] raises [KeyError]. *)
Theorem to_lookml_raises_without_table_key (self : View.t) (bq_client : BqClient)
        (v1_name : option string)
        (namespace_definitions : PlatformDefinitions.t)
        (data_source_definition : DataSourceDefinition.t)
        (column : string) (columns : list string)
        (table0 : list (string * string)) (rest : list (list (string * string))) :
  let data_source_name := re_sub_prefix "metric_definitions_" (View.name self) in
  ConfigCollection.get_platform_definitions (configs env) (View.namespace self)
    = Some namespace_definitions ->
  ConfigCollection.get_data_source_definition (configs env) data_source_name
                                              (View.namespace self)
    = Some data_source_definition ->
  metric_definitions env namespace_definitions data_source_name
    = Ok (column :: columns) ->
  View.tables self = table0 :: rest ->
  dict_find "table" table0 = None ->
  to_lookml env self bq_client v1_name = Raise KeyError.
Proof.
  intros dsn Hnd Hdsd Hcols Ht Hkey.
  apply (to_lookml_with_columns self bq_client v1_name Hnd Hdsd Hcols).
  intros ignore. unfold base_view_block, getitem. rewrite Ht, Hkey. reflexivity.
Qed.

(** X7. When a view is to be generated with a base table, an error of the
    table view is raised by [to_lookml], and so is the error of looking up
    [views[0].dimensions] in the record the table view returns. *)
Theorem to_lookml_raises_table_view_errors (self : View.t) (bq_client : BqClient)
        (v1_name : option string)
        (namespace_definitions : PlatformDefinitions.t)
        (data_source_definition : DataSourceDefinition.t)
        (column : string) (columns : list string)
        (table0 : list (string * string)) (rest : list (list (string * string)))
        (base_table : string) (error : exn) :
  let data_source_name := re_sub_prefix "metric_definitions_" (View.name self) in
  let base_view :=
    TableView (View.namespace self) "base_view"
              [ [("table", base_table); ("channel", "release")] ] in
  ConfigCollection.get_platform_definitions (configs env) (View.namespace self)
    = Some namespace_definitions ->
  ConfigCollection.get_data_source_definition (configs env) data_source_name
                                              (View.namespace self)
    = Some data_source_definition ->
  metric_definitions env namespace_definitions data_source_name
    = Ok (column :: columns) ->
  View.tables self = table0 :: rest ->
  getitem table0 "table" = Ok base_table ->
  (TableView_to_lookml env base_view bq_client None = Raise error
   \/ exists lkml, TableView_to_lookml env base_view bq_client None = Ok lkml
                   /\ base_view_items lkml "dimensions" = Raise error) ->
  to_lookml env self bq_client v1_name = Raise error.
Proof.
  intros dsn base_view Hnd Hdsd Hcols Ht Htable Herr.
  apply (to_lookml_with_columns self bq_client v1_name Hnd Hdsd Hcols).
  intros ignore. unfold base_view_block. rewrite Ht, Htable. simpl. fold base_view.
  destruct Herr as [Herr | [lkml [Hlk Herr]]].
  - rewrite Herr. reflexivity.
  - rewrite Hlk. simpl. rewrite Herr. reflexivity.
Qed.

(** X8. Without tables the dimension groups of a generated view are the
    group [submission] of [get_dimension_groups] alone.  With a base table
    whose table view returns a record with the dimension groups
    [base_groups] in its first view, they are that group followed by groups
    of the base table with their group label set to "Base Fields": every
    group of [base_groups] whose name is not excluded is among them, and
    none with an excluded name, so that the base table adds no second
    [submission]. *)
Theorem to_lookml_dimension_groups (self : View.t) (bq_client : BqClient)
        (v1_name : option string) (out : Value) :
  to_lookml env self bq_client v1_name = Ok out ->
  out <> VDict [] ->
  let data_source_name := re_sub_prefix "metric_definitions_" (View.name self) in
  (exists submission,
      get_dimension_groups self = [submission]
      /\ subscript submission "name" = Ok (VStr "submission"))
  /\ (View.tables self = [] ->
      view_field out "dimension_groups" = Ok (VList (get_dimension_groups self)))
  /\ (forall table0 rest base_table record view0 views base_groups,
         View.tables self = table0 :: rest ->
         dict_find "table" table0 = Some base_table ->
         TableView_to_lookml env
           (TableView (View.namespace self) "base_view"
                      [ [("table", base_table); ("channel", "release")] ])
           bq_client None = Ok (VDict record) ->
         dict_find "views" record = Some (VList (VDict view0 :: views)) ->
         dict_find "dimension_groups" view0 = Some (VList base_groups) ->
         exists namespace_definitions appended,
           ConfigCollection.get_platform_definitions (configs env) (View.namespace self)
             = Some namespace_definitions
           /\ view_field out "dimension_groups"
              = Ok (VList (get_dimension_groups self ++ appended))
           /\ (forall fields n,
                  In (VDict fields) base_groups ->
                  dict_find "name" fields = Some (VStr n) ->
                  ~ excluded_base_field namespace_definitions data_source_name n ->
                  In (VDict (dict_set "group_label" (VStr "Base Fields") fields))
                     appended)
           /\ (forall d',
                  In d' appended ->
                  exists fields,
                    In (VDict fields) base_groups
                    /\ d' = VDict (dict_set "group_label" (VStr "Base Fields") fields)
                    /\ subscript d' "group_label" = Ok (VStr "Base Fields")
                    /\ forall n,
                         dict_find "name" fields = Some (VStr n) ->
                         ~ excluded_base_field namespace_definitions
                                               data_source_name n)).
Proof.
  intros H Hne dsn.
  pose proof (to_lookml_generated _ _ _ _ H Hne) as Hgen.
  split; [eexists; split; reflexivity |]. split.
  - intros Ht.
    destruct Hgen
      as [nd dsd columns ignore bvf lk jbv from_sql mdims dims groups measures sets
          dsn' Hnd Hdsd Hcols Hcne Hignore Hbase Hfmt Hdims Hmerge Hmeas Hsets].
    unfold base_view_block in Hbase. rewrite Ht in Hbase.
    inversion Hbase; subst bvf lk jbv. simpl in Hmerge.
    inversion Hmerge; subst dims groups.
    rewrite view_field_dimension_groups. reflexivity.
  - intros table0 rest base_table record view0 views base_groups
           Ht Htable Hlkml Hviews Hgroups.
    destruct (appended_base_fields Hgen Ht Htable Hlkml Hviews)
      as [nd [ignore [mdims [appended [gs [measures
          [Hnd [Hignore [_ [_ [Hgs [_ [_ Hout]]]]]]]]]]]]].
    pose proof (@base_view_items_of_record _ _ _ _ _ Hviews Hgroups) as Hitems.
    destruct (base_fields_to_append_spec _ _ _ Hitems Hgs) as [Hall Honly].
    exists nd, gs. split; [exact Hnd |]. split; [exact Hout |]. split.
    + intros fields n Hd Hn Hex.
      assert (Hv : value_in (VStr n) ignore = false).
      { destruct (value_in (VStr n) ignore) eqn:Hv; [| reflexivity].
        exfalso. apply Hex. apply (@ignore_base_fields_spec _ _ n _ Hignore).
        apply value_in_VStr. exact Hv. }
      assert (Hsub : subscript (VDict fields) "name" = Ok (VStr n)).
      { simpl. unfold getitem. rewrite Hn. reflexivity. }
      destruct (Hall (VDict fields) (VStr n) Hd Hsub Hv) as [d' [Hin Hset]].
      simpl in Hset. inversion Hset; subst d'. exact Hin.
    + intros d' Hd'.
      destruct (Honly d' Hd') as [d [n [Hd [Hn [Hv Hset]]]]].
      destruct (setitem_group_label _ _ Hset) as [Hg Hname].
      destruct d as [x | l | fields]; simpl in Hset; try discriminate Hset.
      inversion Hset; subst d'. clear Hset.
      exists fields. split; [exact Hd |]. split; [reflexivity |].
      split; [exact Hg |].
      intros s Hs Hex. simpl in Hn. unfold getitem in Hn. rewrite Hs in Hn.
      inversion Hn; subst n.
      apply (@ignore_base_fields_spec _ _ s _ Hignore) in Hex.
      apply value_in_VStr in Hex. rewrite Hex in Hv. discriminate Hv.
Qed.

(** ** Measures *)

Lemma flat_mapM_In (A B : Type) (f : A -> Result (list B)) (l : list A)
      (r : list B) (y : B) :
  flat_mapM f l = Ok r -> In y r ->
  exists x ys, In x l /\ f x = Ok ys /\ In y ys.
Proof.
  revert r. induction l as [| x rest IH]; intros r H Hy; simpl in H.
  - inversion H; subst r. contradiction.
  - bind_inv H as ys Hys. bind_inv H as zs Hzs. inversion H; subst r.
    apply in_app_or in Hy. destruct Hy as [Hy | Hy].
    + exists x, ys. split; [left; reflexivity | split; assumption].
    + destruct (IH zs Hzs Hy) as [x' [ys' [Hin Hrest]]].
      exists x', ys'. split; [right; exact Hin | exact Hrest].
Qed.

(** X9. [get_measures] of two lists of dimensions, one after the other, is
    [get_measures] of the first followed by [get_measures] of the second; it
    raises what the first of them raises. *)
Theorem get_measures_app (self : View.t) (dimensions1 dimensions2 : list Value) :
  get_measures env self (dimensions1 ++ dimensions2)
  = (measures1 <- get_measures env self dimensions1 ;;
     measures2 <- get_measures env self dimensions2 ;;
     Ok (measures1 ++ measures2)).
Proof. unfold get_measures. apply flat_mapM_app_bind. Qed.

(** X10. Every measure [get_measures] returns is the sum or the client
    count of one of the given dimensions, whose metric declares that
    statistic: it is named after the dimension, has the matching type and
    the group label "Statistics". *)
Theorem get_measures_sound (self : View.t) (dimensions measures : list Value)
        (measure : Value) :
  get_measures env self dimensions = Ok measures ->
  In measure measures ->
  exists dimension name metric statistics,
    In dimension dimensions
    /\ subscript dimension "name" = Ok (VStr name)
    /\ ConfigCollection.get_metric_definition (configs env) name (View.namespace self)
       = Some metric
    /\ Metric.statistics metric = Some statistics
    /\ subscript measure "group_label" = Ok (VStr "Statistics")
    /\ ((In "sum" (map fst statistics)
         /\ subscript measure "name" = Ok (VStr (name ++ "_sum")%string)
         /\ subscript measure "type" = Ok (VStr "sum"))
        \/ (In "client_count" (map fst statistics)
            /\ subscript measure "name" = Ok (VStr (name ++ "_client_count")%string)
            /\ subscript measure "type" = Ok (VStr "count_distinct"))).
Proof.
  intros H Hm. unfold get_measures in H.
  destruct (flat_mapM_In _ _ _ H Hm) as [dimension [ms [Hd [Hms Hin]]]].
  unfold measures_of_dimension in Hms.
  bind_inv Hms as name_v Hname_v. bind_inv Hms as name Hname.
  destruct name_v as [n | |]; simpl in Hname; try discriminate Hname.
  inversion Hname; subst n. clear Hname.
  destruct (ConfigCollection.get_metric_definition _ _ _) as [metric |] eqn:Hmetric;
    [| inversion Hms; subst ms; contradiction].
  destruct (Metric.statistics metric) as [[| entry rest] |] eqn:Hstats;
    try (inversion Hms; subst ms; contradiction).
  destruct (flat_mapM_In _ _ _ Hms Hin) as [[slug v] [zs [Hslug [Hzs Hz]]]].
  exists dimension, name, metric, (entry :: rest).
  split; [exact Hd |]. split; [exact Hname_v |]. split; [exact Hmetric |].
  split; [exact Hstats |].
  assert (Hkey : In slug (map fst (entry :: rest)))
    by (apply in_map_iff; exists (slug, v); split; [reflexivity | exact Hslug]).
  unfold measures_of_statistic in Hzs. rewrite Hname_v in Hzs. simpl in Hzs.
  destruct (String.eqb slug "sum") eqn:Hsum.
  - apply String.eqb_eq in Hsum. subst slug.
    bind_inv Hzs as label_v Hlabel_v.
    inversion Hzs; subst zs. destruct Hz as [Hz | []]. subst measure.
    split; [reflexivity |]. left. split; [exact Hkey |]. split; reflexivity.
  - destruct (String.eqb slug "client_count") eqn:Hcc.
    + apply String.eqb_eq in Hcc. subst slug.
      bind_inv Hzs as label_v Hlabel_v.
      inversion Hzs; subst zs. destruct Hz as [Hz | []]. subst measure.
      split; [reflexivity |]. right. split; [exact Hkey |]. split; reflexivity.
    + inversion Hzs; subst zs. contradiction.
Qed.

(** X11. Dimensions whose names have no recognised statistic in the
    registry (no metric of that name, no statistics, or only other kinds)
    give no measure and no error, whether or not they have a label. *)
Theorem get_measures_without_statistics (self : View.t) (dimensions : list Value) :
  Forall (fun dimension =>
            exists name,
              subscript dimension "name" = Ok (VStr name)
              /\ recognised_statistics_of (configs env) (View.namespace self) name = [])
         dimensions ->
  get_measures env self dimensions = Ok [].
Proof.
  unfold get_measures. induction 1 as [| d ds [name [Hname Hnone]] Hds IH];
    [reflexivity |].
  simpl. rewrite IH.
  assert (Hd : measures_of_dimension env self d = Ok []).
  { unfold measures_of_dimension. rewrite Hname. simpl.
    unfold recognised_statistics_of in Hnone.
    destruct (ConfigCollection.get_metric_definition _ _ _) as [metric |];
      [| reflexivity].
    destruct (Metric.statistics metric) as [[| entry rest] |]; try reflexivity.
    apply measures_of_statistics_unrecognised. exact Hnone. }
  rewrite Hd. reflexivity.
Qed.

(** The loop over the statistics stops at the first recognised one when the
    dimension has no label. *)
Lemma measures_of_statistics_without_label (fields : Dict) (name : string)
      (statistics : Dict) :
  dict_find "name" fields = Some (VStr name) ->
  dict_find "label" fields = None ->
  recognised_statistics statistics <> [] ->
  flat_mapM (fun '(statistic_slug, _) =>
               measures_of_statistic env (VDict fields) statistic_slug)
            statistics = Raise KeyError.
Proof.
  intros Hname Hlabel. unfold recognised_statistics.
  induction statistics as [| [slug v] rest IH]; simpl; intros H;
    [contradiction |].
  unfold measures_of_statistic at 1. simpl. unfold getitem.
  rewrite Hname, Hlabel.
  destruct (String.eqb slug "sum"); [reflexivity |].
  destruct (String.eqb slug "client_count"); [reflexivity |].
  simpl in H |- *. rewrite (IH H). reflexivity.
Qed.

(** X12. A dimension without the key [label] whose metric declares a
    recognised statistic makes [get_measures] raise [KeyError], once the
    dimensions before it are done. *)
Theorem get_measures_raises_without_label (self : View.t)
        (before after measures_before : list Value) (fields : Dict)
        (name : string) (metric : Metric.t) (statistics : Dict) :
  get_measures env self before = Ok measures_before ->
  dict_find "name" fields = Some (VStr name) ->
  dict_find "label" fields = None ->
  ConfigCollection.get_metric_definition (configs env) name (View.namespace self)
    = Some metric ->
  Metric.statistics metric = Some statistics ->
  recognised_statistics statistics <> [] ->
  get_measures env self (before ++ VDict fields :: after) = Raise KeyError.
Proof.
  intros Hbefore Hname Hlabel Hmetric Hstats Hrec.
  unfold get_measures in *. rewrite flat_mapM_app_bind, Hbefore. simpl.
  assert (Hd : measures_of_dimension env self (VDict fields) = Raise KeyError).
  { unfold measures_of_dimension. simpl. unfold getitem. rewrite Hname. simpl.
    rewrite Hmetric, Hstats.
    destruct statistics as [| entry rest]; [contradiction |].
    apply (measures_of_statistics_without_label _ (entry :: rest) Hname Hlabel Hrec). }
  rewrite Hd. reflexivity.
Qed.

(** X13. The measures of a generated view are the measures of the metric
    dimensions, whose names the set [metrics] lists, followed by the measures
    of the base fields appended to the dimensions. *)
Theorem to_lookml_measures (self : View.t) (bq_client : BqClient)
        (v1_name : option string) (out : Value) :
  to_lookml env self bq_client v1_name = Ok out ->
  out <> VDict [] ->
  exists metric_dimensions appended metric_measures base_measures,
    get_dimensions env self = Ok metric_dimensions
    /\ view_field out "dimensions" = Ok (VList (metric_dimensions ++ appended))
    /\ get_measures env self metric_dimensions = Ok metric_measures
    /\ get_measures env self appended = Ok base_measures
    /\ view_field out "measures" = Ok (VList (metric_measures ++ base_measures))
    /\ view_field out "sets"
       = Ok (VList [ VDict [ ("name", VStr "metrics");
                             ("fields",
                              VList (names_except_client_id metric_dimensions
                                     ++ names_of metric_measures)) ] ]).
Proof.
  intros H Hne.
  destruct (to_lookml_generated _ _ _ _ H Hne)
    as [nd dsd columns ignore bvf lk jbv from_sql mdims dims groups measures sets
        dsn Hnd Hdsd Hcols Hcne Hignore Hbase Hfmt Hdims Hmerge Hmeas Hsets].
  destruct (_get_sets_fields _ self Hsets) as [md [mm [Hmd [Hmm Hfields]]]].
  rewrite Hdims in Hmd. inversion Hmd; subst md. clear Hmd.
  destruct (merge_base_fields_app _ _ _ _ Hmerge) as [ds [gs [Hds Hgs]]].
  subst dims. unfold get_measures in Hmeas, Hmm.
  rewrite flat_mapM_app_bind, Hmm in Hmeas. simpl in Hmeas.
  bind_inv Hmeas as bm Hbm. inversion Hmeas; subst measures.
  exists mdims, ds, mm, bm.
  rewrite view_field_dimensions, view_field_measures, view_field_sets, Hfields.
  repeat split; try assumption; reflexivity.
Qed.

(** ** The name of the data source *)

Lemma string_length_app (a b : string) :
  String.length (a ++ b) = String.length a + String.length b.
Proof.
  induction a as [| ch a IH]; simpl; [reflexivity | rewrite IH; reflexivity].
Qed.

Lemma prefix_app (a b : string) : String.prefix a (a ++ b) = true.
Proof.
  induction a as [| ch a IH]; simpl; [destruct b; reflexivity |].
  destruct (ascii_dec ch ch) as [_ | Hne]; [exact IH | contradiction].
Qed.

Lemma substring_after (a b : string) (m : nat) :
  String.substring (String.length a) m (a ++ b) = String.substring 0 m b.
Proof.
  induction a as [| ch a IH]; simpl; [reflexivity | exact IH].
Qed.

Lemma substring_whole (a : string) : String.substring 0 (String.length a) a = a.
Proof.
  induction a as [| ch a IH]; simpl; [reflexivity | rewrite IH; reflexivity].
Qed.

(** X14. The data source of a view is its name without the prefix: the
    prefix is removed from the front once, a second occurrence stays, and a
    name that does not start with it is taken as it is. *)
Theorem re_sub_prefix_removes_one_prefix (prefix rest name : string) :
  re_sub_prefix prefix (prefix ++ rest) = rest
  /\ re_sub_prefix prefix (prefix ++ prefix ++ rest) = (prefix ++ rest)%string
  /\ (String.prefix prefix name = false -> re_sub_prefix prefix name = name).
Proof.
  assert (H : forall r, re_sub_prefix prefix (prefix ++ r) = r).
  { intros r. unfold re_sub_prefix.
    rewrite prefix_app, string_length_app, substring_after.
    replace (String.length prefix + String.length r - String.length prefix)
      with (String.length r) by lia.
    apply substring_whole. }
  split; [apply H |]. split; [apply H |].
  intros Hp. unfold re_sub_prefix. rewrite Hp. reflexivity.
Qed.

(** ** The set of metrics and [client_id] *)

(** X15. Whatever the metrics are called, the set [metrics] that
    [_get_sets] returns never lists a field called [client_id]. *)
Theorem _get_sets_without_client_id (self : View.t) (sets : list Value) :
  _get_sets env self = Ok sets ->
  exists fields,
    sets = [ VDict [ ("name", VStr "metrics"); ("fields", VList fields) ] ]
    /\ ~ In (VStr "client_id") fields.
Proof.
  intros H.
  destruct (_get_sets_fields _ self H) as [md [mm [Hmd [Hmm Hfields]]]].
  eexists. split; [exact Hfields |].
  assert (Hnd : exists nd,
             ConfigCollection.get_platform_definitions (configs env)
                                                       (View.namespace self) = Some nd).
  { unfold get_dimensions in Hmd.
    destruct (ConfigCollection.get_platform_definitions _ _) as [nd |];
      [exists nd; reflexivity | discriminate Hmd]. }
  destruct Hnd as [nd Hnd].
  pose proof (@get_dimensions_Ok _ env self nd _ Hnd Hmd) as Hsrc.
  destruct (get_dimensions_names _ self Hnd Hsrc) as [cid [mds [Hgd [Hcid Hnames]]]].
  rewrite Hgd in Hmd. inversion Hmd; subst md. clear Hmd.
  assert (Hall : Forall2 (fun d n => subscript d "name" = Ok (VStr n))
                         (cid :: mds) ("client_id" :: _))
    by (constructor; [exact Hcid | exact Hnames]).
  rewrite (get_measures_names _ self Hall Hmm).
  intros Hin. apply in_app_or in Hin. destruct Hin as [Hin | Hin].
  - unfold names_except_client_id in Hin. apply filter_In in Hin.
    destruct Hin as [_ Hin]. discriminate Hin.
  - apply in_flat_map in Hin. destruct Hin as [n [_ Hin]].
    apply measure_names_In in Hin.
    destruct (client_id_is_no_measure_name n) as [H1 H2].
    destruct Hin as [Hin | Hin]; inversion Hin; contradiction.
Qed.

(** ** The base fields in the SQL *)

(** The comprehension that selects the base fields for the SQL and the
    loop that appends them to the dimensions keep the same fields. *)
Lemma base_fields_selected_and_appended (ignore : list string)
      (dimensions : list Value) (base_view_fields : list string)
      (appended : list Value) :
  filter_mapM (fun d =>
                 n <- subscript d "name" ;;
                 if negb (value_in n ignore)
                 then (n' <- subscript d "name" ;;
                       Ok (Some (fstr [format_value env n'; ",
"])))
                 else Ok None)
              dimensions = Ok base_view_fields ->
  filter_mapM (fun dimension =>
                 n <- subscript dimension "name" ;;
                 if negb (value_in n ignore)
                 then (dimension' <- setitem dimension "group_label" (VStr "Base Fields") ;;
                       Ok (Some dimension'))
                 else Ok None)
              dimensions = Ok appended ->
  (forall d, In d appended -> exists s, subscript d "name" = Ok (VStr s)) ->
  exists names,
    base_view_fields = map (fun n => (n ++ ",
")%string) names
    /\ names_of appended = map VStr names.
Proof.
  revert base_view_fields appended.
  induction dimensions as [| x rest IH]; intros bvf appended H1 H2 Hstr;
    simpl in H1, H2.
  - inversion H1. inversion H2. exists []. split; reflexivity.
  - bind_inv H1 as y1 Hy1. bind_inv H1 as ys1 Hys1. inversion H1; subst bvf.
    bind_inv H2 as y2 Hy2. bind_inv H2 as ys2 Hys2. inversion H2; subst appended.
    clear H1 H2.
    destruct (subscript x "name") as [n |] eqn:Hn; [| discriminate Hy1].
    simpl in Hy1, Hy2.
    destruct (value_in n ignore); simpl in Hy1, Hy2.
    + inversion Hy1. inversion Hy2. subst y1 y2.
      destruct (IH ys1 ys2 Hys1 Hys2 Hstr) as [names [Hb Ha]].
      exists names. split; assumption.
    + inversion Hy1; subst y1.
      bind_inv Hy2 as x' Hx'. inversion Hy2; subst y2.
      destruct (IH ys1 ys2 Hys1 Hys2) as [names [Hb Ha]];
        [intros d Hd; apply Hstr; right; exact Hd |].
      destruct (setitem_group_label _ _ Hx') as [_ Hname].
      destruct (Hstr x' (or_introl eq_refl)) as [s Hs].
      rewrite Hname, Hn in Hs. inversion Hs; subst n.
      exists (s :: names). split; [simpl; rewrite Hb; reflexivity |].
      rewrite names_of_cons, Hname, Hn, Ha. reflexivity.
Qed.

(** X16. In a view generated with a base table, the SQL selects, after the
    columns of the metrics, the base fields (the first as it is, every
    further one after the qualifier [base.]) and groups by them, and these
    are, in the same order, the names of the base fields appended to the
    dimensions. *)
Theorem to_lookml_base_fields_in_sql (self : View.t) (bq_client : BqClient)
        (v1_name : option string) (out : Value)
        (table0 : list (string * string)) (rest : list (list (string * string))) :
  to_lookml env self bq_client v1_name = Ok out ->
  out <> VDict [] ->
  View.tables self = table0 :: rest ->
  exists names appended metric_dimensions columns middle,
    get_dimensions env self = Ok metric_dimensions
    /\ view_field out "dimensions" = Ok (VList (metric_dimensions ++ appended))
    /\ names_of appended = map VStr names
    /\ view_field out "derived_table"
       = Ok (VDict [ ("sql", VStr ("
            SELECT
                " ++ String.concat "" columns ++ "
                " ++ String.concat "base." (map (fun n => n ++ ",
") names) ++ "
                m." ++ middle ++ " %} AS DATE
                )
            GROUP BY
                " ++ String.concat "" (map (fun n => n ++ ",
") names) ++ "
                client_id,
                analysis_basis
            ")%string) ]).
Proof.
  intros H Hne Ht.
  destruct (to_lookml_generated _ _ _ _ H Hne)
    as [nd dsd columns ignore bvf lk jbv from_sql mdims dims groups measures sets
        dsn Hnd Hdsd Hcols Hcne Hignore Hbase Hfmt Hdims Hmerge Hmeas Hsets].
  unfold base_view_block in Hbase. rewrite Ht in Hbase.
  bind_inv Hbase as base_table Htable. bind_inv Hbase as lkml Hlkml.
  bind_inv Hbase as bdims Hitems. bind_inv Hbase as fields Hfields.
  inversion Hbase; subst bvf lk jbv. clear Hbase.
  unfold merge_base_fields in Hmerge.
  rewrite (base_view_items_truthy _ _ Hitems) in Hmerge.
  bind_inv Hmerge as ds Hds. bind_inv Hmerge as gs Hgs.
  inversion Hmerge; subst dims groups. clear Hmerge.
  unfold base_fields_to_append in Hds. rewrite Hitems in Hds. simpl in Hds.
  destruct (base_fields_selected_and_appended _ _ Hfields Hds) as [names [Hb Ha]].
  { intros d Hd. apply (@get_measures_names_str _ env self _ _ Hmeas).
    apply in_or_app. right. exact Hd. }
  exists names, ds, mdims, columns. eexists.
  rewrite view_field_dimensions, view_field_derived_table, Hb.
  split; [exact Hdims |]. split; [reflexivity |]. split; [exact Ha |].
  unfold derived_table_sql. do 5 rewrite fstr_cons.
  match goal with
  | |- context [fstr ?l] =>
      change (fstr l) with (fstr (firstn 13 l ++ nth 13 l "" :: skipn 14 l))
  end.
  rewrite fstr_split. cbn [firstn skipn nth].
  rewrite (fstr_cons (String.concat "" _)).
  reflexivity.
Qed.

End Further.

(** ** The shape of the SQL with a base table *)

Lemma concat_base_qualifier (field : string) (fields : list string) :
  String.concat "base." (field :: fields)
  = (field ++ fstr (map (fun f => "base." ++ f) fields))%string.
Proof.
  revert field. induction fields as [| g rest IH]; intros field.
  - simpl. rewrite string_app_nil_r. reflexivity.
  - change (String.concat "base." (field :: g :: rest))
      with (field ++ "base." ++ String.concat "base." (g :: rest))%string.
    rewrite IH. cbn [map]. rewrite fstr_cons, string_app_assoc. reflexivity.
Qed.

Lemma join_base_view_sql_truthy (base_table : string)
      (data_source_definition : DataSourceDefinition.t) :
  truthy (VStr (join_base_view_sql base_table data_source_definition)) = true.
Proof.
  unfold join_base_view_sql. rewrite fstr_cons. reflexivity.
Qed.

(** X17. In the SQL of a view with base fields, the SELECT list names the
    first base field without qualifier and every further one with the
    qualifier [base.]; after the join with the base table, the date bound on
    [m.submission_date] is introduced with [AND]. *)
Theorem derived_table_sql_with_base_table (columns : list string)
        (field : string) (fields : list string)
        (data_source_definition : DataSourceDefinition.t)
        (from_sql base_table : string) :
  let sql := derived_table_sql columns (field :: fields) data_source_definition
                               from_sql
                               (join_base_view_sql base_table data_source_definition) in
  (exists before after,
      sql = (before ++ "
                " ++ field ++ fstr (map (fun f => "base." ++ f) fields) ++ "
                m." ++ after)%string)
  /\ (exists before after,
         sql = (before
                ++ join_base_view_sql base_table data_source_definition
                ++ "
            AND m.submission_date BETWEEN" ++ after)%string).
Proof.
  intros sql. subst sql. unfold derived_table_sql.
  rewrite join_base_view_sql_truthy, concat_base_qualifier. split.
  - eexists. eexists.
    match goal with
    | |- fstr ?l = _ =>
        change (fstr l) with (fstr (firstn 2 l ++ nth 2 l "" :: skipn 3 l))
    end.
    rewrite fstr_split. cbn [firstn skipn nth].
    rewrite (fstr_cons (field ++ _)%string). rewrite (fstr_cons "
                m.").
    rewrite (string_app_assoc field). reflexivity.
  - eexists. eexists.
    match goal with
    | |- fstr ?l = _ =>
        change (fstr l) with (fstr (firstn 11 l ++ nth 11 l "" :: skipn 12 l))
    end.
    rewrite fstr_split. cbn [firstn skipn nth].
    rewrite (fstr_cons "
            "). rewrite (fstr_cons "AND").
    rewrite (fstr_cons " m.submission_date BETWEEN
                SAFE_CAST(
                    {% date_start ").
    reflexivity.
Qed.

(** ** What [get_dimensions] returns, and when a view is generated *)


Lemma get_measures_of_labelled (BqClient : Type) (env : Env BqClient)
      (self : View.t) (dimensions : list Value) :
  Forall (fun d => exists n l, subscript d "name" = Ok (VStr n)
                               /\ subscript d "label" = Ok (VStr l))
         dimensions ->
  exists measures,
    get_measures env self dimensions = Ok measures
    /\ Forall (fun m => exists n, subscript m "name" = Ok (VStr n)) measures.
Proof.
  unfold get_measures.
  induction 1 as [| d ds [n [l [Hn Hl]]] Hds [ms [Hms Hnamed]]].
  - exists []. split; [reflexivity | constructor].
  - assert (Hd : exists zs, measures_of_dimension env self d = Ok zs
                            /\ Forall (fun m => exists n, subscript m "name" = Ok (VStr n)) zs).
    { unfold measures_of_dimension. rewrite Hn. simpl.
      destruct (ConfigCollection.get_metric_definition _ _ _) as [metric |];
        [| exists []; split; [reflexivity | constructor]].
      destruct (Metric.statistics metric) as [[| entry rest] |];
        try (exists []; split; [reflexivity | constructor]).
      destruct (@measures_of_statistics_recognised _ env d n (VStr l)
                                                   (entry :: rest) Hn Hl)
        as [zs [Hzs Hall]].
      exists zs. split; [exact Hzs |].
      clear Hzs. induction Hall as [| m slug zs' slugs [Hm _] Hrest IH];
        constructor; [eexists; exact Hm | exact IH]. }
    destruct Hd as [zs [Hzs Hznamed]].
    exists (zs ++ ms). simpl. rewrite Hzs. simpl. rewrite Hms. simpl.
    split; [reflexivity | apply Forall_app; split; assumption].
Qed.

Lemma get_dimensions_labelled (BqClient : Type) (env : Env BqClient)
      (self : View.t) (dimensions : list Value) :
  get_dimensions env self = Ok dimensions ->
  Forall (fun d => exists n l, subscript d "name" = Ok (VStr n)
                               /\ subscript d "label" = Ok (VStr l))
         dimensions.
Proof.
  intros H.
  destruct (ConfigCollection.get_platform_definitions (configs env) (View.namespace self))
    as [nd |] eqn:Hnd;
    [| unfold get_dimensions in H; rewrite Hnd in H; discriminate H].
  pose proof (@get_dimensions_Ok _ env self nd _ Hnd H) as Hsrc.
  rewrite (@get_dimensions_declared _ env self nd Hnd Hsrc) in H.
  injection H as <-. constructor.
  - eexists. eexists. split; reflexivity.
  - induction (selected_metrics _ _) as [| [slug metric] rest IH]; simpl; constructor.
    + eexists. eexists. split; reflexivity.
    + exact IH.
Qed.

Lemma bind_Ok (A B : Type) (a : A) (k : A -> Result B) : bind (Ok a) k = k a.
Proof. reflexivity. Qed.

(** [_get_sets] on dimensions and measures that have names. *)
Lemma _get_sets_of_named (BqClient : Type) (env : Env BqClient) (self : View.t)
      (dimensions measures : list Value) :
  get_dimensions env self = Ok dimensions ->
  get_measures env self dimensions = Ok measures ->
  Forall (fun m => exists n, subscript m "name" = Ok (VStr n)) measures ->
  _get_sets env self
  = Ok [ VDict [ ("name", VStr "metrics");
                 ("fields",
                  VList (names_except_client_id dimensions ++ names_of measures)) ] ].
Proof.
  intros Hgd Hms Hnamed.
  pose proof (get_dimensions_labelled _ self Hgd) as Hlab.
  assert (Hd : filter_mapM
                 (fun dimension =>
                    n <- subscript dimension "name" ;;
                    if negb (value_eq_str n "client_id")
                    then (n' <- subscript dimension "name" ;; Ok (Some n'))
                    else Ok None)
                 dimensions
               = Ok (names_except_client_id dimensions)).
  { clear Hgd Hms. unfold names_except_client_id.
    induction Hlab as [| d ds [n [l [Hn _]]] Hds IH]; [reflexivity |].
    cbn [filter_mapM]. rewrite IH, names_of_cons, Hn. simpl.
    destruct (String.eqb n "client_id"); reflexivity. }
  assert (Hm : mapM (fun measure => subscript measure "name") measures
               = Ok (names_of measures)).
  { clear Hms. induction Hnamed as [| m rest [n Hn] Hrest IH]; [reflexivity |].
    cbn [mapM]. rewrite IH, names_of_cons, Hn. reflexivity. }
  unfold _get_sets. rewrite Hgd, bind_Ok, Hms, bind_Ok, Hd, bind_Ok, Hm.
  reflexivity.
Qed.

Section Generation.

Variable BqClient : Type.
Variable env : Env BqClient.

(** X18. With platform definitions for the namespace in which every
    metric that has a select expression names its data source,
    [get_dimensions], [get_measures] on its dimensions and [_get_sets] all
    return: the dimensions of [get_dimensions] have the name and the label
    that [get_measures] reads. *)
Theorem _get_sets_returns (self : View.t)
        (namespace_definitions : PlatformDefinitions.t) :
  ConfigCollection.get_platform_definitions (configs env) (View.namespace self)
    = Some namespace_definitions ->
  sources_declared
    (MetricsSpec.definitions (PlatformDefinitions.metrics namespace_definitions)) ->
  exists dimensions measures,
    get_dimensions env self = Ok dimensions
    /\ get_measures env self dimensions = Ok measures
    /\ _get_sets env self
       = Ok [ VDict [ ("name", VStr "metrics");
                      ("fields",
                       VList (names_except_client_id dimensions
                              ++ names_of measures)) ] ].
Proof.
  intros Hnd Hsrc.
  destruct (get_dimensions_names _ self Hnd Hsrc) as [cid [mds [Hgd _]]].
  pose proof (get_dimensions_labelled _ self Hgd) as Hlab.
  destruct (get_measures_of_labelled env self Hlab) as [ms [Hms Hnamed]].
  exists (cid :: mds), ms. split; [exact Hgd |]. split; [exact Hms |].
  exact (_get_sets_of_named _ self Hgd Hms Hnamed).
Qed.

(** X19. A view without tables is generated whenever the namespace and the
    data source are defined, the comprehension of the SQL columns returns at
    least one column (every metric with a select expression then has a data
    source, and the expressions of the contributing ones are rendered) and
    the SQL of the data source is formatted: the two other comprehensions
    over the metrics, [get_measures] and [_get_sets] then return as well,
    and the record holds the dimensions of [get_dimensions], the group
    [submission] and the SQL without join. *)
Theorem to_lookml_without_tables_returns (self : View.t) (bq_client : BqClient)
        (v1_name : option string)
        (namespace_definitions : PlatformDefinitions.t)
        (data_source_definition : DataSourceDefinition.t)
        (column : string) (columns : list string) (from_sql : string) :
  let data_source_name := re_sub_prefix "metric_definitions_" (View.name self) in
  ConfigCollection.get_platform_definitions (configs env) (View.namespace self)
    = Some namespace_definitions ->
  ConfigCollection.get_data_source_definition (configs env) data_source_name
                                              (View.namespace self)
    = Some data_source_definition ->
  metric_definitions env namespace_definitions data_source_name
    = Ok (column :: columns) ->
  View.tables self = [] ->
  format_dataset env
    (ConfigCollection.get_data_source_sql (configs env) data_source_name
                                          (View.namespace self))
    (View.namespace self) = Ok from_sql ->
  exists dimensions measures,
    get_dimensions env self = Ok dimensions
    /\ get_measures env self dimensions = Ok measures
    /\ to_lookml env self bq_client v1_name
       = Ok (view_record
               (View.name self)
               (derived_table_sql (column :: columns) [] data_source_definition
                                  from_sql "")
               dimensions (get_dimension_groups self) measures
               [ VDict [ ("name", VStr "metrics");
                         ("fields",
                          VList (names_except_client_id dimensions
                                 ++ names_of measures)) ] ]
               (_get_parameters self)).
Proof.
  intros dsn Hnd Hdsd Hcols Ht Hfmt.
  destruct (metric_definitions_Ok _ _ _ Hcols) as [Hsrc _].
  destruct (get_dimensions_names _ self Hnd Hsrc) as [cid [mds [Hgd _]]].
  pose proof (get_dimensions_labelled _ self Hgd) as Hlab.
  destruct (get_measures_of_labelled env self Hlab) as [ms [Hms Hnamed]].
  exists (cid :: mds), ms. split; [exact Hgd |]. split; [exact Hms |].
  unfold to_lookml. fold dsn. rewrite Hnd, Hdsd, Hcols, bind_Ok.
  cbv iota beta. rewrite (ignore_base_fields_declared _ dsn Hsrc), bind_Ok.
  unfold base_view_block. rewrite Ht, bind_Ok. cbv iota beta.
  rewrite Hfmt, bind_Ok, Hgd, bind_Ok.
  unfold merge_base_fields. rewrite bind_Ok. cbv iota beta.
  rewrite Hms, bind_Ok, (_get_sets_of_named _ self Hgd Hms Hnamed).
  reflexivity.
Qed.


(** X21. A metric of the namespace with a select expression and no data
    source, whatever its type and wherever it stands among the metrics,
    stops every comprehension over the metrics at the attribute [name]:
    [get_dimensions] and [_get_sets] raise [AttributeError], and so does
    [to_lookml] for a defined data source, unless rendering the select
    expression of a contributing metric has raised before.  Conversely
    [get_dimensions] returns only if every metric with a select expression
    has a data source. *)
Theorem metric_without_data_source_raises (self : View.t) (bq_client : BqClient)
        (v1_name : option string)
        (namespace_definitions : PlatformDefinitions.t) :
  ConfigCollection.get_platform_definitions (configs env) (View.namespace self)
    = Some namespace_definitions ->
  let data_source_name := re_sub_prefix "metric_definitions_" (View.name self) in
  (forall slug metric,
      In (slug, metric)
         (MetricsSpec.definitions (PlatformDefinitions.metrics namespace_definitions)) ->
      truthy_str (Metric.select_expression metric) = true ->
      Metric.data_source metric = None ->
      get_dimensions env self = Raise AttributeError
      /\ _get_sets env self = Raise AttributeError
      /\ (forall data_source_definition,
             ConfigCollection.get_data_source_definition
               (configs env) data_source_name (View.namespace self)
             = Some data_source_definition ->
             exists error, to_lookml env self bq_client v1_name = Raise error)
      /\ (forall data_source_definition,
             ConfigCollection.get_data_source_definition
               (configs env) data_source_name (View.namespace self)
             = Some data_source_definition ->
             (forall e, exists rendered,
                 ConfigCollection.render (configs env) e = Ok rendered) ->
             to_lookml env self bq_client v1_name = Raise AttributeError))
  /\ (forall dimensions,
         get_dimensions env self = Ok dimensions ->
         sources_declared
           (MetricsSpec.definitions
              (PlatformDefinitions.metrics namespace_definitions))).
Proof.
  intros Hnd dsn. split; [| intros dimensions; apply get_dimensions_Ok; exact Hnd].
  intros slug metric Hin Hs Hd.
  assert (Hgd : get_dimensions env self = Raise AttributeError).
  { rewrite (get_dimensions_site _ self Hnd).
    rewrite (metrics_comprehension_undeclared
               (dimension_of_metric env) _ _ _ _ Hin Hs Hd).
    reflexivity. }
  split; [exact Hgd |].
  split; [unfold _get_sets; rewrite Hgd; reflexivity |].
  split.
  - intros dsd Hdsd. unfold to_lookml. fold dsn. rewrite Hnd, Hdsd.
    rewrite metric_definitions_site.
    destruct (@filter_mapM_Raise
                _ _
                (fun entry =>
                   keep <- metric_filter dsn (snd entry) ;;
                   if keep then (y <- column_of_metric env entry ;; Ok (Some y))
                   else Ok None)
                (MetricsSpec.definitions
                   (PlatformDefinitions.metrics namespace_definitions))
                (slug, metric) AttributeError Hin) as [error Herr].
    + cbn [snd]. rewrite (metric_filter_undeclared dsn metric Hs Hd). reflexivity.
    + rewrite Herr. exists error. reflexivity.
  - intros dsd Hdsd Hrender. unfold to_lookml. fold dsn. rewrite Hnd, Hdsd.
    rewrite metric_definitions_site.
    assert (Hraise :
              filter_mapM
                (fun entry =>
                   keep <- metric_filter dsn (snd entry) ;;
                   if keep then (y <- column_of_metric env entry ;; Ok (Some y))
                   else Ok None)
                (MetricsSpec.definitions
                   (PlatformDefinitions.metrics namespace_definitions))
              = Raise AttributeError).
    { clear Hnd Hgd.
      induction (MetricsSpec.definitions
                   (PlatformDefinitions.metrics namespace_definitions))
        as [| x rest IH]; [contradiction |].
      cbn [filter_mapM].
      destruct Hin as [Hin | Hin].
      - subst x. cbn [snd].
        rewrite (metric_filter_undeclared dsn metric Hs Hd). reflexivity.
      - rewrite (IH Hin).
        destruct (metric_filter dsn (snd x)) as [keep | e] eqn:Hx.
        + destruct keep; [| reflexivity].
          cbn [bind]. unfold column_of_metric.
          destruct (metric_filter_Ok _ _ Hx) as [Hc _]. symmetry in Hc.
          apply contributesb_iff in Hc.
          destruct Hc as [[e [He _]] _]. rewrite He.
          destruct (Hrender e) as [rendered Hr]. rewrite Hr. reflexivity.
        + revert Hx. unfold metric_filter, data_source_name_of.
          destruct (truthy_str (Metric.select_expression (snd x))); simpl;
            [| intros Hx; discriminate Hx].
          destruct (Metric.data_source (snd x)); simpl; intros Hx;
            [discriminate Hx | inversion Hx; reflexivity]. }
    rewrite Hraise. reflexivity.
Qed.

End Generation.

(** ** What a run leaves in the record of the table view *)

Lemma dict_set_twice (V : Type) (k : string) (v v' : V) (d : list (string * V)) :
  dict_set k v' (dict_set k v d) = dict_set k v' d.
Proof.
  induction d as [| [k0 v0] rest IH]; simpl.
  - rewrite String.eqb_refl. reflexivity.
  - destruct (String.eqb k0 k) eqn:E; simpl.
    + rewrite String.eqb_refl. reflexivity.
    + rewrite E, IH. reflexivity.
Qed.

Lemma label_base_fields_relabelled (ignore : list string)
      (fields fields' appended : list Value) :
  label_base_fields ignore fields = Ok (fields', appended) ->
  Forall2 (relabelled ignore) fields fields'.
Proof.
  revert fields' appended.
  induction fields as [| d rest IH]; simpl; intros fields' appended H.
  - inversion H. constructor.
  - bind_inv H as n Hn. bind_inv H as step Hstep. bind_inv H as others Hothers.
    inversion H; subst fields' appended. clear H.
    destruct others as [rest' appended'].
    constructor; [| exact (IH _ _ Hothers)].
    destruct d as [s | l | x]; simpl in Hn; try discriminate Hn.
    unfold getitem in Hn.
    destruct (dict_find "name" x) as [n' |] eqn:Hfind; [| discriminate Hn].
    inversion Hn; subst n'. exists x, n.
    split; [reflexivity |]. split; [exact Hfind |].
    destruct (value_in n ignore); simpl in Hstep; inversion Hstep; reflexivity.
Qed.

Section Record.

Variable BqClient : Type.
Variable env : Env BqClient.

(** X22. A run of [to_lookml] that generates a view without tables has no
    record of a table view.  A run that generates a view from a base table
    leaves the record of its table view changed in one way: in the lists
    [dimensions] and [dimension_groups] of its first view every field whose
    name is none of the four fixed names and no slug of a contributing
    metric has the group label "Base Fields"; every other field, every other
    key of the first view, every further view and every other key of the
    record is as the table view returned it. *)
Theorem to_lookml_st_record (self : View.t) (bq_client : BqClient)
        (v1_name : option string) (out : Value) (record_after : option Value) :
  to_lookml_st env self bq_client v1_name = Ok (out, record_after) ->
  out <> VDict [] ->
  (View.tables self = [] -> record_after = None)
  /\ (forall table0 rest base_table record view0 views base_dimensions base_groups,
         View.tables self = table0 :: rest ->
         dict_find "table" table0 = Some base_table ->
         TableView_to_lookml env
           (TableView (View.namespace self) "base_view"
                      [ [("table", base_table); ("channel", "release")] ])
           bq_client None = Ok (VDict record) ->
         dict_find "views" record = Some (VList (VDict view0 :: views)) ->
         dict_find "dimensions" view0 = Some (VList base_dimensions) ->
         dict_find "dimension_groups" view0 = Some (VList base_groups) ->
         exists namespace_definitions dimensions' groups',
           ConfigCollection.get_platform_definitions (configs env) (View.namespace self)
             = Some namespace_definitions
           /\ record_after
              = Some (VDict
                        (dict_set "views"
                           (VList
                              (VDict (dict_set "dimension_groups" (VList groups')
                                        (dict_set "dimensions" (VList dimensions')
                                                  view0))
                               :: views))
                           record))
           /\ let ignore :=
                [ "client_id"; "submission_date"; "submission"; "first_run" ]
                ++ map fst
                     (selected_metrics
                        (re_sub_prefix "metric_definitions_" (View.name self))
                        (MetricsSpec.definitions
                           (PlatformDefinitions.metrics namespace_definitions))) in
              Forall2 (relabelled ignore) base_dimensions dimensions'
              /\ Forall2 (relabelled ignore) base_groups groups').
Proof.
  intros H Hne. unfold to_lookml_st in H.
  destruct (ConfigCollection.get_platform_definitions _ _) as [nd |] eqn:Hnd;
    [| inversion H; subst; contradiction].
  destruct (ConfigCollection.get_data_source_definition _ _ _) as [dsd |];
    [| inversion H; subst; contradiction].
  bind_inv H as columns Hcols.
  destruct columns as [| column columns]; [inversion H; subst; contradiction |].
  bind_inv H as ignore Hignore.
  bind_inv H as base Hblock. destruct base as [[bvf lk] jbv].
  bind_inv H as from_sql Hfmt. bind_inv H as dimensions Hdims.
  bind_inv H as merged Hmerge. destruct merged as [[ds gs] record'].
  bind_inv H as measures Hmeas. bind_inv H as sets Hsets.
  inversion H; subst out record'. clear H.
  apply ignore_base_fields_Ok in Hignore.
  unfold base_view_block in Hblock. split.
  - intros Ht. rewrite Ht in Hblock. inversion Hblock; subst bvf lk jbv.
    simpl in Hmerge. inversion Hmerge. reflexivity.
  - intros table0 rest base_table record view0 views base_dimensions base_groups
           Ht Htable Hlkml Hviews Hbd Hbg.
    rewrite Ht in Hblock. unfold getitem in Hblock. rewrite Htable in Hblock.
    cbn [bind] in Hblock. rewrite Hlkml in Hblock. cbn [bind] in Hblock.
    bind_inv Hblock as fields Hfields. bind_inv Hblock as lines Hlines.
    inversion Hblock; subst bvf lk jbv. clear Hblock.
    unfold merge_base_fields_st in Hmerge.
    rewrite (base_view_items_truthy _ _ Hfields) in Hmerge.
    rewrite (@base_view_items_of_record _ _ _ _ _ Hviews Hbd) in Hmerge.
    cbn [bind] in Hmerge.
    bind_inv Hmerge as labelled Hlabelled. destruct labelled as [dimensions' appended].
    cbn [fst snd] in Hmerge.
    rewrite (@store_view_field_other (VDict record) "dimensions" "dimension_groups"
                                     dimensions') in Hmerge by discriminate.
    rewrite (@base_view_items_of_record _ _ _ _ _ Hviews Hbg) in Hmerge.
    cbn [bind] in Hmerge.
    bind_inv Hmerge as labelled_groups Hlabelled_groups.
    destruct labelled_groups as [groups' appended_groups].
    cbn [fst snd] in Hmerge. inversion Hmerge; subst record_after. clear Hmerge.
    exists nd, dimensions', groups'. split; [reflexivity |]. split.
    + f_equal. rewrite Hviews, Hbd.
      unfold store_view_field. rewrite dict_find_set_same.
      rewrite dict_find_set_other by discriminate. rewrite Hbg.
      rewrite dict_set_twice. reflexivity.
    + cbv zeta. rewrite <- Hignore. split.
      * exact (label_base_fields_relabelled _ _ Hlabelled).
      * exact (label_base_fields_relabelled _ _ Hlabelled_groups).
Qed.

End Record.

(** ** The further properties on the example *)

Lemma ex_columns :
  metric_definitions ex_env
    {| PlatformDefinitions.metrics := {| MetricsSpec.definitions := ex_metrics |} |}
    "ds1"
  = Ok [ "SUM(active_hours_sum) AS active_hours,
"; "COUNT(submission_date) AS days_of_use,
" ].
Proof. reflexivity. Defined.

Lemma to_lookml_empty_only_when_unconfigured_witness :
  let view := MetricDefinitionsView "other" "metric_definitions_ds1" [] in
  to_lookml ex_env view tt None = Ok (VDict [])
  /\ (ConfigCollection.get_platform_definitions ex_configs "other" = None
      \/ ConfigCollection.get_data_source_definition ex_configs "ds1" "other" = None
      \/ exists namespace_definitions,
           ConfigCollection.get_platform_definitions ex_configs "other"
             = Some namespace_definitions
           /\ forall slug metric,
                In (slug, metric)
                   (MetricsSpec.definitions
                      (PlatformDefinitions.metrics namespace_definitions)) ->
                ~ contributes "ds1" metric).
Proof.
  intros view. split; [reflexivity |].
  exact (@to_lookml_empty_only_when_unconfigured unit ex_env view tt None eq_refl).
Defined.

Lemma to_lookml_view_record_shape_witness :
  to_lookml ex_env ex_view tt None = Ok ex_out
  /\ ex_out <> VDict []
  /\ exists sql dimensions dimension_groups measures sets,
       ex_out = view_record "metric_definitions_ds1" sql dimensions dimension_groups
                            measures sets (_get_parameters ex_view).
Proof.
  destruct ex_out_generated as [Hout Hne].
  split; [exact Hout |]. split; [exact Hne |].
  destruct (@to_lookml_view_record_shape unit ex_env ex_view tt None ex_out Hout Hne)
    as [sql [cid [md [dims [sub [groups [measures [fields [Heq _]]]]]]]]].
  do 5 eexists. exact Heq.
Defined.

Lemma to_lookml_raises_on_render_failure_witness :
  let env := with_configs ex_env (with_render ex_configs ex_render_no_count) in
  let metric := ex_metric (Some "COUNT(submission_date)") "ds1" "scalar" None
                          (Some [ ("percentile", VDict []) ]) in
  In ("days_of_use", metric) ex_metrics
  /\ contributes "ds1" metric
  /\ ex_render_no_count "COUNT(submission_date)" = Raise TemplateError
  /\ exists error, to_lookml env ex_view tt None = Raise error.
Proof.
  intros env metric.
  assert (Hin : In ("days_of_use", metric) ex_metrics)
    by (simpl; tauto).
  assert (Hc : contributes "ds1" metric).
  { split; [exists "COUNT(submission_date)"; split; [reflexivity | discriminate] |].
    split; [eexists; split; reflexivity | discriminate]. }
  split; [exact Hin |]. split; [exact Hc |]. split; [reflexivity |].
  exact (@to_lookml_raises_on_render_failure
           unit env ex_view tt None
           {| PlatformDefinitions.metrics := {| MetricsSpec.definitions := ex_metrics |} |}
           _ "days_of_use" metric "COUNT(submission_date)" TemplateError
           eq_refl eq_refl Hin Hc eq_refl eq_refl).
Defined.

Lemma to_lookml_renders_contributing_only_witness :
  ex_render_no_histogram "HISTOGRAM(latency)" = Raise TemplateError
  /\ to_lookml (with_configs ex_env (with_render ex_configs ex_render_no_histogram))
               ex_view_base tt None
     = to_lookml ex_env ex_view_base tt None.
Proof.
  split; [reflexivity |].
  apply (@to_lookml_renders_contributing_only unit ex_env ex_view_base tt None
            ex_render_no_histogram).
  intros nd slug metric e Hnd Hin [_ [_ Htype]] He.
  inversion Hnd; subst nd. simpl in Hin.
  repeat (destruct Hin as [Hin | Hin];
          [inversion Hin; subst slug metric;
           first [ inversion He; reflexivity
                 | exfalso; apply Htype; reflexivity
                 | discriminate He ] |]).
  contradiction.
Defined.

Lemma to_lookml_raises_without_table_key_witness :
  View.tables ex_view_no_table_key = [ [ ("channel", "release") ] ]
  /\ dict_find "table" [ ("channel", "release") ] = None
  /\ to_lookml ex_env ex_view_no_table_key tt None = Raise KeyError.
Proof.
  split; [reflexivity |]. split; [reflexivity |].
  exact (@to_lookml_raises_without_table_key
           unit ex_env ex_view_no_table_key tt None _ _ _ _ _ _
           eq_refl eq_refl ex_columns eq_refl eq_refl).
Defined.

Lemma to_lookml_raises_table_view_errors_witness :
  let env := with_table_view ex_env ex_unreachable_table_view in
  TableView_to_lookml env
    (TableView "ns" "base_view"
               [ [ ("table", "mozdata.ns.baseline"); ("channel", "release") ] ])
    tt None = Raise ExternalError
  /\ to_lookml env ex_view_base tt None = Raise ExternalError.
Proof.
  intros env. split; [reflexivity |].
  exact (@to_lookml_raises_table_view_errors
           unit env ex_view_base tt None _ _ _ _ _ _ "mozdata.ns.baseline"
           ExternalError eq_refl eq_refl ex_columns eq_refl eq_refl
           (or_introl eq_refl)).
Defined.

Lemma to_lookml_dimension_groups_witness :
  to_lookml ex_env ex_view_base tt None = Ok ex_out_base
  /\ ex_out_base <> VDict []
  /\ (exists record view0 views base_groups,
         ex_table_view
           (TableView "ns" "base_view"
                      [ [ ("table", "mozdata.ns.baseline"); ("channel", "release") ] ])
           tt None = Ok (VDict record)
         /\ dict_find "views" record = Some (VList (VDict view0 :: views))
         /\ dict_find "dimension_groups" view0 = Some (VList base_groups)
         /\ List.length base_groups = 1)
  /\ exists appended,
       view_field ex_out_base "dimension_groups"
       = Ok (VList (get_dimension_groups ex_view_base ++ appended))
       /\ forall d', In d' appended ->
                     subscript d' "group_label" = Ok (VStr "Base Fields").
Proof.
  destruct ex_out_base_generated as [Hout Hne].
  split; [exact Hout |]. split; [exact Hne |].
  split; [eexists; eexists; eexists; eexists;
          split; [reflexivity | split; [reflexivity | split; reflexivity]] |].
  destruct (@to_lookml_dimension_groups unit ex_env ex_view_base tt None
              ex_out_base Hout Hne)
    as [_ [_ Hbase]].
  destruct (Hbase [ ("table", "mozdata.ns.baseline"); ("channel", "beta") ]
                  [ [ ("table", "mozdata.ns.metrics"); ("channel", "release") ] ]
                  "mozdata.ns.baseline" _ _ _ _
                  eq_refl eq_refl eq_refl eq_refl eq_refl)
    as [nd [appended [_ [Hfield [_ Honly]]]]].
  exists appended. split; [exact Hfield |].
  intros d' Hd'. destruct (Honly d' Hd') as [fields [_ [_ [Hlabel _]]]].
  exact Hlabel.
Defined.

Lemma get_measures_sound_witness :
  let dimension := VDict [ ("name", VStr "active_hours");
                           ("label", VStr "Active Hours") ] in
  exists measure measures,
    get_measures ex_env ex_view [dimension] = Ok (measure :: measures)
    /\ subscript measure "group_label" = Ok (VStr "Statistics").
Proof.
  intros dimension.
  destruct (get_measures ex_env ex_view [dimension]) as [[| measure measures] |] eqn:H;
    try (vm_compute in H; discriminate H).
  exists measure, measures. split; [reflexivity |].
  destruct (@get_measures_sound unit ex_env ex_view [dimension] _ _ H
              (or_introl eq_refl))
    as [d [n [metric [stats [_ [_ [_ [_ [Hg _]]]]]]]]].
  exact Hg.
Defined.

Lemma get_measures_without_statistics_witness :
  let dimensions := [ VDict [ ("name", VStr "country");
                              ("sql", VStr "${TABLE}.country") ];
                      VDict [ ("name", VStr "days_of_use") ] ] in
  recognised_statistics_of ex_configs "ns" "country" = []
  /\ recognised_statistics_of ex_configs "ns" "days_of_use" = []
  /\ get_measures ex_env ex_view dimensions = Ok [].
Proof.
  intros dimensions. split; [reflexivity |]. split; [reflexivity |].
  apply (@get_measures_without_statistics unit ex_env ex_view).
  repeat constructor; eexists; split; reflexivity.
Defined.

Lemma get_measures_raises_without_label_witness :
  let labelled := VDict [ ("name", VStr "days_of_use"); ("label", VStr "Days") ] in
  let fields := [ ("name", VStr "uri_count"); ("sql", VStr "${TABLE}.uri_count") ] in
  get_measures ex_env ex_view [labelled] = Ok []
  /\ dict_find "label" fields = None
  /\ get_measures ex_env ex_view ([labelled] ++ VDict fields :: []) = Raise KeyError.
Proof.
  intros labelled fields. split; [reflexivity |]. split; [reflexivity |].
  apply (@get_measures_raises_without_label
            unit ex_env ex_view [labelled] [] [] fields "uri_count"
            (ex_metric (Some "SUM(uri_count)") "ds2" "scalar" None
                       (Some [ ("sum", VDict []) ]))
            [ ("sum", VDict []) ]); try reflexivity.
  discriminate.
Defined.

Lemma to_lookml_measures_witness :
  to_lookml ex_env ex_view_base tt None = Ok ex_out_base
  /\ ex_out_base <> VDict []
  /\ exists metric_measures base_measures,
       view_field ex_out_base "measures"
       = Ok (VList (metric_measures ++ base_measures)).
Proof.
  destruct ex_out_base_generated as [Hout Hne].
  split; [exact Hout |]. split; [exact Hne |].
  destruct (@to_lookml_measures unit ex_env ex_view_base tt None ex_out_base
              Hout Hne)
    as [md [appended [mm [bm [_ [_ [_ [_ [Hm _]]]]]]]]].
  exists mm, bm. exact Hm.
Defined.

Lemma _get_sets_without_client_id_witness :
  exists fields,
    _get_sets ex_env ex_view
    = Ok [ VDict [ ("name", VStr "metrics"); ("fields", VList fields) ] ]
    /\ ~ In (VStr "client_id") fields.
Proof.
  destruct (_get_sets ex_env ex_view) as [sets |] eqn:H;
    [| vm_compute in H; discriminate H].
  destruct (@_get_sets_without_client_id unit ex_env ex_view sets H)
    as [fields [Heq Hno]].
  exists fields. rewrite Heq. split; [reflexivity | exact Hno].
Defined.

Lemma to_lookml_base_fields_in_sql_witness :
  to_lookml ex_env ex_view_base tt None = Ok ex_out_base
  /\ ex_out_base <> VDict []
  /\ View.tables ex_view_base
     = [ ("table", "mozdata.ns.baseline"); ("channel", "beta") ]
       :: [ [ ("table", "mozdata.ns.metrics"); ("channel", "release") ] ]
  /\ exists names appended metric_dimensions,
       view_field ex_out_base "dimensions"
       = Ok (VList (metric_dimensions ++ appended))
       /\ names_of appended = map VStr names.
Proof.
  destruct ex_out_base_generated as [Hout Hne].
  split; [exact Hout |]. split; [exact Hne |]. split; [reflexivity |].
  destruct (@to_lookml_base_fields_in_sql unit ex_env ex_view_base tt None
              ex_out_base _ _ Hout Hne eq_refl)
    as [names [appended [md [columns [middle [_ [Hd [Hn _]]]]]]]].
  exists names, appended, md. split; [exact Hd | exact Hn].
Defined.

Lemma ex_sources_declared : sources_declared ex_metrics.
Proof.
  intros slug metric Hin _. simpl in Hin.
  repeat (destruct Hin as [Hin | Hin];
          [inversion Hin; subst metric; discriminate |]).
  contradiction.
Defined.

Lemma metric_without_data_source_raises_witness :
  ConfigCollection.get_platform_definitions
    (configs ex_undeclared_env) (View.namespace ex_view)
  = Some {| PlatformDefinitions.metrics :=
              {| MetricsSpec.definitions := ex_undeclared_metrics |} |}
  /\ (exists metric,
         In ("orphan", metric) ex_undeclared_metrics
         /\ truthy_str (Metric.select_expression metric) = true
         /\ Metric.data_source metric = None)
  /\ get_dimensions ex_undeclared_env ex_view = Raise AttributeError
  /\ _get_sets ex_undeclared_env ex_view = Raise AttributeError
  /\ to_lookml ex_undeclared_env ex_view tt None = Raise AttributeError.
Proof.
  split; [reflexivity |].
  split; [eexists; split; [right; left; reflexivity | split; reflexivity] |].
  destruct (proj1 (@metric_without_data_source_raises
                     unit ex_undeclared_env ex_view tt None _ eq_refl)
                  "orphan" _ (or_intror (or_introl eq_refl)) eq_refl eq_refl)
    as [Hgd [Hsets [_ Hout]]].
  split; [exact Hgd |]. split; [exact Hsets |].
  apply (Hout _ eq_refl). intros e. exists e. reflexivity.
Defined.

Lemma to_lookml_st_record_witness :
  to_lookml_st ex_env ex_view_base tt None = Ok (ex_out_base, snd ex_run_base)
  /\ ex_out_base <> VDict []
  /\ exists record view0 views base_dimensions base_groups dimensions' groups',
       ex_table_view
         (TableView "ns" "base_view"
                    [ [ ("table", "mozdata.ns.baseline"); ("channel", "release") ] ])
         tt None = Ok (VDict record)
       /\ dict_find "views" record = Some (VList (VDict view0 :: views))
       /\ dict_find "dimensions" view0 = Some (VList base_dimensions)
       /\ dict_find "dimension_groups" view0 = Some (VList base_groups)
       /\ snd ex_run_base
          = Some (VDict
                    (dict_set "views"
                       (VList
                          (VDict (dict_set "dimension_groups" (VList groups')
                                    (dict_set "dimensions" (VList dimensions')
                                              view0))
                           :: views))
                       record))
       /\ List.length dimensions' = 4.
Proof.
  destruct ex_out_base_generated as [_ Hne].
  assert (Hrun : to_lookml_st ex_env ex_view_base tt None
                 = Ok (ex_out_base, snd ex_run_base))
    by (vm_compute; reflexivity).
  split; [exact Hrun |]. split; [exact Hne |].
  destruct (proj2 (@to_lookml_st_record unit ex_env ex_view_base tt None
                                        ex_out_base (snd ex_run_base) Hrun Hne)
                  [ ("table", "mozdata.ns.baseline"); ("channel", "beta") ]
                  [ [ ("table", "mozdata.ns.metrics"); ("channel", "release") ] ]
                  "mozdata.ns.baseline" _ _ _ _ _
                  eq_refl eq_refl eq_refl eq_refl eq_refl eq_refl)
    as [nd [dimensions' [groups' [_ [Hafter [Hdimensions _]]]]]].
  do 5 eexists. exists dimensions', groups'.
  split; [reflexivity |]. split; [reflexivity |]. split; [reflexivity |].
  split; [reflexivity |]. split; [exact Hafter |].
  rewrite <- (Forall2_length Hdimensions). reflexivity.
Defined.

Lemma _get_sets_returns_witness :
  ConfigCollection.get_platform_definitions ex_configs "ns"
  = Some {| PlatformDefinitions.metrics := {| MetricsSpec.definitions := ex_metrics |} |}
  /\ sources_declared ex_metrics
  /\ exists sets, _get_sets ex_env ex_view_base = Ok sets.
Proof.
  split; [reflexivity |]. split; [exact ex_sources_declared |].
  destruct (@_get_sets_returns unit ex_env ex_view_base _ eq_refl
                               ex_sources_declared)
    as [dimensions [measures [_ [_ Hsets]]]].
  eexists. exact Hsets.
Defined.

Lemma to_lookml_without_tables_returns_witness :
  View.tables ex_view = []
  /\ format_dataset ex_env "mozdata.{dataset}.clients_daily" "ns"
     = Ok "mozdata.ns.clients_daily"
  /\ exists out, to_lookml ex_env ex_view tt None = Ok out.
Proof.
  split; [reflexivity |]. split; [reflexivity |].
  destruct (@to_lookml_without_tables_returns
              unit ex_env ex_view tt None _ _ _ _ "mozdata.ns.clients_daily"
              eq_refl eq_refl ex_columns eq_refl eq_refl)
    as [dimensions [measures [_ [_ Hout]]]].
  eexists. exact Hout.
Defined.

